(** * Options pricing, hedging and P&L: a shallow embedding

    The Python sources (models/black_scholes.py, models/greeks.py,
    models/portfolio.py, utils/hedging.py, utils/pnl.py, data/database.py,
    config.py) are embedded function by function.

    Conventions of the embedding:
    - a Python [float] is a real number ([R]); rounding, infinities and NaN
      are not represented.  The two operations on Python floats that raise
      are: [a / b] raises ZeroDivisionError when [b] is zero, and [x ** 2]
      raises OverflowError when the square leaves the range of a double
      (|x| >= 2^512).  Arithmetic on numpy floats (the results of [np.log],
      [np.exp], [np.sqrt], [norm.cdf], [norm.pdf]) never raises;
    - a Python [int] column (ids, contract quantities, day counts) is a [Z];
    - a Python [str] is a [string];
    - a raised exception is the [Raise] case of [result];
    - the SQLAlchemy session is an explicit [DB] value threaded through the
      operations that add rows;
    - the market-data manager and the calendar are explicit arguments. *)

From Stdlib Require Import Reals Lra Lia ZArith String DecimalString List Bool.
Import ListNotations.
Open Scope R_scope.

(** ** Standard normal distribution (scipy.stats.norm) *)

Module Norm.

(** Coefficients of the Maclaurin series of the normal CDF:
    cdf x = 1/2 + (1/sqrt(2 pi)) * sum_n (-1)^n x^(2n+1) / (n! 2^n (2n+1)). *)
Definition cdf_coef (n : nat) : R :=
  (-1) ^ n / (INR (fact n) * 2 ^ n * INR (2 * n + 1)).

Lemma cdf_coef_den_pos (n : nat) : 0 < INR (fact n) * 2 ^ n * INR (2 * n + 1).
Proof.
  apply Rmult_lt_0_compat; [apply Rmult_lt_0_compat|].
  - apply INR_fact_lt_0.
  - apply pow_lt; lra.
  - apply lt_0_INR; lia.
Qed.

Lemma cdf_coef_nz (n : nat) : cdf_coef n <> 0.
Proof.
  unfold cdf_coef, Rdiv. apply Rmult_integral_contrapositive_currified.
  - apply pow_nonzero; lra.
  - apply Rinv_neq_0_compat, Rgt_not_eq, cdf_coef_den_pos.
Qed.

Lemma cdf_coef_ratio (n : nat) :
  Rabs (cdf_coef (S n) / cdf_coef n) =
  INR (2 * n + 1) / (INR (S n) * 2 * INR (2 * n + 3)).
Proof.
  unfold cdf_coef.
  replace (2 * S n + 1)%nat with (2 * n + 3)%nat by lia.
  rewrite fact_simpl, mult_INR. simpl pow.
  assert (Hf : INR (fact n) <> 0) by apply INR_fact_neq_0.
  assert (Hp : 2 ^ n <> 0) by (apply pow_nonzero; lra).
  assert (Hm : (-1) ^ n <> 0) by (apply pow_nonzero; lra).
  assert (H1 : 0 < INR (2 * n + 1)) by (apply lt_0_INR; lia).
  assert (H3 : 0 < INR (2 * n + 3)) by (apply lt_0_INR; lia).
  assert (HS : 0 < INR (S n)) by (apply lt_0_INR; lia).
  replace (-1 * (-1) ^ n / (INR (S n) * INR (fact n) * (2 * 2 ^ n) * INR (2 * n + 3)) /
           ((-1) ^ n / (INR (fact n) * 2 ^ n * INR (2 * n + 1))))
    with (- (INR (2 * n + 1) / (INR (S n) * 2 * INR (2 * n + 3))))
    by (field; repeat split; lra).
  rewrite Rabs_Ropp. apply Rabs_right, Rle_ge.
  apply Rmult_le_pos; [lra|]. left. apply Rinv_0_lt_compat.
  apply Rmult_lt_0_compat; [lra|assumption].
Qed.

Lemma cdf_coef_ratio_le (n : nat) :
  Rabs (cdf_coef (S n) / cdf_coef n) <= / INR (S n).
Proof.
  rewrite cdf_coef_ratio.
  assert (H1 : 0 < INR (2 * n + 1)) by (apply lt_0_INR; lia).
  assert (HS : 0 < INR (S n)) by (apply lt_0_INR; lia).
  assert (H13 : INR (2 * n + 3) = INR (2 * n + 1) + 2).
  { replace (2 * n + 3)%nat with ((2 * n + 1) + 2)%nat by lia.
    rewrite plus_INR. simpl. lra. }
  rewrite H13.
  apply Rmult_le_reg_r with (INR (S n) * 2 * (INR (2 * n + 1) + 2)).
  - apply Rmult_lt_0_compat; lra.
  - replace (INR (2 * n + 1) / (INR (S n) * 2 * (INR (2 * n + 1) + 2)) *
             (INR (S n) * 2 * (INR (2 * n + 1) + 2)))
      with (INR (2 * n + 1)) by (field; lra).
    replace (/ INR (S n) * (INR (S n) * 2 * (INR (2 * n + 1) + 2)))
      with (2 * (INR (2 * n + 1) + 2)) by (field; lra).
    lra.
Qed.

Lemma cdf_coef_cv : Un_cv (fun n => Rabs (cdf_coef (S n) / cdf_coef n)) 0.
Proof.
  intros eps Heps.
  destruct (archimed_cor1 eps Heps) as [N [HN HN0]].
  exists N. intros n Hn. unfold Rdist. rewrite Rminus_0_r, Rabs_Rabsolu.
  apply Rle_lt_trans with (/ INR (S n)); [apply cdf_coef_ratio_le|].
  apply Rle_lt_trans with (/ INR N); [|assumption].
  apply Rinv_le_contravar.
  - apply lt_0_INR; assumption.
  - apply le_INR. lia.
Qed.

(** The sum of the series [sum_n cdf_coef n * y^n], a total function of y. *)
Definition cdf_series (y : R) : R :=
  proj1_sig (Alembert_C3 cdf_coef y cdf_coef_nz cdf_coef_cv).

(** norm.pdf *)
Definition pdf (x : R) : R := exp (- (x * x) / 2) / sqrt (2 * PI).

(** norm.cdf *)
Definition cdf (x : R) : R := / 2 + x * cdf_series (x * x) / sqrt (2 * PI).

Lemma cdf_neg (x : R) : cdf (- x) = 1 - cdf x.
Proof.
  unfold cdf. replace (- x * - x) with (x * x) by ring. field.
  apply Rgt_not_eq, sqrt_lt_R0. generalize PI_RGT_0. lra.
Qed.

Lemma cdf_0 : cdf 0 = / 2.
Proof. unfold cdf. unfold Rdiv. rewrite !Rmult_0_l. lra. Qed.

End Norm.

(** ** Python built-ins and exceptions *)

Inductive exn : Type :=
| ValueError (msg : string)
| RuntimeError (msg : string)
| ZeroDivisionError
| OverflowError.

Inductive result (A : Type) : Type :=
| Ok (a : A)
| Raise (e : exn).
Arguments Ok {A} a.
Arguments Raise {A} e.

Definition bind {A B : Type} (m : result A) (k : A -> result B) : result B :=
  match m with
  | Ok a => k a
  | Raise e => Raise e
  end.

Notation "x <- m ;; k" := (bind m (fun x => k))
  (at level 61, m at next level, right associativity).

(** [max(a, b)]: the first argument unless the second is strictly greater. *)
Definition pymax (a b : R) : R := if Rlt_dec a b then b else a.

(** [sum(xs)]: left to right, starting from 0. *)
Definition pysum (xs : list R) : R := fold_left Rplus xs 0.

(** [x or 0] on an optional float. *)
Definition or_zero (x : option R) : R :=
  match x with
  | Some v => if Req_dec_T v 0 then 0 else v
  | None => 0
  end.

Definition is_ok {A : Type} (m : result A) : bool :=
  match m with Ok _ => true | Raise _ => false end.

(** [a / b] on two Python floats. *)
Definition py_truediv (a b : R) : result R :=
  if Req_dec_T b 0 then Raise ZeroDivisionError else Ok (a / b).

(** The least magnitude whose square is no longer a finite double. *)
Definition float_pow_bound : R := 2 ^ 512.

(** [x ** 2] on a Python float. *)
Definition py_pow2 (x : R) : result R :=
  if Rle_dec float_pow_bound (Rabs x) then Raise OverflowError
  else Ok (x ^ 2).

(** ** models/black_scholes.py *)

Module BlackScholes.

Definition black_scholes_price (S K T r sigma : R) (option_type : string)
  (q : R) : result R :=
  if Rle_dec T 0 then
    if String.eqb option_type "call" then Ok (pymax 0 (S - K))
    else Ok (pymax 0 (K - S))
  else if Rle_dec sigma 0 then Raise (ValueError "Volatility must be positive")
  else
    ratio <- py_truediv S K ;;
    sigma_sq <- py_pow2 sigma ;;
    let d1 := (ln ratio + (r - q + sigma_sq / 2) * T) / (sigma * sqrt T) in
    let d2 := d1 - sigma * sqrt T in
    if String.eqb option_type "call" then
      Ok (S * exp (- q * T) * Norm.cdf d1 - K * exp (- r * T) * Norm.cdf d2)
    else if String.eqb option_type "put" then
      Ok (K * exp (- r * T) * Norm.cdf (- d2) - S * exp (- q * T) * Norm.cdf (- d1))
    else Raise (ValueError "option_type must be 'call' or 'put'").

Definition calculate_delta (S K T r sigma : R) (option_type : string)
  (q : R) : result R :=
  if Rle_dec T 0 then
    if String.eqb option_type "call" then
      Ok (if Rgt_dec S K then 1 else 0)
    else
      Ok (if Rlt_dec S K then -1 else 0)
  else
    ratio <- py_truediv S K ;;
    sigma_sq <- py_pow2 sigma ;;
    let d1 := (ln ratio + (r - q + sigma_sq / 2) * T) / (sigma * sqrt T) in
    if String.eqb option_type "call" then
      Ok (exp (- q * T) * Norm.cdf d1)
    else if String.eqb option_type "put" then
      Ok (exp (- q * T) * (Norm.cdf d1 - 1))
    else Raise (ValueError "option_type must be 'call' or 'put'").

(** What [objective] hands to the root finder: a float, or [float('inf')]
    when pricing raised. *)
Inductive xfloat : Type :=
| Finite (x : R)
| Inf.

Definition msg_expired : string := "Cannot calculate IV for expired options".
Definition msg_below_intrinsic : string := "Market price below intrinsic value".
Definition msg_vega_small : string := "Vega too small, cannot converge".
Definition msg_no_convergence (max_iterations : nat) : string :=
  ("Failed to converge after " ++
   NilEmpty.string_of_uint (Nat.to_uint max_iterations) ++ " iterations")%string.

(** The two guards at the head of [implied_volatility]. *)
Definition iv_checks (market_price S K T r : R) (option_type : string)
  (q : R) : result unit :=
  if Rle_dec T 0 then Raise (ValueError msg_expired)
  else if String.eqb option_type "call" then
    let intrinsic := pymax 0 (S * exp (- q * T) - K * exp (- r * T)) in
    if Rlt_dec market_price intrinsic then Raise (ValueError msg_below_intrinsic)
    else Ok tt
  else
    let intrinsic := pymax 0 (K * exp (- r * T) - S * exp (- q * T)) in
    if Rlt_dec market_price intrinsic then Raise (ValueError msg_below_intrinsic)
    else Ok tt.

Definition objective (market_price S K T r : R) (option_type : string) (q : R)
  (sigma : R) : xfloat :=
  match black_scholes_price S K T r sigma option_type q with
  | Ok p => Finite (p - market_price)
  | Raise _ => Inf
  end.

(** The Newton-Raphson loop run when the bracketed search raised ValueError;
    [fuel] counts the iterations left of [range(max_iterations)].
    [python_float] says whether [sigma] is a Python float (the initial guess,
    or the literal 0.01 it is reset to) or a numpy float (the outcome of the
    update [sigma - price_diff / vega]), on which [sigma ** 2] does not
    raise. *)
Fixpoint newton_loop (python_float : bool) (max_iterations fuel : nat)
  (tolerance : R) (market_price S K T r : R) (option_type : string) (q : R)
  (sigma : R) : result R :=
  match fuel with
  | O => Raise (ValueError (msg_no_convergence max_iterations))
  | Datatypes.S fuel' =>
    ratio <- py_truediv S K ;;
    sigma_sq <- (if python_float then py_pow2 sigma else Ok (sigma ^ 2)) ;;
    let d1 := (ln ratio + (r - q + sigma_sq / 2) * T) / (sigma * sqrt T) in
    let vega := S * exp (- q * T) * Norm.pdf d1 * sqrt T in
    if Rlt_dec vega 1e-10 then Raise (ValueError msg_vega_small)
    else
      p <- black_scholes_price S K T r sigma option_type q ;;
      let price_diff := p - market_price in
      if Rlt_dec (Rabs price_diff) tolerance then Ok sigma
      else
        let sigma1 := sigma - price_diff / vega in
        if Rle_dec sigma1 0 then
          newton_loop true max_iterations fuel' tolerance
            market_price S K T r option_type q 0.01
        else
          newton_loop false max_iterations fuel' tolerance
            market_price S K T r option_type q sigma1
  end.

(** The loop as it is entered, with [sigma = initial_sigma]. *)
Definition newton_raphson (max_iterations fuel : nat) (tolerance : R)
  (market_price S K T r : R) (option_type : string) (q : R)
  (sigma : R) : result R :=
  newton_loop true max_iterations fuel tolerance market_price S K T r
    option_type q sigma.

Section ImpliedVolatility.

(** [scipy.optimize.brentq(f, a, b, xtol=..., maxiter=...)]: third-party code,
    taken as a parameter. *)
Variable brentq : (R -> xfloat) -> R -> R -> R -> nat -> result R.

(** The root-finding stage: Brent's method, then Newton-Raphson when it
    raised ValueError. *)
Definition iv_solve (market_price S K T r : R)
  (option_type : string) (q : R) (initial_sigma : R) (max_iterations : nat)
  (tolerance : R) : result R :=
  match brentq (objective market_price S K T r option_type q)
               0.01 5.0 tolerance max_iterations with
  | Ok iv => Ok iv
  | Raise (ValueError _) =>
      newton_raphson max_iterations max_iterations tolerance
        market_price S K T r option_type q initial_sigma
  | Raise e => Raise e
  end.

Definition implied_volatility_full (market_price S K T r : R)
  (option_type : string) (q : R) (initial_sigma : R) (max_iterations : nat)
  (tolerance : R) : result R :=
  _ <- iv_checks market_price S K T r option_type q ;;
  iv_solve market_price S K T r option_type q initial_sigma max_iterations
    tolerance.

(** With the defaults initial_sigma=0.3, max_iterations=100, tolerance=1e-6. *)
Definition implied_volatility (market_price S K T r : R)
  (option_type : string) (q : R) : result R :=
  implied_volatility_full market_price S K T r option_type q 0.3 100 1e-6.

End ImpliedVolatility.

Definition _d1_d2 (S K T r sigma q : R) : result (R * R) :=
  ratio <- py_truediv S K ;;
  sigma_sq <- py_pow2 sigma ;;
  let d1 := (ln ratio + (r - q + sigma_sq / 2) * T) / (sigma * sqrt T) in
  let d2 := d1 - sigma * sqrt T in
  Ok (d1, d2).

Definition validate_inputs (S K T r sigma : R) : result unit :=
  if Rle_dec S 0 then Raise (ValueError "Stock price must be positive")
  else if Rle_dec K 0 then Raise (ValueError "Strike price must be positive")
  else if Rlt_dec T 0 then
    Raise (ValueError "Time to expiration cannot be negative")
  else if Rlt_dec sigma 0 then Raise (ValueError "Volatility cannot be negative")
  else Ok tt.

End BlackScholes.

(** ** models/greeks.py *)

Module Greeks.

Definition delta (S K T r sigma : R) (option_type : string) (q : R)
  : result R :=
  if Rle_dec T 0 then
    if String.eqb option_type "call" then Ok (if Rgt_dec S K then 1 else 0)
    else Ok (if Rlt_dec S K then -1 else 0)
  else
    ratio <- py_truediv S K ;;
    sigma_sq <- py_pow2 sigma ;;
    let d1 := (ln ratio + (r - q + sigma_sq / 2) * T) / (sigma * sqrt T) in
    if String.eqb option_type "call" then Ok (exp (- q * T) * Norm.cdf d1)
    else Ok (exp (- q * T) * (Norm.cdf d1 - 1)).

Definition gamma (S K T r sigma q : R) : result R :=
  if Rle_dec T 0 then Ok 0
  else
    ratio <- py_truediv S K ;;
    sigma_sq <- py_pow2 sigma ;;
    let d1 := (ln ratio + (r - q + sigma_sq / 2) * T) / (sigma * sqrt T) in
    Ok ((exp (- q * T) * Norm.pdf d1) / (S * sigma * sqrt T)).

Definition vega (S K T r sigma q : R) : result R :=
  if Rle_dec T 0 then Ok 0
  else
    ratio <- py_truediv S K ;;
    sigma_sq <- py_pow2 sigma ;;
    let d1 := (ln ratio + (r - q + sigma_sq / 2) * T) / (sigma * sqrt T) in
    let vega_value := S * exp (- q * T) * Norm.pdf d1 * sqrt T in
    Ok (vega_value / 100).

Definition theta (S K T r sigma : R) (option_type : string) (q : R)
  : result R :=
  if Rle_dec T 0 then Ok 0
  else
    ratio <- py_truediv S K ;;
    sigma_sq <- py_pow2 sigma ;;
    let d1 := (ln ratio + (r - q + sigma_sq / 2) * T) / (sigma * sqrt T) in
    let d2 := d1 - sigma * sqrt T in
    let term1 := - (S * exp (- q * T) * Norm.pdf d1 * sigma) / (2 * sqrt T) in
    let theta_value :=
      if String.eqb option_type "call" then
        let term2 := q * S * exp (- q * T) * Norm.cdf d1 in
        let term3 := - r * K * exp (- r * T) * Norm.cdf d2 in
        term1 + term2 + term3
      else
        let term2 := - q * S * exp (- q * T) * Norm.cdf (- d1) in
        let term3 := r * K * exp (- r * T) * Norm.cdf (- d2) in
        term1 + term2 + term3 in
    Ok (theta_value / 365).

Definition rho (S K T r sigma : R) (option_type : string) (q : R)
  : result R :=
  if Rle_dec T 0 then Ok 0
  else
    ratio <- py_truediv S K ;;
    sigma_sq <- py_pow2 sigma ;;
    let d1 := (ln ratio + (r - q + sigma_sq / 2) * T) / (sigma * sqrt T) in
    let d2 := d1 - sigma * sqrt T in
    let rho_value :=
      if String.eqb option_type "call" then K * T * exp (- r * T) * Norm.cdf d2
      else - K * T * exp (- r * T) * Norm.cdf (- d2) in
    Ok (rho_value / 100).

Record greeks : Type := mkGreeks {
  g_delta : R;
  g_gamma : R;
  g_vega : R;
  g_theta : R;
  g_rho : R
}.

Definition calculate_all_greeks (S K T r sigma : R) (option_type : string)
  (q : R) : result greeks :=
  delta_value <- delta S K T r sigma option_type q ;;
  gamma_value <- gamma S K T r sigma q ;;
  vega_value <- vega S K T r sigma q ;;
  theta_value <- theta S K T r sigma option_type q ;;
  rho_value <- rho S K T r sigma option_type q ;;
  Ok {| g_delta := delta_value;
        g_gamma := gamma_value;
        g_vega := vega_value;
        g_theta := theta_value;
        g_rho := rho_value |}.

Definition zero_greeks : greeks :=
  {| g_delta := 0; g_gamma := 0; g_vega := 0; g_theta := 0; g_rho := 0 |}.

Definition lambda_greek (S K T r sigma : R) (option_type : string) (q : R)
  : result R :=
  option_price <- BlackScholes.black_scholes_price S K T r sigma option_type q ;;
  if Req_dec_T option_price 0 then Ok 0
  else
    delta_value <- delta S K T r sigma option_type q ;;
    let lambda_value := delta_value * (S / option_price) in
    Ok lambda_value.

(** An entry of the list given to [portfolio_greeks]: a dict with the keys
    quantity, S, K, T, r, sigma, option_type and, optionally, q. *)
Record greeks_position : Type := mkGreeksPosition {
  gp_quantity : R;
  gp_S : R;
  gp_K : R;
  gp_T : R;
  gp_r : R;
  gp_sigma : R;
  gp_option_type : string;
  gp_q : option R
}.

(** The loop has no [try]: the first position whose Greeks raise ends it. *)
Definition portfolio_greeks (positions : list greeks_position)
  : result greeks :=
  fold_left
    (fun acc position =>
       portfolio <- acc ;;
       let quantity := gp_quantity position in
       greeks <-
         calculate_all_greeks (gp_S position) (gp_K position) (gp_T position)
           (gp_r position) (gp_sigma position) (gp_option_type position)
           (match gp_q position with Some q => q | None => 0 end) ;;
       Ok {| g_delta := g_delta portfolio + g_delta greeks * quantity;
             g_gamma := g_gamma portfolio + g_gamma greeks * quantity;
             g_vega := g_vega portfolio + g_vega greeks * quantity;
             g_theta := g_theta portfolio + g_theta greeks * quantity;
             g_rho := g_rho portfolio + g_rho greeks * quantity |})
    positions (Ok zero_greeks).

Record report : Type := mkRiskReport {
  rr_option_price : R;
  rr_position_value : R;
  rr_greeks : greeks;
  rr_position_delta : R;
  rr_position_gamma : R;
  rr_position_vega : R;
  rr_position_theta : R;
  rr_position_rho : R;
  rr_moneyness : R;
  rr_time_to_expiry_days : R;
  rr_leverage : R
}.

Definition risk_report (S K T r sigma : R) (option_type : string) (q : R)
  (position_size : R) : result report :=
  greeks <- calculate_all_greeks S K T r sigma option_type q ;;
  option_price <- BlackScholes.black_scholes_price S K T r sigma option_type q ;;
  let multiplier := 100 in
  moneyness <- py_truediv S K ;;
  leverage <- lambda_greek S K T r sigma option_type q ;;
  Ok {| rr_option_price := option_price;
        rr_position_value := option_price * position_size * multiplier;
        rr_greeks := greeks;
        rr_position_delta := g_delta greeks * position_size * multiplier;
        rr_position_gamma := g_gamma greeks * position_size * multiplier;
        rr_position_vega := g_vega greeks * position_size * multiplier;
        rr_position_theta := g_theta greeks * position_size * multiplier;
        rr_position_rho := g_rho greeks * position_size * multiplier;
        rr_moneyness := moneyness;
        rr_time_to_expiry_days := T * 365;
        rr_leverage := leverage |}.

End Greeks.

(** ** config.py *)

Module Config.
Definition OPTIONS_MULTIPLIER : R := 100.
Definition RISK_FREE_RATE : R := 0.05.
Definition REHEDGE_THRESHOLD : R := 0.10.
Definition STOCK_COMMISSION : R := 0.01.
Definition OPTIONS_COMMISSION : R := 0.65.
Definition BID_ASK_SPREAD : R := 0.01.
End Config.

(** ** data/database.py

    Dates are day numbers and datetimes are seconds, both [Z]. *)

Module Position.
Record t : Type := mk {
  id : Z;
  symbol : string;
  option_type : string;
  strike : R;
  expiration : Z;
  quantity : Z;
  premium_collected : R;
  entry_price : R;
  entry_date : Z;
  status : string;
  close_date : option Z;
  close_price : option R;
  implied_vol : R;
  risk_free_rate : R;
  dividend_yield : R
}.
End Position.

Module Hedge.
Record t : Type := mk {
  id : Z;
  position_id : Z;
  hedge_quantity : R;
  hedge_price : R;
  hedge_date : Z;
  transaction_cost : R;
  delta_before : R;
  delta_after : R;
  underlying_price : R;
  hedge_type : string
}.
End Hedge.

Module PnLSnapshot.
Record t : Type := mk {
  id : Z;
  position_id : Z;
  snapshot_date : Z;
  underlying_price : R;
  option_price : R;
  delta : R;
  gamma : R;
  vega : R;
  theta : R;
  unrealized_pnl : R;
  realized_pnl : R;
  total_pnl : R
}.
End PnLSnapshot.

Module Trade.
Record t : Type := mk {
  id : Z;
  position_id : Z;
  trade_type : string;
  symbol : string;
  quantity : R;
  price : R;
  commission : R;
  trade_date : Z;
  notes : string
}.
End Trade.

Module Database.

(** The tables the core reads and writes, rows in insertion order. *)
Record DB : Type := mkDB {
  positions : list Position.t;
  hedges : list Hedge.t;
  pnl_snapshots : list PnLSnapshot.t;
  trades : list Trade.t
}.

Definition empty : DB :=
  {| positions := []; hedges := []; pnl_snapshots := []; trades := [] |}.

(** Primary key given to the next row of a table. *)
Definition next_id {A : Type} (rows : list A) : Z := Z.of_nat (length rows) + 1.

(** [Position.query.get(position_id)] *)
Definition query_get (db : DB) (position_id : Z) : option Position.t :=
  find (fun p => Z.eqb (Position.id p) position_id) (positions db).

(** [Position.query.filter_by(status=s).all()] *)
Definition filter_by_status (db : DB) (s : string) : list Position.t :=
  filter (fun p => String.eqb (Position.status p) s) (positions db).

(** [position.hedges]: the rows of [hedges] that point to the position. *)
Definition hedges_of (db : DB) (p : Position.t) : list Hedge.t :=
  filter (fun h => Z.eqb (Hedge.position_id h) (Position.id p)) (hedges db).

Definition add_position_row (db : DB) (p : Position.t) : DB :=
  {| positions := positions db ++ [p]; hedges := hedges db;
     pnl_snapshots := pnl_snapshots db; trades := trades db |}.

Definition add_hedge_row (db : DB) (h : Hedge.t) : DB :=
  {| positions := positions db; hedges := hedges db ++ [h];
     pnl_snapshots := pnl_snapshots db; trades := trades db |}.

Definition add_trade_row (db : DB) (t : Trade.t) : DB :=
  {| positions := positions db; hedges := hedges db;
     pnl_snapshots := pnl_snapshots db; trades := trades db ++ [t] |}.

Definition add_snapshot_row (db : DB) (s : PnLSnapshot.t) : DB :=
  {| positions := positions db; hedges := hedges db;
     pnl_snapshots := pnl_snapshots db ++ [s]; trades := trades db |}.

(** Attribute writes on a loaded position, flushed by the commit. *)
Definition update_position (db : DB) (p : Position.t) : DB :=
  {| positions :=
       map (fun p0 => if Z.eqb (Position.id p0) (Position.id p) then p else p0)
           (positions db);
     hedges := hedges db; pnl_snapshots := pnl_snapshots db;
     trades := trades db |}.

End Database.

(** ** The collaborators: market data and the clock *)

Record MarketData : Type := mkMarketData {
  get_stock_price : string -> result R;       (* the 'price' entry of the quote *)
  get_historical_volatility : string -> result R;
  get_risk_free_rate : result R
}.

Record Clock : Type := mkClock {
  today : Z;      (* date.today() *)
  now : Z         (* datetime.now() / datetime.utcnow() *)
}.

Definition str_of_Z (z : Z) : string := NilZero.string_of_int (Z.to_int z).

Definition msg_not_found (position_id : Z) : string :=
  ("Position " ++ str_of_Z position_id ++ " not found")%string.
Definition msg_not_open (position_id : Z) : string :=
  ("Position " ++ str_of_Z position_id ++ " is not open")%string.

(** ** models/portfolio.py *)

Module Portfolio.

Import Database.

Record pnl : Type := mkPnl {
  option_pnl : R;
  hedge_pnl : R;
  hedge_costs : R;
  unrealized_pnl : R;
  realized_pnl : R;
  total_pnl : R
}.

(** self.multiplier = 100 *)
Definition multiplier : R := 100.

Definition _check_risk_limits (new_position : Position.t) : bool := true.

Definition _calculate_position_pnl (md : MarketData) (db : DB)
  (position : Position.t) (current_option_price : R) : pnl :=
  let option_pnl :=
    if Z_lt_dec (Position.quantity position) 0 then
      (Position.premium_collected position + current_option_price)
        * IZR (Z.abs (Position.quantity position)) * multiplier
    else
      (current_option_price - Rabs (Position.premium_collected position))
        * IZR (Position.quantity position) * multiplier in
  let hedge_costs :=
    fold_left (fun acc h => acc + Hedge.transaction_cost h)
              (hedges_of db position) 0 in
  let hedge_pnl :=
    match get_stock_price md (Position.symbol position) with
    | Ok current_underlying =>
        fold_left
          (fun acc h =>
             acc + Hedge.hedge_quantity h * (current_underlying - Hedge.hedge_price h))
          (hedges_of db position) 0
    | Raise _ => 0
    end in
  let unrealized_pnl := option_pnl + hedge_pnl in
  let realized_pnl := - hedge_costs in
  {| option_pnl := option_pnl;
     hedge_pnl := hedge_pnl;
     hedge_costs := hedge_costs;
     unrealized_pnl := unrealized_pnl;
     realized_pnl := realized_pnl;
     total_pnl := unrealized_pnl + realized_pnl |}.

(** The body of the [try] in [update_position_pnl]. *)
Definition update_position_pnl_try (md : MarketData) (clk : Clock) (db : DB)
  (position : Position.t) : result DB :=
  current_price <- get_stock_price md (Position.symbol position) ;;
  let days_to_expiry := (Position.expiration position - today clk)%Z in
  let T := pymax (IZR days_to_expiry / 365) 0 in
  option_price <-
    BlackScholes.black_scholes_price current_price (Position.strike position) T
      (Position.risk_free_rate position) (Position.implied_vol position)
      (Position.option_type position) (Position.dividend_yield position) ;;
  greeks <-
    Greeks.calculate_all_greeks current_price (Position.strike position) T
      (Position.risk_free_rate position) (Position.implied_vol position)
      (Position.option_type position) (Position.dividend_yield position) ;;
  let pnl := _calculate_position_pnl md db position option_price in
  let snapshot :=
    {| PnLSnapshot.id := next_id (pnl_snapshots db);
       PnLSnapshot.position_id := Position.id position;
       PnLSnapshot.snapshot_date := now clk;
       PnLSnapshot.underlying_price := current_price;
       PnLSnapshot.option_price := option_price;
       PnLSnapshot.delta := Greeks.g_delta greeks;
       PnLSnapshot.gamma := Greeks.g_gamma greeks;
       PnLSnapshot.vega := Greeks.g_vega greeks;
       PnLSnapshot.theta := Greeks.g_theta greeks;
       PnLSnapshot.unrealized_pnl := unrealized_pnl pnl;
       PnLSnapshot.realized_pnl := realized_pnl pnl;
       PnLSnapshot.total_pnl := total_pnl pnl |} in
  Ok (add_snapshot_row db snapshot).

(** Any exception is printed and swallowed. *)
Definition update_position_pnl (md : MarketData) (clk : Clock) (db : DB)
  (position : Position.t) : DB :=
  match update_position_pnl_try md clk db position with
  | Ok db' => db'
  | Raise _ => db
  end.

Definition add_position (md : MarketData) (clk : Clock) (db : DB)
  (symbol option_type : string) (strike : R) (expiration : Z) (quantity : Z)
  (premium : R) (implied_vol : option R) (dividend_yield : R)
  : result (DB * Position.t) :=
  current_price <- get_stock_price md symbol ;;
  implied_vol <-
    match implied_vol with
    | None => get_historical_volatility md symbol
    | Some v => Ok v
    end ;;
  risk_free_rate <- get_risk_free_rate md ;;
  let position :=
    {| Position.id := next_id (positions db);
       Position.symbol := symbol;
       Position.option_type := option_type;
       Position.strike := strike;
       Position.expiration := expiration;
       Position.quantity := quantity;
       Position.premium_collected :=
         if Z_lt_dec quantity 0 then premium else - premium;
       Position.entry_price := current_price;
       Position.entry_date := now clk;
       Position.status := "open";
       Position.close_date := None;
       Position.close_price := None;
       Position.implied_vol := implied_vol;
       Position.risk_free_rate := risk_free_rate;
       Position.dividend_yield := dividend_yield |} in
  if negb (_check_risk_limits position) then
    Raise (ValueError "Position would breach risk limits")
  else
    let db1 := add_position_row db position in
    let db2 := update_position_pnl md clk db1 position in
    Ok (db2, position).

Definition close_position (md : MarketData) (clk : Clock) (db : DB)
  (position_id : Z) (close_price : option R) : result (DB * pnl) :=
  match query_get db position_id with
  | None => Raise (ValueError (msg_not_found position_id))
  | Some position =>
    if negb (String.eqb (Position.status position) "open") then
      Raise (ValueError (msg_not_open position_id))
    else
      close_price <-
        match close_price with
        | Some c => Ok c
        | None =>
          let days_to_expiry := (Position.expiration position - today clk)%Z in
          let T := pymax (IZR days_to_expiry / 365) 0 in
          current_price <- get_stock_price md (Position.symbol position) ;;
          BlackScholes.black_scholes_price current_price (Position.strike position)
            T (Position.risk_free_rate position) (Position.implied_vol position)
            (Position.option_type position) (Position.dividend_yield position)
        end ;;
      let position' :=
        {| Position.id := Position.id position;
           Position.symbol := Position.symbol position;
           Position.option_type := Position.option_type position;
           Position.strike := Position.strike position;
           Position.expiration := Position.expiration position;
           Position.quantity := Position.quantity position;
           Position.premium_collected := Position.premium_collected position;
           Position.entry_price := Position.entry_price position;
           Position.entry_date := Position.entry_date position;
           Position.status := "closed";
           Position.close_date := Some (now clk);
           Position.close_price := Some close_price;
           Position.implied_vol := Position.implied_vol position;
           Position.risk_free_rate := Position.risk_free_rate position;
           Position.dividend_yield := Position.dividend_yield position |} in
      let final_pnl := _calculate_position_pnl md db position' close_price in
      Ok (update_position db position', final_pnl)
  end.

Record position_greeks_row : Type := mkPositionGreeks {
  pg_position_id : Z;
  pg_symbol : string;
  pg_delta : R;
  pg_gamma : R;
  pg_vega : R;
  pg_theta : R;
  pg_rho : R
}.

(** The body of the [try] in the loop of [get_portfolio_greeks]. *)
Definition position_greeks_try (md : MarketData) (clk : Clock)
  (position : Position.t) : result position_greeks_row :=
  current_price <- get_stock_price md (Position.symbol position) ;;
  let days_to_expiry := (Position.expiration position - today clk)%Z in
  let T := pymax (IZR days_to_expiry / 365.0) 0.0001 in
  greeks <-
    Greeks.calculate_all_greeks current_price (Position.strike position) T
      (Position.risk_free_rate position) (Position.implied_vol position)
      (Position.option_type position) (Position.dividend_yield position) ;;
  let position_size := IZR (Position.quantity position) * multiplier in
  Ok {| pg_position_id := Position.id position;
        pg_symbol := Position.symbol position;
        pg_delta := Greeks.g_delta greeks * position_size;
        pg_gamma := Greeks.g_gamma greeks * position_size;
        pg_vega := Greeks.g_vega greeks * position_size;
        pg_theta := Greeks.g_theta greeks * position_size;
        pg_rho := Greeks.g_rho greeks * position_size |}.

(** Returns the dict {'portfolio': ..., 'positions': ...} as a pair. *)
Definition get_portfolio_greeks (md : MarketData) (clk : Clock) (db : DB)
  : Greeks.greeks * list position_greeks_row :=
  let open_positions := filter_by_status db "open" in
  fold_left
    (fun st position =>
       let '(portfolio_greeks, position_details) := st in
       match position_greeks_try md clk position with
       | Ok position_greeks =>
           ({| Greeks.g_delta :=
                 Greeks.g_delta portfolio_greeks + pg_delta position_greeks;
               Greeks.g_gamma :=
                 Greeks.g_gamma portfolio_greeks + pg_gamma position_greeks;
               Greeks.g_vega :=
                 Greeks.g_vega portfolio_greeks + pg_vega position_greeks;
               Greeks.g_theta :=
                 Greeks.g_theta portfolio_greeks + pg_theta position_greeks;
               Greeks.g_rho :=
                 Greeks.g_rho portfolio_greeks + pg_rho position_greeks |},
            position_details ++ [position_greeks])
       | Raise _ => st
       end)
    open_positions (Greeks.zero_greeks, []).

Record position_summary_row : Type := mkPositionSummary {
  ps_id : Z;
  ps_symbol : string;
  ps_type : string;
  ps_strike : R;
  ps_expiration : Z;
  ps_quantity : Z;
  ps_current_price : R;
  ps_option_price : R;
  ps_value : R;
  ps_pnl : R;
  ps_days_to_expiry : Z
}.

Record positions_summary : Type := mkPositionsSummary {
  sum_open_positions : nat;
  sum_closed_positions : nat;
  sum_total_value : R;
  sum_total_pnl : R;
  sum_positions : list position_summary_row
}.

(** The body of the [try] in the loop of [get_positions_summary]. *)
Definition position_summary_try (md : MarketData) (clk : Clock) (db : DB)
  (pos : Position.t) : result position_summary_row :=
  current_price <- get_stock_price md (Position.symbol pos) ;;
  let days_to_expiry := (Position.expiration pos - today clk)%Z in
  let T := pymax (IZR days_to_expiry / 365.0) 0 in
  option_price <-
    BlackScholes.black_scholes_price current_price (Position.strike pos) T
      (Position.risk_free_rate pos) (Position.implied_vol pos)
      (Position.option_type pos) (Position.dividend_yield pos) ;;
  let pnl := _calculate_position_pnl md db pos option_price in
  let position_value :=
    option_price * IZR (Z.abs (Position.quantity pos)) * multiplier in
  Ok {| ps_id := Position.id pos;
        ps_symbol := Position.symbol pos;
        ps_type := Position.option_type pos;
        ps_strike := Position.strike pos;
        ps_expiration := Position.expiration pos;
        ps_quantity := Position.quantity pos;
        ps_current_price := current_price;
        ps_option_price := option_price;
        ps_value := position_value;
        ps_pnl := total_pnl pnl;
        ps_days_to_expiry := days_to_expiry |}.

Definition get_positions_summary (md : MarketData) (clk : Clock) (db : DB)
  : positions_summary :=
  let open_positions := filter_by_status db "open" in
  let closed_positions := length (filter_by_status db "closed") in
  let '(total_value, total_pnl, positions_list) :=
    fold_left
      (fun st pos =>
         let '(total_value, total_pnl, positions_list) := st in
         match position_summary_try md clk db pos with
         | Ok row =>
             (total_value + ps_value row, total_pnl + ps_pnl row,
              positions_list ++ [row])
         | Raise _ => st
         end)
      open_positions (0, 0, []) in
  {| sum_open_positions := length open_positions;
     sum_closed_positions := closed_positions;
     sum_total_value := total_value;
     sum_total_pnl := total_pnl;
     sum_positions := positions_list |}.

End Portfolio.

(** ** utils/hedging.py *)

Module DeltaHedger.

Import Database.

Record t : Type := mk {
  market_data : MarketData;
  multiplier : R;
  rehedge_threshold : R;
  commission_per_share : R
}.

(** [DeltaHedger(market_data_manager, multiplier=100)] *)
Definition init (market_data_manager : MarketData) (multiplier : R) : t :=
  {| market_data := market_data_manager;
     multiplier := multiplier;
     rehedge_threshold := Config.REHEDGE_THRESHOLD;
     commission_per_share := Config.STOCK_COMMISSION |}.

Record hedge_req : Type := mkReq {
  req_symbol : string;
  req_position_id : Z;
  option_delta : R;
  position_delta : R;
  current_hedge_shares : R;
  net_delta : R;
  required_hedge_shares : R;
  underlying_price : R;
  hedge_value : R;
  commission : R;
  spread_cost : R;
  total_cost : R;
  should_rehedge : bool
}.

Definition calculate_hedge_requirements (self : t) (clk : Clock) (db : DB)
  (position : Position.t) : result hedge_req :=
  current_price <- get_stock_price (market_data self) (Position.symbol position) ;;
  let days_to_expiry := (Position.expiration position - today clk)%Z in
  let T := pymax (IZR days_to_expiry / 365.0) 0.0001 in
  option_delta <-
    Greeks.delta current_price (Position.strike position) T
      (Position.risk_free_rate position) (Position.implied_vol position)
      (Position.option_type position) (Position.dividend_yield position) ;;
  let position_delta :=
    option_delta * IZR (Position.quantity position) * multiplier self in
  let current_hedge_shares :=
    pysum (map Hedge.hedge_quantity (hedges_of db position)) in
  let net_delta := position_delta + current_hedge_shares in
  let required_hedge_shares := - net_delta in
  let hedge_value := Rabs required_hedge_shares * current_price in
  let commission := Rabs required_hedge_shares * commission_per_share self in
  let spread_cost := hedge_value * Config.BID_ASK_SPREAD / 2 in
  let total_cost := commission + spread_cost in
  Ok {| req_symbol := Position.symbol position;
        req_position_id := Position.id position;
        option_delta := option_delta;
        position_delta := position_delta;
        current_hedge_shares := current_hedge_shares;
        net_delta := net_delta;
        required_hedge_shares := required_hedge_shares;
        underlying_price := current_price;
        hedge_value := hedge_value;
        commission := commission;
        spread_cost := spread_cost;
        total_cost := total_cost;
        should_rehedge :=
          if Req_dec_T position_delta 0 then false
          else if Rgt_dec (Rabs (net_delta / position_delta))
                          (rehedge_threshold self)
               then true else false |}.

Definition execute_hedge (self : t) (clk : Clock) (db : DB)
  (position : Position.t) (hedge_shares : option R) (hedge_type : string)
  : result (DB * Hedge.t) :=
  hedge_req <- calculate_hedge_requirements self clk db position ;;
  let hedge_shares :=
    match hedge_shares with
    | None => required_hedge_shares hedge_req
    | Some s => s
    end in
  current_price <- get_stock_price (market_data self) (Position.symbol position) ;;
  let commission := Rabs hedge_shares * commission_per_share self in
  let hedge_value := Rabs hedge_shares * current_price in
  let spread_cost := hedge_value * Config.BID_ASK_SPREAD / 2 in
  let total_cost := commission + spread_cost in
  let hedge :=
    {| Hedge.id := next_id (hedges db);
       Hedge.position_id := Position.id position;
       Hedge.hedge_quantity := hedge_shares;
       Hedge.hedge_price := current_price;
       Hedge.hedge_date := now clk;
       Hedge.transaction_cost := total_cost;
       Hedge.delta_before := net_delta hedge_req;
       Hedge.delta_after := net_delta hedge_req + hedge_shares;
       Hedge.underlying_price := current_price;
       Hedge.hedge_type := hedge_type |} in
  let trade :=
    {| Trade.id := next_id (trades db);
       Trade.position_id := Position.id position;
       Trade.trade_type := "hedge_stock";
       Trade.symbol := Position.symbol position;
       Trade.quantity := hedge_shares;
       Trade.price := current_price;
       Trade.commission := total_cost;
       Trade.trade_date := now clk;
       Trade.notes := ("Delta hedge (" ++ hedge_type ++ ")")%string |} in
  Ok (add_trade_row (add_hedge_row db hedge) trade, hedge).

(** The two shapes of the dict returned by [check_rehedge_needed]. *)
Inductive rehedge_check : Type :=
| NotOpen (needed : bool) (reason : string)
| Assessment (needed : bool) (net_delta position_delta threshold delta_ratio
                required_shares cost : R).

Definition needed (c : rehedge_check) : bool :=
  match c with
  | NotOpen n _ => n
  | Assessment n _ _ _ _ _ _ => n
  end.

Definition check_rehedge_needed (self : t) (clk : Clock) (db : DB)
  (position_id : Z) : result rehedge_check :=
  match query_get db position_id with
  | None => Ok (NotOpen false "Position not open")
  | Some position =>
    if negb (String.eqb (Position.status position) "open") then
      Ok (NotOpen false "Position not open")
    else
      hedge_req <- calculate_hedge_requirements self clk db position ;;
      Ok (Assessment
            (should_rehedge hedge_req)
            (net_delta hedge_req)
            (position_delta hedge_req)
            (rehedge_threshold self)
            (if Req_dec_T (position_delta hedge_req) 0 then 0
             else Rabs (net_delta hedge_req / position_delta hedge_req))
            (required_hedge_shares hedge_req)
            (total_cost hedge_req))
  end.

Record recommendation : Type := mkRec {
  rec_position_id : Z;
  rec_symbol : string;
  rec_required_shares : R;
  rec_cost : R;
  rec_net_delta : R
}.

Record execution : Type := mkExec {
  ex_position_id : Z;
  ex_hedge_id : Z;
  ex_shares : R;
  ex_cost : R
}.

Record rehedge_summary : Type := mkSummary {
  recommendations : list recommendation;
  executed : list execution;
  total_recommendations : nat;
  total_executed : nat;
  summary_total_cost : R
}.

(** One turn of the [for position in open_positions] loop; the state is the
    database with the two lists being built.  An exception anywhere in the
    body is printed and the loop continues with what was done so far. *)
Definition rehedge_step (self : t) (clk : Clock) (execute : bool)
  (st : DB * list recommendation * list execution) (position : Position.t)
  : DB * list recommendation * list execution :=
  let '(db, recs, execd) := st in
  match check_rehedge_needed self clk db (Position.id position) with
  | Raise _ => st
  | Ok (NotOpen true _) => st      (* KeyError on 'required_shares', caught *)
  | Ok (NotOpen false _) => st
  | Ok (Assessment false _ _ _ _ _ _) => st
  | Ok (Assessment true nd _ _ _ shares cost) =>
    let rec := {| rec_position_id := Position.id position;
                  rec_symbol := Position.symbol position;
                  rec_required_shares := shares;
                  rec_cost := cost;
                  rec_net_delta := nd |} in
    let recs' := recs ++ [rec] in
    if execute then
      match execute_hedge self clk db position None "rebalance" with
      | Ok (db', hedge) =>
          (db', recs',
           execd ++ [{| ex_position_id := Position.id position;
                        ex_hedge_id := Hedge.id hedge;
                        ex_shares := Hedge.hedge_quantity hedge;
                        ex_cost := Hedge.transaction_cost hedge |}])
      | Raise _ => (db, recs', execd)
      end
    else (db, recs', execd)
  end.

Definition auto_rehedge_portfolio (self : t) (clk : Clock) (db : DB)
  (execute : bool) : DB * rehedge_summary :=
  let open_positions := filter_by_status db "open" in
  let '(db', recs, execd) :=
    fold_left (rehedge_step self clk execute) open_positions (db, [], []) in
  (db',
   {| recommendations := recs;
      executed := if execute then execd else [];
      total_recommendations := length recs;
      total_executed := if execute then length execd else 0%nat;
      summary_total_cost :=
        if execute then pysum (map ex_cost execd) else 0 |}).

Record delta_exposure : Type := mkExposure {
  total_portfolio_delta : R;
  total_hedge_value : R;
  positions_needing_rehedge : nat;
  rehedge_details : list recommendation
}.

(** One turn of the loop of [get_portfolio_delta_exposure]; only the first
    statement of the [try] can raise. *)
Definition exposure_step (self : t) (clk : Clock) (db : DB)
  (st : R * R * list recommendation) (position : Position.t)
  : R * R * list recommendation :=
  let '(total_delta, total_hedge_value, positions_needing_hedge) := st in
  match calculate_hedge_requirements self clk db position with
  | Raise _ => st
  | Ok hedge_req =>
    let total_delta := total_delta + net_delta hedge_req in
    let positions_needing_hedge :=
      if should_rehedge hedge_req then
        positions_needing_hedge ++
        [{| rec_position_id := Position.id position;
            rec_symbol := Position.symbol position;
            rec_required_shares := required_hedge_shares hedge_req;
            rec_cost := total_cost hedge_req;
            rec_net_delta := net_delta hedge_req |}]
      else positions_needing_hedge in
    let total_hedge_value :=
      fold_left
        (fun acc hedge =>
           acc + Rabs (Hedge.hedge_quantity hedge * Hedge.hedge_price hedge))
        (hedges_of db position) total_hedge_value in
    (total_delta, total_hedge_value, positions_needing_hedge)
  end.

Definition get_portfolio_delta_exposure (self : t) (clk : Clock) (db : DB)
  : delta_exposure :=
  let open_positions := filter_by_status db "open" in
  let '(total_delta, total_hedge_value, positions_needing_hedge) :=
    fold_left (exposure_step self clk db) open_positions (0, 0, []) in
  {| total_portfolio_delta := total_delta;
     total_hedge_value := total_hedge_value;
     positions_needing_rehedge := length positions_needing_hedge;
     rehedge_details := positions_needing_hedge |}.

Record hedge_detail : Type := mkHedgeDetail {
  hd_hedge_id : Z;
  hd_shares : R;
  hd_entry_price : R;
  hd_current_price : R;
  hd_pnl : R;
  hd_cost : R;
  hd_date : Z
}.

Record hedging_pnl : Type := mkHedgingPnl {
  hp_position_id : Z;
  hp_symbol : string;
  total_hedge_shares : R;
  total_hedge_pnl : R;
  total_costs : R;
  net_hedge_pnl : R;
  hp_current_price : R;
  hedge_details : list hedge_detail
}.

Definition calculate_hedging_pnl (self : t) (db : DB) (position_id : Z)
  : result hedging_pnl :=
  match query_get db position_id with
  | None => Raise (ValueError (msg_not_found position_id))
  | Some position =>
    current_price <-
      get_stock_price (market_data self) (Position.symbol position) ;;
    let '(total_hedge_pnl, total_costs, total_shares, hedge_details) :=
      fold_left
        (fun st hedge =>
           let '(total_hedge_pnl, total_costs, total_shares, hedge_details) :=
             st in
           let hedge_pnl :=
             Hedge.hedge_quantity hedge
             * (current_price - Hedge.hedge_price hedge) in
           (total_hedge_pnl + hedge_pnl,
            total_costs + Hedge.transaction_cost hedge,
            total_shares + Hedge.hedge_quantity hedge,
            hedge_details ++
            [{| hd_hedge_id := Hedge.id hedge;
                hd_shares := Hedge.hedge_quantity hedge;
                hd_entry_price := Hedge.hedge_price hedge;
                hd_current_price := current_price;
                hd_pnl := hedge_pnl;
                hd_cost := Hedge.transaction_cost hedge;
                hd_date := Hedge.hedge_date hedge |}]))
        (hedges_of db position) (0, 0, 0, []) in
    let net_hedge_pnl := total_hedge_pnl - total_costs in
    Ok {| hp_position_id := position_id;
          hp_symbol := Position.symbol position;
          total_hedge_shares := total_shares;
          total_hedge_pnl := total_hedge_pnl;
          total_costs := total_costs;
          net_hedge_pnl := net_hedge_pnl;
          hp_current_price := current_price;
          hedge_details := hedge_details |}
  end.



End DeltaHedger.

(** ** utils/pnl.py *)

Module PnLTracker.

Import Database.

Record t : Type := mk {
  market_data : MarketData;
  multiplier : R
}.

Record report : Type := mkReport {
  position_id : Z;
  symbol : string;
  option_type : string;
  strike : R;
  quantity : Z;
  status : string;
  entry_date : Z;
  expiration : Z;
  days_held : Z;
  current_underlying_price : R;
  entry_underlying_price : R;
  underlying_change : R;
  underlying_change_pct : R;
  current_option_price : R;
  entry_option_price : R;
  option_pnl : R;
  hedge_pnl : R;
  hedge_costs : R;
  net_hedge_pnl : R;
  unrealized_pnl : R;
  realized_pnl : R;
  total_pnl : R;
  roi : R;
  net_hedge_shares : R;
  greeks : Greeks.greeks
}.

Definition seconds_per_day : Z := 86400.

Definition calculate_position_pnl (self : t) (clk : Clock) (db : DB)
  (position_id : Z) : result report :=
  match query_get db position_id with
  | None => Raise (ValueError (msg_not_found position_id))
  | Some position =>
    current_underlying_price <-
      get_stock_price (market_data self) (Position.symbol position) ;;
    let is_open := String.eqb (Position.status position) "open" in
    let days_to_expiry := (Position.expiration position - today clk)%Z in
    let T := pymax (IZR days_to_expiry / 365.0) 0 in
    current_option_price <-
      (if is_open then
         BlackScholes.black_scholes_price current_underlying_price
           (Position.strike position) T (Position.risk_free_rate position)
           (Position.implied_vol position) (Position.option_type position)
           (Position.dividend_yield position)
       else Ok (or_zero (Position.close_price position))) ;;
    let option_pnl :=
      if Z_lt_dec (Position.quantity position) 0 then
        (Position.premium_collected position + current_option_price)
          * IZR (Z.abs (Position.quantity position)) * multiplier self
      else
        (current_option_price - Rabs (Position.premium_collected position))
          * IZR (Position.quantity position) * multiplier self in
    let hs := hedges_of db position in
    let total_hedge_pnl :=
      fold_left
        (fun acc h =>
           acc + Hedge.hedge_quantity h
                 * (current_underlying_price - Hedge.hedge_price h)) hs 0 in
    let total_hedge_costs :=
      fold_left (fun acc h => acc + Hedge.transaction_cost h) hs 0 in
    let net_hedge_shares :=
      fold_left (fun acc h => acc + Hedge.hedge_quantity h) hs 0 in
    greeks <-
      (if is_open && (if Rgt_dec T 0 then true else false) then
         Greeks.calculate_all_greeks current_underlying_price
           (Position.strike position) T (Position.risk_free_rate position)
           (Position.implied_vol position) (Position.option_type position)
           (Position.dividend_yield position)
       else Ok Greeks.zero_greeks) ;;
    let unrealized_pnl := option_pnl + total_hedge_pnl in
    let realized_pnl := - total_hedge_costs in
    let total_pnl := unrealized_pnl + realized_pnl in
    let roi :=
      if Z_lt_dec (Position.quantity position) 0 then
        let initial_premium :=
          Rabs (Position.premium_collected position)
            * IZR (Z.abs (Position.quantity position)) * multiplier self in
        if Rgt_dec initial_premium 0 then total_pnl / initial_premium * 100 else 0
      else
        let initial_cost :=
          Rabs (Position.premium_collected position)
            * IZR (Position.quantity position) * multiplier self in
        if Rgt_dec initial_cost 0 then total_pnl / initial_cost * 100 else 0 in
    Ok {| position_id := position_id;
          symbol := Position.symbol position;
          option_type := Position.option_type position;
          strike := Position.strike position;
          quantity := Position.quantity position;
          status := Position.status position;
          entry_date := Position.entry_date position;
          expiration := Position.expiration position;
          days_held := ((now clk - Position.entry_date position) / seconds_per_day)%Z;
          current_underlying_price := current_underlying_price;
          entry_underlying_price := Position.entry_price position;
          underlying_change :=
            current_underlying_price - Position.entry_price position;
          underlying_change_pct :=
            if Rgt_dec (Position.entry_price position) 0 then
              (current_underlying_price / Position.entry_price position - 1) * 100
            else 0;
          current_option_price := current_option_price;
          entry_option_price := Rabs (Position.premium_collected position);
          option_pnl := option_pnl;
          hedge_pnl := total_hedge_pnl;
          hedge_costs := total_hedge_costs;
          net_hedge_pnl := total_hedge_pnl - total_hedge_costs;
          unrealized_pnl := unrealized_pnl;
          realized_pnl := realized_pnl;
          total_pnl := total_pnl;
          roi := roi;
          net_hedge_shares := net_hedge_shares;
          greeks := greeks |}
  end.

(** The seller's view; [None] stands for the dict {'error': ...}. *)
Record seller_report : Type := mkSeller {
  s_position_id : Z;
  s_symbol : string;
  s_premium_collected : R;
  s_current_obligation : R;
  s_option_profit : R;
  s_hedge_pnl : R;
  s_total_pnl : R;
  s_roi : R;
  s_max_profit : R;
  s_max_profit_pct : R;
  s_break_even : R;
  s_days_held : Z;
  s_annualized_return : R
}.

Definition calculate_seller_pnl (self : t) (clk : Clock) (db : DB)
  (position_id : Z) : result (option seller_report) :=
  match query_get db position_id with
  | None => Raise (ValueError (msg_not_found position_id))
  | Some position =>
    if Z_ge_dec (Position.quantity position) 0 then Ok None
    else
      pnl <- calculate_position_pnl self clk db position_id ;;
      let premium_collected :=
        Rabs (Position.premium_collected position)
          * IZR (Z.abs (Position.quantity position)) * multiplier self in
      let current_obligation :=
        current_option_price pnl
          * IZR (Z.abs (Position.quantity position)) * multiplier self in
      Ok (Some {| s_position_id := position_id;
                  s_symbol := Position.symbol position;
                  s_premium_collected := premium_collected;
                  s_current_obligation := current_obligation;
                  s_option_profit := premium_collected - current_obligation;
                  s_hedge_pnl := net_hedge_pnl pnl;
                  s_total_pnl := total_pnl pnl;
                  s_roi := roi pnl;
                  s_max_profit := premium_collected;
                  s_max_profit_pct := 100;
                  s_break_even :=
                    if String.eqb (Position.option_type position) "call"
                    then Position.strike position
                         + Rabs (Position.premium_collected position)
                    else Position.strike position
                         - Rabs (Position.premium_collected position);
                  s_days_held := days_held pnl;
                  s_annualized_return :=
                    if Z_gt_dec (days_held pnl) 0
                    then roi pnl * 365 / IZR (days_held pnl)
                    else 0 |})
  end.

(** The buyer's view; [None] stands for the dict {'error': ...}. *)
Record buyer_report : Type := mkBuyer {
  b_position_id : Z;
  b_symbol : string;
  b_premium_paid : R;
  b_current_value : R;
  b_intrinsic_value : R;
  b_time_value : R;
  b_profit_loss : R;
  b_roi : R;
  b_max_loss : R;
  b_max_loss_pct : R;
  b_break_even : R;
  b_days_held : Z
}.

Definition calculate_buyer_pnl (self : t) (clk : Clock) (db : DB)
  (position_id : Z) : result (option buyer_report) :=
  match query_get db position_id with
  | None => Raise (ValueError (msg_not_found position_id))
  | Some position =>
    if Z_le_dec (Position.quantity position) 0 then Ok None
    else
      pnl <- calculate_position_pnl self clk db position_id ;;
      let premium_paid :=
        Rabs (Position.premium_collected position)
          * IZR (Position.quantity position) * multiplier self in
      let current_value :=
        current_option_price pnl
          * IZR (Position.quantity position) * multiplier self in
      let intrinsic_value :=
        pymax 0
          (if String.eqb (Position.option_type position) "call"
           then current_underlying_price pnl - Position.strike position
           else Position.strike position - current_underlying_price pnl)
        * IZR (Position.quantity position) * multiplier self in
      let time_value := current_value - intrinsic_value in
      Ok (Some {| b_position_id := position_id;
                  b_symbol := Position.symbol position;
                  b_premium_paid := premium_paid;
                  b_current_value := current_value;
                  b_intrinsic_value := intrinsic_value;
                  b_time_value := time_value;
                  b_profit_loss := total_pnl pnl;
                  b_roi := roi pnl;
                  b_max_loss := - premium_paid;
                  b_max_loss_pct := -100;
                  b_break_even :=
                    if String.eqb (Position.option_type position) "call"
                    then Position.strike position
                         + Rabs (Position.premium_collected position)
                    else Position.strike position
                         - Rabs (Position.premium_collected position);
                  b_days_held := days_held pnl |})
  end.

Record portfolio_pnl : Type := mkPortfolioPnl {
  pp_total_pnl : R;
  pp_open_pnl : R;
  pp_closed_pnl : R;
  pp_open_option_pnl : R;
  pp_open_hedge_pnl : R;
  pp_open_positions_count : nat;
  pp_closed_positions_count : nat;
  pp_open_positions : list report;
  pp_closed_positions : list report
}.

(** [Position.query.filter(Position.status.in_(['closed', 'expired'])).all()] *)
Definition closed_or_expired (db : DB) : list Position.t :=
  filter (fun p => String.eqb (Position.status p) "closed"
                   || String.eqb (Position.status p) "expired")
         (positions db).

Definition get_portfolio_pnl (self : t) (clk : Clock) (db : DB)
  : portfolio_pnl :=
  let open_positions := filter_by_status db "open" in
  let closed_positions := closed_or_expired db in
  let '(open_pnl, open_option_pnl, open_hedge_pnl, open_positions_list) :=
    fold_left
      (fun st pos =>
         let '(open_pnl, open_option_pnl, open_hedge_pnl, open_positions_list) :=
           st in
         match calculate_position_pnl self clk db (Position.id pos) with
         | Ok pnl =>
             (open_pnl + total_pnl pnl, open_option_pnl + option_pnl pnl,
              open_hedge_pnl + net_hedge_pnl pnl, open_positions_list ++ [pnl])
         | Raise _ => st
         end)
      open_positions (0, 0, 0, []) in
  let '(closed_pnl, closed_positions_list) :=
    fold_left
      (fun st pos =>
         let '(closed_pnl, closed_positions_list) := st in
         match calculate_position_pnl self clk db (Position.id pos) with
         | Ok pnl => (closed_pnl + total_pnl pnl, closed_positions_list ++ [pnl])
         | Raise _ => st
         end)
      closed_positions (0, []) in
  let total_pnl := open_pnl + closed_pnl in
  {| pp_total_pnl := total_pnl;
     pp_open_pnl := open_pnl;
     pp_closed_pnl := closed_pnl;
     pp_open_option_pnl := open_option_pnl;
     pp_open_hedge_pnl := open_hedge_pnl;
     pp_open_positions_count := length open_positions;
     pp_closed_positions_count := length closed_positions;
     pp_open_positions := open_positions_list;
     pp_closed_positions := firstn 10 closed_positions_list |}.

Record attribution : Type := mkAttribution {
  at_position_id : Z;
  at_total_pnl : R;
  at_option_pnl : R;
  at_hedge_pnl : R;
  at_estimated_theta_pnl : R;
  at_estimated_delta_pnl : R;
  at_transaction_costs : R
}.

Definition get_pnl_attribution (self : t) (clk : Clock) (db : DB)
  (position_id : Z) : result attribution :=
  pnl <- calculate_position_pnl self clk db position_id ;;
  let theta_contribution :=
    Greeks.g_theta (greeks pnl) * IZR (days_held pnl) in
  let delta_contribution :=
    Greeks.g_delta (greeks pnl) * underlying_change pnl
    * IZR (Z.abs (quantity pnl)) * multiplier self in
  Ok {| at_position_id := position_id;
        at_total_pnl := total_pnl pnl;
        at_option_pnl := option_pnl pnl;
        at_hedge_pnl := net_hedge_pnl pnl;
        at_estimated_theta_pnl := theta_contribution;
        at_estimated_delta_pnl := delta_contribution;
        at_transaction_costs := hedge_costs pnl |}.

Section Performance.

(** [pandas.Series(returns).mean()] and [.std()], third-party code taken as
    parameters; [None] stands for the NaN that [std] gives on one value. *)
Variable series_mean : list R -> R.
Variable series_std : list R -> option R.

Definition _calculate_sharpe_ratio (self : t) (clk : Clock) (db : DB)
  (positions : list Position.t) (risk_free_rate : R) : R :=
  match positions with
  | [] => 0
  | _ =>
    let returns :=
      fold_left
        (fun returns pos =>
           match calculate_position_pnl self clk db (Position.id pos) with
           | Raise _ => returns
           | Ok pnl =>
             let capital :=
               if Z_lt_dec (Position.quantity pos) 0 then
                 Rabs (Position.premium_collected pos)
                 * IZR (Z.abs (Position.quantity pos)) * multiplier self
               else
                 Rabs (Position.premium_collected pos)
                 * IZR (Position.quantity pos) * multiplier self in
             if (if Rgt_dec capital 0 then true else false)
                && (if Z_gt_dec (days_held pnl) 0 then true else false)
             then
               let daily_return :=
                 (total_pnl pnl / capital) / IZR (days_held pnl) in
               returns ++ [daily_return]
             else returns
           end)
        positions [] in
    match returns with
    | [] => 0
    | _ =>
      let excess_return := series_mean returns - (risk_free_rate / 252) in
      match series_std returns with
      | Some return_std =>
          if Rgt_dec return_std 0
          then (excess_return / return_std) * sqrt 252
          else 0
      | None => 0
      end
    end
  end.

Record performance : Type := mkPerformance {
  period_start : Z;
  period_end : Z;
  total_trades : nat;
  winning_trades : nat;
  losing_trades : nat;
  win_rate : R;
  total_profit : R;
  total_loss : R;
  net_pnl : R;
  avg_win : R;
  avg_loss : R;
  profit_factor : BlackScholes.xfloat;
  total_premium_collected : R;
  total_premium_paid : R;
  sharpe_ratio : R
}.

(** The counters kept by the loop of [get_performance_metrics]. *)
Record tally : Type := mkTally {
  t_winning : nat;
  t_losing : nat;
  t_profit : R;
  t_loss : R;
  t_collected : R;
  t_paid : R
}.

Definition tally_step (self : t) (clk : Clock) (db : DB) (st : tally)
  (pos : Position.t) : tally :=
  match calculate_position_pnl self clk db (Position.id pos) with
  | Raise _ => st
  | Ok pnl =>
    let '(winning, losing, profit, loss) :=
      if Rgt_dec (total_pnl pnl) 0 then
        (Datatypes.S (t_winning st), t_losing st,
         t_profit st + total_pnl pnl, t_loss st)
      else
        (t_winning st, Datatypes.S (t_losing st),
         t_profit st, t_loss st + Rabs (total_pnl pnl)) in
    let '(collected, paid) :=
      if Z_lt_dec (Position.quantity pos) 0 then
        (t_collected st
         + Rabs (Position.premium_collected pos)
           * IZR (Z.abs (Position.quantity pos)) * multiplier self,
         t_paid st)
      else
        (t_collected st,
         t_paid st
         + Rabs (Position.premium_collected pos)
           * IZR (Position.quantity pos) * multiplier self) in
    {| t_winning := winning; t_losing := losing; t_profit := profit;
       t_loss := loss; t_collected := collected; t_paid := paid |}
  end.

Definition seconds_per_year : Z := (365 * seconds_per_day)%Z.

Definition get_performance_metrics (self : t) (clk : Clock) (db : DB)
  (start_date end_date : option Z) : performance :=
  let start_date :=
    match start_date with
    | None => (now clk - seconds_per_year)%Z
    | Some d => d
    end in
  let end_date :=
    match end_date with
    | None => now clk
    | Some d => d
    end in
  let positions :=
    filter (fun p => Z.leb start_date (Position.entry_date p)
                     && Z.leb (Position.entry_date p) end_date)
           (Database.positions db) in
  let total_trades := length positions in
  let st :=
    fold_left (tally_step self clk db) positions
      {| t_winning := 0; t_losing := 0; t_profit := 0; t_loss := 0;
         t_collected := 0; t_paid := 0 |} in
  {| period_start := start_date;
     period_end := end_date;
     total_trades := total_trades;
     winning_trades := t_winning st;
     losing_trades := t_losing st;
     win_rate :=
       if Nat.ltb 0 total_trades
       then INR (t_winning st) / INR total_trades * 100 else 0;
     total_profit := t_profit st;
     total_loss := t_loss st;
     net_pnl := t_profit st - t_loss st;
     avg_win :=
       if Nat.ltb 0 (t_winning st)
       then t_profit st / INR (t_winning st) else 0;
     avg_loss :=
       if Nat.ltb 0 (t_losing st)
       then t_loss st / INR (t_losing st) else 0;
     profit_factor :=
       if Rgt_dec (t_loss st) 0
       then BlackScholes.Finite (t_profit st / t_loss st)
       else BlackScholes.Inf;
     total_premium_collected := t_collected st;
     total_premium_paid := t_paid st;
     sharpe_ratio := _calculate_sharpe_ratio self clk db positions 0.05 |}.

End Performance.

End PnLTracker.

(** ** utils/risk_management.py *)

Module RiskManager.

Import Database.

Record position_impact : Type := mkImpact {
  pi_position_id : Z;
  pi_symbol : string;
  pnl_impact : R;
  pi_current_price : R;
  stressed_price : R
}.

Record stress_result : Type := mkStress {
  scenario : string;
  total_pnl_impact : R;
  position_impacts : list position_impact;
  timestamp : Z
}.

(** The body of the [try] in the loop of [stress_test]. *)
Definition stress_position (md : MarketData) (clk : Clock)
  (underlying_change_pct : R) (pos : Position.t) : result position_impact :=
  current_price <- get_stock_price md (Position.symbol pos) ;;
  let stressed_price := current_price * (1 + underlying_change_pct / 100) in
  let days_to_expiry := (Position.expiration pos - today clk)%Z in
  let T := pymax (IZR days_to_expiry / 365.0) 0 in
  stressed_option_price <-
    BlackScholes.black_scholes_price stressed_price (Position.strike pos) T
      (Position.risk_free_rate pos) (Position.implied_vol pos)
      (Position.option_type pos) (Position.dividend_yield pos) ;;
  current_option_price <-
    BlackScholes.black_scholes_price current_price (Position.strike pos) T
      (Position.risk_free_rate pos) (Position.implied_vol pos)
      (Position.option_type pos) (Position.dividend_yield pos) ;;
  let pnl_impact :=
    if Z_lt_dec (Position.quantity pos) 0 then
      (current_option_price - stressed_option_price)
      * IZR (Z.abs (Position.quantity pos)) * 100
    else
      (stressed_option_price - current_option_price)
      * IZR (Position.quantity pos) * 100 in
  Ok {| pi_position_id := Position.id pos;
        pi_symbol := Position.symbol pos;
        pnl_impact := pnl_impact;
        pi_current_price := current_price;
        stressed_price := stressed_price |}.

Section StressTest.

(** Python's float formatting [f"{x:+.1f}"], taken as a parameter. *)
Variable format_signed_1f : R -> string.

Definition stress_test (md : MarketData) (clk : Clock) (db : DB)
  (underlying_change_pct : R) : stress_result :=
  let open_positions := filter_by_status db "open" in
  let '(total_pnl_impact, position_impacts) :=
    fold_left
      (fun st pos =>
         let '(total_pnl_impact, position_impacts) := st in
         match stress_position md clk underlying_change_pct pos with
         | Ok impact =>
             (total_pnl_impact + pnl_impact impact,
              position_impacts ++ [impact])
         | Raise _ => st
         end)
      open_positions (0, []) in
  {| scenario :=
       (format_signed_1f underlying_change_pct ++ "% underlying move")%string;
     total_pnl_impact := total_pnl_impact;
     position_impacts := position_impacts;
     timestamp := now clk |}.

End StressTest.

End RiskManager.

(** ** data/market_data.py *)

Module MarketDataCache.

Section Cache.

Variable A : Type.

(** The dict [self.cache], key to (data, timestamp), with [self.ttl]. *)
Record t : Type := mk {
  cache : string -> option (A * R);
  ttl : R
}.

(** [MarketDataCache(ttl_seconds)] *)
Definition init (ttl_seconds : R) : t :=
  {| cache := fun _ => None; ttl := ttl_seconds |}.

(** [get(key)] at clock reading [time]: the value, if any, and the cache
    after the call (an expired entry is deleted). *)
Definition get (self : t) (time : R) (key : string) : option A * t :=
  match cache self key with
  | Some (data, timestamp) =>
      if Rlt_dec (time - timestamp) (ttl self) then (Some data, self)
      else
        (None,
         {| cache := fun k => if String.eqb k key then None else cache self k;
            ttl := ttl self |})
  | None => (None, self)
  end.

(** [set(key, value)] at clock reading [time]. *)
Definition set (self : t) (time : R) (key : string) (value : A) : t :=
  {| cache := fun k => if String.eqb k key then Some (value, time)
                       else cache self k;
     ttl := ttl self |}.

Definition clear (self : t) : t :=
  {| cache := fun _ => None; ttl := ttl self |}.

End Cache.

Arguments cache {A} _ _.
Arguments ttl {A} _.
Arguments init {A} _.
Arguments get {A} _ _ _.
Arguments set {A} _ _ _ _.
Arguments clear {A} _.

End MarketDataCache.

Module MarketDataManager.

(** A quote source ([YahooFinanceClient], [AlphaVantageClient]): its
    [get_stock_price], which returns a quote or raises. *)
Definition client (Q : Type) : Type := string -> result Q.

Record t (Q : Type) : Type := mk {
  av_client : option (client Q);
  yf_client : option (client Q);
  preferred_source : string
}.
Arguments av_client {Q} _.
Arguments yf_client {Q} _.
Arguments preferred_source {Q} _.

(** [MarketDataManager(alpha_vantage_key, use_yfinance)], given the two
    client constructors. *)
Definition init {Q : Type} (AlphaVantageClient : string -> client Q)
  (YahooFinanceClient : client Q) (alpha_vantage_key : option string)
  (use_yfinance : bool) : t Q :=
  {| av_client :=
       match alpha_vantage_key with
       | Some key => if String.eqb key "" then None
                     else Some (AlphaVantageClient key)
       | None => None
       end;
     yf_client := if use_yfinance then Some YahooFinanceClient else None;
     preferred_source := if use_yfinance then "yfinance" else "alphavantage" |}.

Definition get_stock_price {Q : Type} (self : t Q) (symbol : string)
  : result Q :=
  match (if String.eqb (preferred_source self) "yfinance"
         then yf_client self else None) with
  | Some yf =>
      match yf symbol with
      | Ok quote => Ok quote
      | Raise e =>
          match av_client self with
          | Some av => av symbol
          | None => Raise e
          end
      end
  | None =>
      match av_client self with
      | Some av => av symbol
      | None => Raise (ValueError "No market data source available")
      end
  end.

End MarketDataManager.

(** * Properties *)

(** ** Built-ins *)

Lemma pymax_Rmax (a b : R) : pymax a b = Rmax a b.
Proof.
  unfold pymax, Rmax.
  destruct (Rlt_dec a b), (Rle_dec a b); lra.
Qed.

Lemma pysum_from (xs : list R) (a : R) :
  fold_left Rplus xs a = a + fold_right Rplus 0 xs.
Proof.
  revert a. induction xs as [|x xs IH]; intros a; simpl.
  - lra.
  - rewrite IH. lra.
Qed.

Lemma pysum_fold_right (xs : list R) : pysum xs = fold_right Rplus 0 xs.
Proof. unfold pysum. rewrite pysum_from. lra. Qed.

Lemma pysum_snoc (xs : list R) (x : R) : pysum (xs ++ [x]) = pysum xs + x.
Proof.
  rewrite !pysum_fold_right, fold_right_app. simpl.
  induction xs as [|y ys IH]; simpl; lra.
Qed.

Lemma or_zero_some (v : R) : or_zero (Some v) = v.
Proof. unfold or_zero. destruct (Req_dec_T v 0); congruence. Qed.

Lemma fold_left_cons {A B : Type} (f : A -> B -> A) (b : B) (l : list B)
  (a : A) :
  fold_left f (b :: l) a = fold_left f l (f a b).
Proof. reflexivity. Qed.

Lemma py_truediv_ok (a b : R) : b <> 0 -> py_truediv a b = Ok (a / b).
Proof.
  intros H. unfold py_truediv.
  destruct (Req_dec_T b 0) as [E|_]; [contradiction|reflexivity].
Qed.

Lemma py_truediv_zero (a : R) : py_truediv a 0 = Raise ZeroDivisionError.
Proof.
  unfold py_truediv.
  destruct (Req_dec_T 0 0) as [_|N]; [reflexivity|contradiction].
Qed.

Lemma float_pow_bound_Z : float_pow_bound = IZR (2 ^ 512).
Proof. unfold float_pow_bound. rewrite (pow_IZR 2 512). f_equal. Qed.

Lemma float_pow_bound_1e10 : 1e10 < float_pow_bound.
Proof.
  rewrite float_pow_bound_Z.
  apply Rlt_le_trans with (IZR 1099511627776); [lra|].
  apply IZR_le. vm_compute. discriminate.
Qed.

Lemma float_pow_bound_1e200 : float_pow_bound <= 1e200.
Proof. rewrite float_pow_bound_Z. lra. Qed.

Lemma py_pow2_ok (x : R) : Rabs x < float_pow_bound -> py_pow2 x = Ok (x ^ 2).
Proof.
  intros H. unfold py_pow2.
  destruct (Rle_dec float_pow_bound (Rabs x)) as [L|_]; [lra|reflexivity].
Qed.

Lemma py_pow2_overflow (x : R) :
  float_pow_bound <= Rabs x -> py_pow2 x = Raise OverflowError.
Proof.
  intros H. unfold py_pow2.
  destruct (Rle_dec float_pow_bound (Rabs x)) as [_|N];
    [reflexivity|contradiction].
Qed.

Lemma py_pow2_small (x : R) : Rabs x <= 1e10 -> py_pow2 x = Ok (x ^ 2).
Proof.
  intros H. apply py_pow2_ok. generalize float_pow_bound_1e10. lra.
Qed.

Lemma py_pow2_pos (x : R) :
  0 < x -> x < float_pow_bound -> py_pow2 x = Ok (x ^ 2).
Proof.
  intros H0 H. apply py_pow2_ok. rewrite Rabs_right; lra.
Qed.

(** ** Bounds on the normal distribution *)












(** ** Pricing *)

Section Pricing.

Import BlackScholes.

(** Before expiry, with a positive volatility whose square does not overflow
    and a non-zero strike, the pricer evaluates the closed form. *)
Lemma black_scholes_price_regular (S K T r sigma q : R)
  (option_type : string) :
  0 < T -> 0 < sigma -> sigma < float_pow_bound -> K <> 0 ->
  black_scholes_price S K T r sigma option_type q =
  let d1 := (ln (S / K) + (r - q + sigma ^ 2 / 2) * T) / (sigma * sqrt T) in
  let d2 := d1 - sigma * sqrt T in
  if String.eqb option_type "call" then
    Ok (S * exp (- q * T) * Norm.cdf d1 - K * exp (- r * T) * Norm.cdf d2)
  else if String.eqb option_type "put" then
    Ok (K * exp (- r * T) * Norm.cdf (- d2) - S * exp (- q * T) * Norm.cdf (- d1))
  else Raise (ValueError "option_type must be 'call' or 'put'").
Proof.
  intros HT Hs Hb HK. unfold black_scholes_price.
  destruct (Rle_dec T 0) as [H|_]; [lra|].
  destruct (Rle_dec sigma 0) as [H|_]; [lra|].
  rewrite (py_truediv_ok S K HK), (py_pow2_pos sigma Hs Hb). reflexivity.
Qed.

(** The two closed forms differ by the discounted forward, in the exact
    arithmetic of the embedding. *)
Lemma put_call_parity_exact (S K T r sigma q : R) :
  0 < T -> 0 < sigma -> sigma < float_pow_bound -> K <> 0 ->
  exists c p,
    black_scholes_price S K T r sigma "call" q = Ok c /\
    black_scholes_price S K T r sigma "put" q = Ok p /\
    c - p = S * exp (- q * T) - K * exp (- r * T).
Proof.
  intros HT Hs Hb HK.
  rewrite !(black_scholes_price_regular S K T r sigma q _ HT Hs Hb HK).
  simpl. do 2 eexists. split; [reflexivity|]. split; [reflexivity|].
  rewrite !Norm.cdf_neg. ring.
Qed.

(** C3, amended (put-call parity on a bounded domain): for 0.01 <= S, K <=
    1e6, 1e-4 <= T <= 10, |r|, |q| <= 0.2 and 1e-3 <= sigma <= 10, both
    prices are returned and the call price minus the put price is within
    1e-6 of S e^(-qT) - K e^(-rT). *)
Theorem put_call_parity_bounded (S K T r sigma q : R) :
  0.01 <= S <= 1e6 -> 0.01 <= K <= 1e6 -> 1e-4 <= T <= 10 ->
  -0.2 <= r <= 0.2 -> -0.2 <= q <= 0.2 -> 1e-3 <= sigma <= 10 ->
  exists c p,
    black_scholes_price S K T r sigma "call" q = Ok c /\
    black_scholes_price S K T r sigma "put" q = Ok p /\
    Rabs ((c - p) - (S * exp (- q * T) - K * exp (- r * T))) < 1e-6.
Proof.
  intros HS HK HT Hr Hq Hs.
  assert (Hb : sigma < float_pow_bound)
    by (generalize float_pow_bound_1e10; lra).
  destruct (put_call_parity_exact S K T r sigma q) as (c & p & Hc & Hp & E);
    try lra.
  exists c, p. repeat split; try assumption.
  rewrite E. replace (_ - _) with 0 by ring. rewrite Rabs_R0. lra.
Qed.

Lemma put_call_parity_bounded_witness :
  exists c p,
    black_scholes_price 150 145 (30 / 365) 0.05 0.25 "call" 0 = Ok c /\
    black_scholes_price 150 145 (30 / 365) 0.05 0.25 "put" 0 = Ok p /\
    Rabs ((c - p) - (150 * exp (- 0 * (30 / 365)) - 145 * exp (- (0.05) * (30 / 365))))
      < 1e-6.
Proof.
  apply (put_call_parity_bounded 150 145 (30 / 365) 0.05 0.25 0); lra.
Defined.

(** C3, as stated, fails: S = K = 100, T = 1, r = 0.05, q = 0 and
    sigma = 1e200 are all positive, yet no price is returned: sigma ** 2
    raises OverflowError. *)
Lemma put_call_parity_counterexample :
  0 < 100 /\ 0 < 1 /\ 0 < 1e200 /\
  black_scholes_price 100 100 1 0.05 1e200 "call" 0 = Raise OverflowError /\
  black_scholes_price 100 100 1 0.05 1e200 "put" 0 = Raise OverflowError /\
  ~ (exists c p,
       black_scholes_price 100 100 1 0.05 1e200 "call" 0 = Ok c /\
       black_scholes_price 100 100 1 0.05 1e200 "put" 0 = Ok p /\
       Rabs ((c - p) - (100 * exp (- 0 * 1) - 100 * exp (- (0.05) * 1)))
       < 1e-6).
Proof.
  assert (E : forall option_type,
             black_scholes_price 100 100 1 0.05 1e200 option_type 0
             = Raise OverflowError).
  { intros option_type. unfold black_scholes_price.
    destruct (Rle_dec 1 0) as [H|_]; [lra|].
    destruct (Rle_dec 1e200 0) as [H|_]; [lra|].
    rewrite py_truediv_ok by lra.
    rewrite py_pow2_overflow; [reflexivity|].
    rewrite Rabs_right by lra. exact float_pow_bound_1e200. }
  split; [lra|]. split; [lra|]. split; [lra|].
  split; [apply E|]. split; [apply E|].
  intros (c & p & Hc & _). rewrite E in Hc. discriminate.
Qed.

(** C5 (expired-option boundary): for T <= 0 and any sigma the price is the
    intrinsic value, max(0, S-K) for a call and max(0, K-S) for a put, and
    gamma, vega, theta and rho are 0. *)
Theorem expired_boundary (S K T r sigma q : R) (option_type : string) :
  T <= 0 ->
  black_scholes_price S K T r sigma "call" q = Ok (Rmax 0 (S - K)) /\
  black_scholes_price S K T r sigma "put" q = Ok (Rmax 0 (K - S)) /\
  Greeks.gamma S K T r sigma q = Ok 0 /\
  Greeks.vega S K T r sigma q = Ok 0 /\
  Greeks.theta S K T r sigma option_type q = Ok 0 /\
  Greeks.rho S K T r sigma option_type q = Ok 0.
Proof.
  intros HT.
  unfold black_scholes_price, Greeks.gamma, Greeks.vega, Greeks.theta, Greeks.rho.
  destruct (Rle_dec T 0) as [_|H]; [|contradiction].
  simpl. rewrite !pymax_Rmax. repeat split; reflexivity.
Qed.

Lemma expired_boundary_witness :
  black_scholes_price 150 145 0 0.05 (-1) "call" 0 = Ok (Rmax 0 (150 - 145)) /\
  black_scholes_price 150 145 0 0.05 (-1) "put" 0 = Ok (Rmax 0 (145 - 150)) /\
  Greeks.gamma 150 145 0 0.05 (-1) 0 = Ok 0 /\
  Greeks.vega 150 145 0 0.05 (-1) 0 = Ok 0 /\
  Greeks.theta 150 145 0 0.05 (-1) "call" 0 = Ok 0 /\
  Greeks.rho 150 145 0 0.05 (-1) "call" 0 = Ok 0.
Proof. apply (expired_boundary 150 145 0 0.05 (-1) 0 "call"); lra. Defined.

(** The no-arbitrage floor in the words of the specification. *)
Definition no_arbitrage_floor (option_type : string) (S K T r q : R) : R :=
  if String.eqb option_type "call"
  then Rmax 0 (S * exp (- q * T) - K * exp (- r * T))
  else Rmax 0 (K * exp (- r * T) - S * exp (- q * T)).

Lemma iv_checks_spec (market_price S K T r q : R) (option_type : string) :
  iv_checks market_price S K T r option_type q =
  if Rle_dec T 0 then Raise (ValueError msg_expired)
  else if Rlt_dec market_price (no_arbitrage_floor option_type S K T r q)
       then Raise (ValueError msg_below_intrinsic)
       else Ok tt.
Proof.
  unfold iv_checks, no_arbitrage_floor.
  destruct (Rle_dec T 0); [reflexivity|].
  destruct (String.eqb option_type "call"); rewrite pymax_Rmax; reflexivity.
Qed.

Lemma no_arbitrage_floor_call (S K T r q : R) :
  no_arbitrage_floor "call" S K T r q =
  Rmax 0 (S * exp (- q * T) - K * exp (- r * T)).
Proof. reflexivity. Qed.

Lemma no_arbitrage_floor_put (S K T r q : R) :
  no_arbitrage_floor "put" S K T r q =
  Rmax 0 (K * exp (- r * T) - S * exp (- q * T)).
Proof. reflexivity. Qed.

(** One turn of the Newton-Raphson loop. *)
Lemma newton_loop_step (python_float : bool) (max_iterations fuel : nat)
  (tolerance market_price S K T r : R) (option_type : string) (q sigma : R) :
  newton_loop python_float max_iterations (Datatypes.S fuel) tolerance
    market_price S K T r option_type q sigma =
  (ratio <- py_truediv S K ;;
   sigma_sq <- (if python_float then py_pow2 sigma else Ok (sigma ^ 2)) ;;
   let d1 := (ln ratio + (r - q + sigma_sq / 2) * T) / (sigma * sqrt T) in
   let vega := S * exp (- q * T) * Norm.pdf d1 * sqrt T in
   if Rlt_dec vega 1e-10 then Raise (ValueError msg_vega_small)
   else
     p <- black_scholes_price S K T r sigma option_type q ;;
     let price_diff := p - market_price in
     if Rlt_dec (Rabs price_diff) tolerance then Ok sigma
     else
       let sigma1 := sigma - price_diff / vega in
       if Rle_dec sigma1 0 then
         newton_loop true max_iterations fuel tolerance
           market_price S K T r option_type q 0.01
       else
         newton_loop false max_iterations fuel tolerance
           market_price S K T r option_type q sigma1).
Proof. reflexivity. Qed.

(** The first turn, when neither the division nor the square raises. *)
Lemma newton_raphson_step (max_iterations fuel : nat)
  (tolerance market_price S K T r : R) (option_type : string) (q sigma : R) :
  K <> 0 -> Rabs sigma < float_pow_bound ->
  newton_raphson max_iterations (Datatypes.S fuel) tolerance market_price
    S K T r option_type q sigma =
  let d1 := (ln (S / K) + (r - q + sigma ^ 2 / 2) * T) / (sigma * sqrt T) in
  let vega := S * exp (- q * T) * Norm.pdf d1 * sqrt T in
  if Rlt_dec vega 1e-10 then Raise (ValueError msg_vega_small)
  else
    p <- black_scholes_price S K T r sigma option_type q ;;
    let price_diff := p - market_price in
    if Rlt_dec (Rabs price_diff) tolerance then Ok sigma
    else
      let sigma1 := sigma - price_diff / vega in
      if Rle_dec sigma1 0 then
        newton_loop true max_iterations fuel tolerance
          market_price S K T r option_type q 0.01
      else
        newton_loop false max_iterations fuel tolerance
          market_price S K T r option_type q sigma1.
Proof.
  intros HK Hb. unfold newton_raphson. rewrite newton_loop_step.
  rewrite (py_truediv_ok S K HK), (py_pow2_ok sigma Hb). reflexivity.
Qed.

Section InputErrors.

Variable brentq : (R -> xfloat) -> R -> R -> R -> nat -> result R.

(** C6 (input errors of implied_volatility): whatever the root finder is,
    the call fails with ValueError "Cannot calculate IV for expired options"
    when T <= 0, with ValueError "Market price below intrinsic value" when
    T > 0 and the market price is strictly below the no-arbitrage floor, and
    in every other case (a price equal to the floor included) both guards
    pass and the result is that of the root-finding stage; the guards fail
    exactly when T <= 0 or the price is below the floor. *)
Theorem iv_input_errors (market_price S K T r q : R) (option_type : string) :
  let floor := no_arbitrage_floor option_type S K T r q in
  (T <= 0 ->
   implied_volatility brentq market_price S K T r option_type q
   = Raise (ValueError msg_expired)) /\
  (0 < T -> market_price < floor ->
   implied_volatility brentq market_price S K T r option_type q
   = Raise (ValueError msg_below_intrinsic)) /\
  (0 < T -> floor <= market_price ->
   iv_checks market_price S K T r option_type q = Ok tt /\
   implied_volatility brentq market_price S K T r option_type q
   = iv_solve brentq market_price S K T r option_type q 0.3 100 1e-6) /\
  (is_ok (iv_checks market_price S K T r option_type q) = false
   <-> T <= 0 \/ market_price < floor).
Proof.
  intros floor. unfold implied_volatility, implied_volatility_full.
  rewrite iv_checks_spec. fold floor.
  destruct (Rle_dec T 0) as [HT|HT];
    [|destruct (Rlt_dec market_price floor) as [Hm|Hm]]; simpl.
  - repeat split; try reflexivity; try lra; tauto.
  - repeat split; try reflexivity; try lra; tauto.
  - repeat split; try reflexivity; try lra; try discriminate;
      try (intros [H|H]; lra).
Qed.

(** Once the guards have passed, a value found by the bracketed search is
    returned as it is. *)
Lemma implied_volatility_brentq_value (market_price S K T r q : R)
  (option_type : string) (iv : R) :
  iv_checks market_price S K T r option_type q = Ok tt ->
  brentq (objective market_price S K T r option_type q) 0.01 5.0 1e-6 100
  = Ok iv ->
  implied_volatility brentq market_price S K T r option_type q = Ok iv.
Proof.
  intros Hc Hb. unfold implied_volatility, implied_volatility_full, iv_solve.
  rewrite Hc. unfold bind. rewrite Hb. reflexivity.
Qed.

(** When the bracketed search raises ValueError and vega at the seed 0.3 is
    below 1e-10, the fallback gives up on its first turn. *)
Lemma implied_volatility_seed_vega_too_small (market_price S K T r q : R)
  (option_type : string) (msg : string) :
  K <> 0 ->
  iv_checks market_price S K T r option_type q = Ok tt ->
  brentq (objective market_price S K T r option_type q) 0.01 5.0 1e-6 100
  = Raise (ValueError msg) ->
  S * exp (- q * T)
    * Norm.pdf ((ln (S / K) + (r - q + 0.3 ^ 2 / 2) * T) / (0.3 * sqrt T))
    * sqrt T < 1e-10 ->
  implied_volatility brentq market_price S K T r option_type q
  = Raise (ValueError msg_vega_small).
Proof.
  intros HK Hc Hb Hv.
  unfold implied_volatility, implied_volatility_full, iv_solve.
  rewrite Hc. unfold bind at 1. rewrite Hb.
  change 100%nat with (Datatypes.S 99) at 2.
  rewrite newton_raphson_step;
    [|exact HK|rewrite Rabs_right by lra; generalize float_pow_bound_1e10; lra].
  cbv zeta.
  match goal with
  | |- (if ?c then _ else _) = _ => destruct c as [_|Hn]
  end; [reflexivity|contradiction].
Qed.

End InputErrors.

(** A volatility returned by the Newton-Raphson loop reprices to within the
    tolerance of the market price. *)
Lemma newton_loop_sound (max_iterations fuel : nat)
  (tolerance market_price S K T r : R) (option_type : string) (q : R) :
  forall python_float sigma0 sigma,
    0 < sigma0 ->
    newton_loop python_float max_iterations fuel tolerance market_price
      S K T r option_type q sigma0 = Ok sigma ->
    0 < sigma /\
    exists p,
      black_scholes_price S K T r sigma option_type q = Ok p /\
      Rabs (p - market_price) < tolerance.
Proof.
  induction fuel as [|fuel IH]; intros python_float sigma0 sigma Hpos.
  - discriminate.
  - rewrite newton_loop_step. unfold bind at 1.
    destruct (py_truediv S K) as [ratio|]; [|discriminate].
    unfold bind at 1.
    destruct (if python_float then py_pow2 sigma0 else Ok (sigma0 ^ 2))
      as [sigma_sq|]; [|discriminate].
    cbv zeta.
    match goal with
    | |- (if ?c then _ else _) = _ -> _ => destruct c; [discriminate|]
    end.
    destruct (black_scholes_price S K T r sigma0 option_type q) as [p|] eqn:Hp;
      simpl; [|discriminate].
    destruct (Rlt_dec (Rabs (p - market_price)) tolerance) as [Hlt|_].
    + intros H. injection H as H. subst sigma0.
      split; [assumption|]. exists p. split; assumption.
    + match goal with
      | |- (if ?c then _ else _) = _ -> _ => destruct c
      end; apply IH; lra.
Qed.

Lemma newton_raphson_sound (max_iterations fuel : nat)
  (tolerance market_price S K T r : R) (option_type : string) (q : R) :
  forall sigma0 sigma,
    0 < sigma0 ->
    newton_raphson max_iterations fuel tolerance market_price S K T r
      option_type q sigma0 = Ok sigma ->
    exists p,
      black_scholes_price S K T r sigma option_type q = Ok p /\
      Rabs (p - market_price) < tolerance.
Proof.
  intros sigma0 sigma Hpos H.
  apply (newton_loop_sound max_iterations fuel tolerance market_price S K T r
           option_type q true sigma0 sigma Hpos H).
Qed.

(** A market price equal to the floor passes the guards: the call floor of
    S = 150, K = 145 at r = q = 0 is 5. *)
Lemma iv_checks_at_floor : iv_checks 5 150 145 1 0 "call" 0 = Ok tt.
Proof.
  rewrite iv_checks_spec, no_arbitrage_floor_call.
  destruct (Rle_dec 1 0) as [H|_]; [exfalso; lra|].
  replace (- 0 * 1) with 0 by ring. rewrite exp_0.
  replace (150 * 1 - 145 * 1) with 5 by ring.
  unfold Rmax. destruct (Rle_dec 0 5) as [_|H]; [|exfalso; lra].
  destruct (Rlt_dec 5 5) as [H|_]; [exfalso; lra|reflexivity].
Qed.

(** A run that returns: at the money with r = q = 0 and one year to go, the
    price generated at sigma = 0.3 is recovered on the first turn. *)
Definition atm_price : R :=
  100 * exp (- 0 * 1) * Norm.cdf ((ln (100 / 100) + (0 - 0 + 0.3 ^ 2 / 2) * 1)
                                  / (0.3 * sqrt 1))
  - 100 * exp (- 0 * 1)
    * Norm.cdf ((ln (100 / 100) + (0 - 0 + 0.3 ^ 2 / 2) * 1) / (0.3 * sqrt 1)
                - 0.3 * sqrt 1).

Lemma pdf_lower_bound (x : R) : 0 <= x * x <= 2 -> / 9 <= Norm.pdf x.
Proof.
  intros [H0 H2]. unfold Norm.pdf.
  assert (Hpi : 0 < PI) by apply PI_RGT_0.
  assert (Hs : 0 < sqrt (2 * PI)) by (apply sqrt_lt_R0; lra).
  assert (Hs3 : sqrt (2 * PI) <= 3).
  { replace 3 with (sqrt (3 * 3)) by (apply sqrt_square; lra).
    apply sqrt_le_1_alt. generalize PI_4. lra. }
  assert (He : / 3 <= exp (- (x * x) / 2)).
  { replace (- (x * x) / 2) with (- (x * x / 2)) by lra.
    rewrite exp_Ropp. apply Rinv_le_contravar; [apply exp_pos|].
    apply Rle_trans with (exp 1); [|apply exp_le_3].
    destruct (Rle_lt_or_eq_dec (x * x / 2) 1) as [Hlt|Heq]; [lra| |].
    - left. apply exp_increasing. exact Hlt.
    - rewrite Heq. apply Rle_refl. }
  apply Rle_trans with (/ 3 / 3); [lra|].
  apply Rle_trans with (exp (- (x * x) / 2) / 3).
  - apply Rmult_le_compat_r; lra.
  - apply Rmult_le_compat_l; [left; apply exp_pos|].
    apply Rinv_le_contravar; assumption.
Qed.

Lemma newton_recovers_atm :
  newton_raphson 100 100 1e-6 atm_price 100 100 1 0 "call" 0 0.3 = Ok 0.3.
Proof.
  change 100%nat with (Datatypes.S 99) at 2.
  rewrite newton_raphson_step;
    [|lra|rewrite Rabs_right by lra; generalize float_pow_bound_1e10; lra].
  cbv zeta.
  match goal with
  | |- (if ?c then _ else _) = _ => destruct c as [Hv|_]
  end.
  - exfalso. revert Hv.
    replace (100 / 100) with 1 by field. rewrite ln_1, sqrt_1.
    replace (- 0 * 1) with 0 by ring. rewrite exp_0.
    set (d := (0 + (0 - 0 + 0.3 ^ 2 / 2) * 1) / (0.3 * 1)).
    assert (Hd : d = 0.15) by (unfold d; lra).
    assert (Hb : / 9 <= Norm.pdf d).
    { apply pdf_lower_bound. rewrite Hd. split; lra. }
    intros Hv. lra.
  - rewrite black_scholes_price_regular;
      [|lra|lra|generalize float_pow_bound_1e10; lra|lra].
    cbv zeta.
    change (String.eqb "call" "call") with true. cbv iota. unfold bind.
    fold atm_price.
    replace (atm_price - atm_price) with 0 by ring. rewrite Rabs_R0.
    destruct (Rlt_dec 0 1e-6) as [_|H]; [reflexivity|exfalso; lra].
Qed.







Section RoundTrip.

Variable brentq : (R -> xfloat) -> R -> R -> R -> nat -> result R.



End RoundTrip.




End Pricing.

(** ** Portfolio: what add_position stores *)

Section PortfolioFacts.

Import Database Portfolio.

Lemma positions_update_position_pnl md clk db p :
  positions (update_position_pnl md clk db p) = positions db.
Proof.
  unfold update_position_pnl, update_position_pnl_try, bind.
  destruct (get_stock_price md (Position.symbol p)); [|reflexivity].
  destruct (BlackScholes.black_scholes_price _ _ _ _ _ _ _); [|reflexivity].
  destruct (Greeks.calculate_all_greeks _ _ _ _ _ _ _); reflexivity.
Qed.

Lemma hedges_update_position_pnl md clk db p :
  hedges (update_position_pnl md clk db p) = hedges db.
Proof.
  unfold update_position_pnl, update_position_pnl_try, bind.
  destruct (get_stock_price md (Position.symbol p)); [|reflexivity].
  destruct (BlackScholes.black_scholes_price _ _ _ _ _ _ _); [|reflexivity].
  destruct (Greeks.calculate_all_greeks _ _ _ _ _ _ _); reflexivity.
Qed.

Lemma trades_update_position_pnl md clk db p :
  trades (update_position_pnl md clk db p) = trades db.
Proof.
  unfold update_position_pnl, update_position_pnl_try, bind.
  destruct (get_stock_price md (Position.symbol p)); [|reflexivity].
  destruct (BlackScholes.black_scholes_price _ _ _ _ _ _ _); [|reflexivity].
  destruct (Greeks.calculate_all_greeks _ _ _ _ _ _ _); reflexivity.
Qed.

(** The row a successful [add_position] creates. *)
Lemma add_position_row_fields md clk db symbol option_type strike expiration
  quantity premium implied_vol dividend_yield db' pos :
  add_position md clk db symbol option_type strike expiration quantity premium
    implied_vol dividend_yield = Ok (db', pos) ->
  Position.id pos = next_id (positions db) /\
  Position.quantity pos = quantity /\
  Position.premium_collected pos
    = (if Z_lt_dec quantity 0 then premium else - premium) /\
  Position.status pos = "open"%string /\
  positions db' = positions db ++ [pos] /\
  hedges db' = hedges db.
Proof.
  unfold add_position, bind.
  destruct (get_stock_price md symbol) as [price|]; [|discriminate].
  destruct (match implied_vol with
            | Some v => Ok v
            | None => get_historical_volatility md symbol
            end) as [vol|]; [|discriminate].
  destruct (get_risk_free_rate md) as [rate|]; [|discriminate].
  simpl. intros H. injection H as Hdb Hpos. subst db' pos. simpl.
  rewrite positions_update_position_pnl, hedges_update_position_pnl.
  repeat split; reflexivity.
Qed.

(** C2, amended (sign of the stored premium): a position created by
    [add_position] stores the premium itself when quantity < 0 and its
    negation when quantity > 0; so for a positive premium the stored
    premium_collected is positive for a short sale and negative for a long
    purchase. *)
Theorem add_position_premium_sign md clk db symbol option_type strike
  expiration quantity premium implied_vol dividend_yield db' pos :
  add_position md clk db symbol option_type strike expiration quantity premium
    implied_vol dividend_yield = Ok (db', pos) ->
  ((quantity < 0)%Z -> Position.premium_collected pos = premium) /\
  ((quantity > 0)%Z -> Position.premium_collected pos = - premium) /\
  (0 < premium ->
   ((quantity < 0)%Z -> 0 < Position.premium_collected pos) /\
   ((quantity > 0)%Z -> Position.premium_collected pos < 0)).
Proof.
  intros H.
  destruct (add_position_row_fields _ _ _ _ _ _ _ _ _ _ _ _ _ H)
    as (_ & _ & Hp & _).
  rewrite Hp. destruct (Z_lt_dec quantity 0); repeat split; intros; try lia; lra.
Qed.

End PortfolioFacts.

(** ** A concrete book: one quote source, one short call *)

Module Scenario.

Import Database.

Definition md0 : MarketData :=
  {| get_stock_price := fun _ => Ok 150;
     get_historical_volatility := fun _ => Ok 0.30;
     get_risk_free_rate := Ok 0.05 |}.

Definition clk0 : Clock := {| today := 0; now := 0 |}.

(** The short call of the seller scenario: 10 contracts sold at 7.50. *)
Definition short_call : Position.t :=
  {| Position.id := 1;
     Position.symbol := "AAPL";
     Position.option_type := "call";
     Position.strike := 145;
     Position.expiration := 30;
     Position.quantity := -10;
     Position.premium_collected := 7.50;
     Position.entry_price := 150;
     Position.entry_date := 0;
     Position.status := "open";
     Position.close_date := None;
     Position.close_price := None;
     Position.implied_vol := 0.25;
     Position.risk_free_rate := 0.05;
     Position.dividend_yield := 0 |}.

(** The same contract bought: 10 contracts at 7.50. *)
Definition long_call : Position.t :=
  {| Position.id := 1;
     Position.symbol := "AAPL";
     Position.option_type := "call";
     Position.strike := 145;
     Position.expiration := 30;
     Position.quantity := 10;
     Position.premium_collected := - (7.50);
     Position.entry_price := 150;
     Position.entry_date := 0;
     Position.status := "open";
     Position.close_date := None;
     Position.close_price := None;
     Position.implied_vol := 0.25;
     Position.risk_free_rate := 0.05;
     Position.dividend_yield := 0 |}.

Definition db_short : DB :=
  Portfolio.update_position_pnl md0 clk0 (add_position_row empty short_call)
    short_call.

Definition db_long : DB :=
  Portfolio.update_position_pnl md0 clk0 (add_position_row empty long_call)
    long_call.

Lemma add_short_call :
  Portfolio.add_position md0 clk0 empty "AAPL" "call" 145 30 (-10) 7.50
    (Some 0.25) 0 = Ok (db_short, short_call).
Proof. reflexivity. Qed.

Lemma add_long_call :
  Portfolio.add_position md0 clk0 empty "AAPL" "call" 145 30 10 7.50
    (Some 0.25) 0 = Ok (db_long, long_call).
Proof. reflexivity. Qed.

Lemma short_call_premium : Position.premium_collected short_call = 7.50.
Proof. reflexivity. Qed.

Lemma long_call_premium : Position.premium_collected long_call = - (7.50).
Proof. reflexivity. Qed.

End Scenario.

(** C2, as stated, fails: the short sale of 10 contracts at 7.50 stores
    +7.50 (not a negative number), and the purchase of 10 contracts at 7.50
    stores -7.50 (not a positive number). *)
Lemma add_position_premium_sign_counterexample :
  (Portfolio.add_position Scenario.md0 Scenario.clk0 Database.empty
     "AAPL" "call" 145 30 (-10) 7.50 (Some 0.25) 0
   = Ok (Scenario.db_short, Scenario.short_call) /\
   (Position.quantity Scenario.short_call < 0)%Z /\
   ~ Position.premium_collected Scenario.short_call < 0) /\
  (Portfolio.add_position Scenario.md0 Scenario.clk0 Database.empty
     "AAPL" "call" 145 30 10 7.50 (Some 0.25) 0
   = Ok (Scenario.db_long, Scenario.long_call) /\
   (Position.quantity Scenario.long_call > 0)%Z /\
   ~ Position.premium_collected Scenario.long_call > 0).
Proof.
  split; (split; [reflexivity|]); split.
  - simpl. lia.
  - rewrite Scenario.short_call_premium. lra.
  - simpl. lia.
  - rewrite Scenario.long_call_premium. lra.
Qed.

Lemma add_position_premium_sign_witness :
  Portfolio.add_position Scenario.md0 Scenario.clk0 Database.empty
    "AAPL" "call" 145 30 (-10) 7.50 (Some 0.25) 0
  = Ok (Scenario.db_short, Scenario.short_call) /\
  ((-10 < 0)%Z -> Position.premium_collected Scenario.short_call = 7.50) /\
  ((-10 > 0)%Z -> Position.premium_collected Scenario.short_call = - (7.50)) /\
  (0 < 7.50 ->
   ((-10 < 0)%Z -> 0 < Position.premium_collected Scenario.short_call) /\
   ((-10 > 0)%Z -> Position.premium_collected Scenario.short_call < 0)).
Proof.
  split; [reflexivity|].
  apply (add_position_premium_sign Scenario.md0 Scenario.clk0 Database.empty
           "AAPL" "call" 145 30 (-10) 7.50 (Some 0.25) 0
           Scenario.db_short Scenario.short_call).
  reflexivity.
Defined.

(** ** P&L of a position *)

Section PnLFacts.

Import Database PnLTracker.

(** C1 (seller scenario), what the code computes: for the position created by
    [add_position] with premium 7.50 and quantity -10, valued with multiplier
    100 and no hedges at a current option price of 5.00,
    [calculate_position_pnl] reports option P&L (7.50 + 5.00) * 10 * 100 =
    12500 and ROI 12500 / 7500 * 100, not 2500 and 33.3. *)
Theorem seller_scenario_position_pnl md clk db symbol option_type strike
  expiration implied_vol dividend_yield db1 pos tracker clk' db2 pos2 r :
  Portfolio.add_position md clk db symbol option_type strike expiration (-10)
    7.50 implied_vol dividend_yield = Ok (db1, pos) ->
  query_get db2 (Position.id pos) = Some pos2 ->
  Position.quantity pos2 = Position.quantity pos ->
  Position.premium_collected pos2 = Position.premium_collected pos ->
  hedges_of db2 pos2 = [] ->
  multiplier tracker = 100 ->
  calculate_position_pnl tracker clk' db2 (Position.id pos) = Ok r ->
  current_option_price r = 5.00 ->
  option_pnl r = 12500 /\
  total_pnl r = 12500 /\
  roi r = 12500 / 7500 * 100 /\
  option_pnl r <> 2500 /\
  roi r <> 2500 / 7500 * 100.
Proof.
  intros Hadd Hget Hq Hp Hh Hm Hcalc Hprice.
  destruct (add_position_row_fields _ _ _ _ _ _ _ _ _ _ _ _ _ Hadd)
    as (_ & Hq0 & Hp0 & _).
  simpl in Hp0. rewrite Hq0 in Hq. rewrite Hp0 in Hp.
  unfold calculate_position_pnl in Hcalc. rewrite Hget in Hcalc.
  unfold bind in Hcalc.
  destruct (get_stock_price (market_data tracker) (Position.symbol pos2))
    as [u|]; [|discriminate].
  match type of Hcalc with
  | match ?c with _ => _ end = _ => destruct c as [cop|]; [|discriminate]
  end.
  cbv beta iota in Hcalc.
  match type of Hcalc with
  | match ?c with _ => _ end = _ => destruct c as [gk|]; [|discriminate]
  end.
  injection Hcalc as Hr. subst r. simpl in *. subst cop.
  rewrite Hh, Hq, Hp, Hm. simpl.
  assert (Ha : Rabs 7.50 = 7.50) by (apply Rabs_right; lra).
  rewrite Ha.
  destruct (Rgt_dec (7.50 * 10 * 100) 0) as [_|H]; [|exfalso; lra].
  repeat split; try lra.
Qed.

End PnLFacts.

(** The seller scenario run end to end: sell, close at 5.00, report. *)

Module SellerScenario.

Import Database Scenario.

Definition closed_call : Position.t :=
  {| Position.id := 1;
     Position.symbol := "AAPL";
     Position.option_type := "call";
     Position.strike := 145;
     Position.expiration := 30;
     Position.quantity := -10;
     Position.premium_collected := 7.50;
     Position.entry_price := 150;
     Position.entry_date := 0;
     Position.status := "closed";
     Position.close_date := Some 0%Z;
     Position.close_price := Some 5.00;
     Position.implied_vol := 0.25;
     Position.risk_free_rate := 0.05;
     Position.dividend_yield := 0 |}.

Definition db_closed : DB := update_position db_short closed_call.

Definition tracker0 : PnLTracker.t :=
  {| PnLTracker.market_data := md0; PnLTracker.multiplier := 100 |}.

Lemma positions_db_short : positions db_short = [short_call].
Proof. unfold db_short. now rewrite positions_update_position_pnl. Qed.

Lemma hedges_db_short : hedges db_short = [].
Proof. unfold db_short. now rewrite hedges_update_position_pnl. Qed.

Lemma close_short_call :
  exists fin,
    Portfolio.close_position md0 clk0 db_short 1 (Some 5.00)
    = Ok (db_closed, fin).
Proof.
  unfold Portfolio.close_position, query_get.
  rewrite positions_db_short. simpl. eexists. reflexivity.
Qed.

Lemma query_closed_call : query_get db_closed 1 = Some closed_call.
Proof.
  unfold query_get, db_closed, update_position. simpl.
  rewrite positions_db_short. reflexivity.
Qed.

Lemma hedges_closed_call : hedges_of db_closed closed_call = [].
Proof.
  unfold hedges_of, db_closed, update_position. simpl.
  rewrite hedges_db_short. reflexivity.
Qed.

Lemma report_closed_call :
  exists r,
    PnLTracker.calculate_position_pnl tracker0 clk0 db_closed 1 = Ok r /\
    PnLTracker.current_option_price r = 5.00.
Proof.
  unfold PnLTracker.calculate_position_pnl. rewrite query_closed_call.
  simpl. destruct (Req_dec_T 5.00 0) as [H|_]; [exfalso; lra|].
  eexists. split; reflexivity.
Qed.

(** The seller-specific report of the same position: premium collected
    7500, current obligation 5000, option profit 2500. *)
Lemma seller_view_closed_call :
  exists s,
    PnLTracker.calculate_seller_pnl tracker0 clk0 db_closed 1 = Ok (Some s) /\
    PnLTracker.s_premium_collected s = 7500 /\
    PnLTracker.s_current_obligation s = 5000 /\
    PnLTracker.s_option_profit s = 2500.
Proof.
  destruct report_closed_call as (r & Hr & Hp).
  unfold PnLTracker.calculate_seller_pnl. rewrite query_closed_call.
  simpl. rewrite Hr. simpl. eexists. split; [reflexivity|]. simpl.
  rewrite Hp.
  assert (Ha : Rabs 7.50 = 7.50) by (apply Rabs_right; lra).
  rewrite Ha. repeat split; lra.
Qed.

End SellerScenario.

Lemma seller_scenario_position_pnl_witness :
  exists r,
    PnLTracker.calculate_position_pnl SellerScenario.tracker0 Scenario.clk0
      SellerScenario.db_closed 1 = Ok r /\
    PnLTracker.current_option_price r = 5.00 /\
    PnLTracker.option_pnl r = 12500 /\
    PnLTracker.total_pnl r = 12500 /\
    PnLTracker.roi r = 12500 / 7500 * 100 /\
    PnLTracker.option_pnl r <> 2500 /\
    PnLTracker.roi r <> 2500 / 7500 * 100.
Proof.
  destruct SellerScenario.report_closed_call as (r & Hr & Hp).
  exists r. split; [exact Hr|]. split; [exact Hp|].
  apply (seller_scenario_position_pnl Scenario.md0 Scenario.clk0 Database.empty
           "AAPL" "call" 145 30 (Some 0.25) 0
           Scenario.db_short Scenario.short_call
           SellerScenario.tracker0 Scenario.clk0 SellerScenario.db_closed
           SellerScenario.closed_call r).
  - reflexivity.
  - exact SellerScenario.query_closed_call.
  - reflexivity.
  - reflexivity.
  - exact SellerScenario.hedges_closed_call.
  - reflexivity.
  - exact Hr.
  - exact Hp.
Defined.

(** ** Delta hedging *)

Section HedgingFacts.

Import Database DeltaHedger.

Variable self : DeltaHedger.t.
Variable clk : Clock.

(** The time to expiry used by the hedger is never below 0.0001. *)
Lemma hedging_horizon_pos (x : R) : 0 < pymax x 0.0001.
Proof. unfold pymax. destruct (Rlt_dec x 0.0001); lra. Qed.

(** Before expiry [delta] returns whenever the strike is not zero and the
    square of the volatility does not overflow. *)
Lemma delta_returns (S K T r sigma q : R) (option_type : string) :
  0 < T -> K <> 0 -> Rabs sigma < float_pow_bound ->
  exists d, Greeks.delta S K T r sigma option_type q = Ok d.
Proof.
  intros HT HK Hb. unfold Greeks.delta.
  destruct (Rle_dec T 0) as [H|_]; [lra|].
  rewrite (py_truediv_ok S K HK), (py_pow2_ok sigma Hb). simpl.
  destruct (String.eqb option_type "call"); eexists; reflexivity.
Qed.

(** The report is produced whenever the quote is, for a non-zero strike and
    a volatility whose square does not overflow. *)
Lemma calculate_hedge_requirements_returns db position price :
  get_stock_price (market_data self) (Position.symbol position) = Ok price ->
  Position.strike position <> 0 ->
  Rabs (Position.implied_vol position) < float_pow_bound ->
  exists rq,
    calculate_hedge_requirements self clk db position = Ok rq /\
    underlying_price rq = price /\
    position_delta rq
    = option_delta rq * IZR (Position.quantity position) * multiplier self.
Proof.
  intros Hq HK Hb. unfold calculate_hedge_requirements. rewrite Hq.
  unfold bind.
  destruct (delta_returns price (Position.strike position)
              (pymax (IZR (Position.expiration position - today clk) / 365.0)
                 0.0001)
              (Position.risk_free_rate position)
              (Position.implied_vol position)
              (Position.dividend_yield position)
              (Position.option_type position)
              (hedging_horizon_pos _) HK Hb) as (d & Hd).
  rewrite Hd. eexists. repeat split; reflexivity.
Qed.

(** The hedge is executed whenever the report is produced. *)
Lemma execute_hedge_returns db position shares hedge_type rq :
  calculate_hedge_requirements self clk db position = Ok rq ->
  exists db' h,
    execute_hedge self clk db position shares hedge_type = Ok (db', h) /\
    Hedge.position_id h = Position.id position /\
    Hedge.hedge_price h = underlying_price rq.
Proof.
  intros Hrq. unfold execute_hedge. rewrite Hrq. revert Hrq.
  unfold calculate_hedge_requirements, bind.
  destruct (get_stock_price (market_data self) (Position.symbol position))
    as [price|]; [|discriminate].
  destruct (Greeks.delta _ _ _ _ _ _ _) as [d|]; [|discriminate].
  intros H. injection H as H. subst rq.
  do 2 eexists. repeat split; reflexivity.
Qed.

(** C7 (hedge report): net_delta = position_delta + current_hedge_shares,
    the latter being the sum of the quantities of the position's hedges;
    required_hedge_shares = - net_delta; should_rehedge is false when
    position_delta is 0 and otherwise says whether
    |net_delta / position_delta| exceeds the rehedge threshold. *)
Theorem hedge_requirements_report db position rq :
  calculate_hedge_requirements self clk db position = Ok rq ->
  current_hedge_shares rq
  = fold_right Rplus 0 (map Hedge.hedge_quantity (hedges_of db position)) /\
  net_delta rq = position_delta rq + current_hedge_shares rq /\
  required_hedge_shares rq = - net_delta rq /\
  (position_delta rq = 0 -> should_rehedge rq = false) /\
  (position_delta rq <> 0 ->
   (should_rehedge rq = true <->
    Rabs (net_delta rq / position_delta rq) > rehedge_threshold self)).
Proof.
  unfold calculate_hedge_requirements, bind.
  destruct (get_stock_price (market_data self) (Position.symbol position))
    as [price|]; [|discriminate].
  destruct (Greeks.delta _ _ _ _ _ _ _) as [d|]; [|discriminate].
  intros H. injection H as H. subst rq. simpl.
  rewrite <- pysum_fold_right.
  repeat split; try reflexivity.
  - intros H0. destruct (Req_dec_T _ 0) as [_|Hn]; [reflexivity|contradiction].
  - destruct (Req_dec_T _ 0) as [He|_]; [contradiction|].
    destruct (Rgt_dec _ _); [trivial|discriminate].
  - destruct (Req_dec_T _ 0) as [He|_]; [contradiction|].
    destruct (Rgt_dec _ _); [reflexivity|contradiction].
Qed.

Lemma hedges_of_after_hedge db position h t :
  Hedge.position_id h = Position.id position ->
  hedges_of (add_trade_row (add_hedge_row db h) t) position
  = hedges_of db position ++ [h].
Proof.
  intros Hid. unfold hedges_of. simpl. rewrite filter_app. simpl.
  rewrite Hid, Z.eqb_refl. reflexivity.
Qed.

(** C8 (hedge record): the record created by [execute_hedge] is appended to
    the hedges and satisfies delta_after = delta_before + hedge_quantity;
    when the shares argument is omitted, delta_after is 0, hence within 0.01
    of zero, and so is the net delta recomputed on the new database. *)
Theorem execute_hedge_delta_invariant db position shares hedge_type db' h :
  execute_hedge self clk db position shares hedge_type = Ok (db', h) ->
  hedges db' = hedges db ++ [h] /\
  Hedge.delta_after h = Hedge.delta_before h + Hedge.hedge_quantity h /\
  (shares = None ->
   Rabs (Hedge.delta_after h) < 0.01 /\
   exists rq',
     calculate_hedge_requirements self clk db' position = Ok rq' /\
     net_delta rq' = Hedge.delta_after h /\
     Rabs (net_delta rq') < 0.01).
Proof.
  unfold execute_hedge, calculate_hedge_requirements, bind.
  destruct (get_stock_price (market_data self) (Position.symbol position))
    as [price|]; [|discriminate].
  destruct (Greeks.delta _ _ _ _ _ _ _) as [d|]; [|discriminate].
  intros H. injection H as Hdb Hh. subst db' h. simpl.
  repeat split; try reflexivity.
  - subst shares. replace (_ + - _) with 0 by ring. rewrite Rabs_R0. lra.
  - subst shares. eexists. split; [reflexivity|].
    cbn [net_delta Hedge.delta_after Hedge.delta_before required_hedge_shares].
    rewrite hedges_of_after_hedge by reflexivity.
    rewrite map_app. cbn [map]. rewrite pysum_snoc.
    cbn [Hedge.hedge_quantity net_delta required_hedge_shares].
    split; [ring|].
    match goal with |- Rabs ?x < _ => replace x with 0 by ring end.
    rewrite Rabs_R0. lra.
Qed.

(** With [execute = False] a turn of the loop touches neither the database
    nor the executed list. *)
Lemma rehedge_step_preview st position :
  fst (fst (rehedge_step self clk false st position)) = fst (fst st) /\
  snd (rehedge_step self clk false st position) = snd st.
Proof.
  destruct st as [[db recs] execd]. unfold rehedge_step.
  destruct (check_rehedge_needed self clk db (Position.id position))
    as [[[|] ?|[|] ? ? ? ? ? ?]|]; simpl; split; reflexivity.
Qed.

Lemma rehedge_fold_preview ps st :
  fst (fst (fold_left (rehedge_step self clk false) ps st)) = fst (fst st) /\
  snd (fold_left (rehedge_step self clk false) ps st) = snd st.
Proof.
  revert st. induction ps as [|p ps IH]; intros st; simpl.
  - split; reflexivity.
  - destruct (IH (rehedge_step self clk false st p)) as [H1 H2].
    destruct (rehedge_step_preview st p) as [H3 H4].
    rewrite H1, H2, H3, H4. split; reflexivity.
Qed.

(** C9 (preview is read-only): [auto_rehedge_portfolio] with execute=False
    returns the database it was given, so no Hedge or Trade row is created
    and every position keeps its hedges; the summary has an empty executed
    list, zero executed count and zero total cost. *)
Theorem auto_rehedge_preview_read_only db :
  fst (auto_rehedge_portfolio self clk db false) = db /\
  hedges (fst (auto_rehedge_portfolio self clk db false)) = hedges db /\
  trades (fst (auto_rehedge_portfolio self clk db false)) = trades db /\
  (forall p,
     hedges_of (fst (auto_rehedge_portfolio self clk db false)) p
     = hedges_of db p) /\
  executed (snd (auto_rehedge_portfolio self clk db false)) = [] /\
  total_executed (snd (auto_rehedge_portfolio self clk db false)) = 0%nat /\
  summary_total_cost (snd (auto_rehedge_portfolio self clk db false)) = 0.
Proof.
  assert (E : fst (auto_rehedge_portfolio self clk db false) = db).
  { unfold auto_rehedge_portfolio.
    destruct (rehedge_fold_preview (filter_by_status db "open") (db, [], []))
      as [H _].
    destruct (fold_left _ _ _) as [[db' recs] execd]. simpl in *. exact H. }
  rewrite E. repeat split; try reflexivity.
  all: unfold auto_rehedge_portfolio;
    destruct (fold_left _ _ _) as [[db' recs] execd]; reflexivity.
Qed.

(** C10 (rehedge check on a missing or non-open position): for an unknown
    position id, or a position whose status is not 'open',
    [check_rehedge_needed] does not raise; it returns needed = False with
    reason 'Position not open'. *)
Theorem check_rehedge_needed_not_open db position_id :
  (query_get db position_id = None \/
   exists p, query_get db position_id = Some p /\
             Position.status p <> "open"%string) ->
  check_rehedge_needed self clk db position_id
  = Ok (NotOpen false "Position not open").
Proof.
  intros [Hn|(p & Hp & Hs)]; unfold check_rehedge_needed.
  - rewrite Hn. reflexivity.
  - rewrite Hp. apply String.eqb_neq in Hs. rewrite Hs. reflexivity.
Qed.

End HedgingFacts.

(** ** The hedger on the concrete book *)

Module HedgeScenario.

Import Database Scenario.

Definition hedger0 : DeltaHedger.t := DeltaHedger.init md0 100.

Lemma requirements_short_call :
  exists rq,
    DeltaHedger.calculate_hedge_requirements hedger0 clk0 db_short short_call
    = Ok rq.
Proof.
  destruct (calculate_hedge_requirements_returns hedger0 clk0 db_short
              short_call 150 eq_refl) as (rq & Hrq & _).
  - simpl. lra.
  - simpl. rewrite Rabs_right by lra. generalize float_pow_bound_1e10. lra.
  - exists rq. exact Hrq.
Qed.

Lemma hedge_short_call :
  exists db' h,
    DeltaHedger.execute_hedge hedger0 clk0 db_short short_call None "initial"
    = Ok (db', h).
Proof.
  destruct requirements_short_call as (rq & Hrq).
  destruct (execute_hedge_returns hedger0 clk0 db_short short_call None
              "initial" rq Hrq) as (db' & h & He & _).
  exists db', h. exact He.
Qed.

End HedgeScenario.

Lemma hedge_requirements_report_witness :
  exists rq,
    DeltaHedger.calculate_hedge_requirements HedgeScenario.hedger0
      Scenario.clk0 Scenario.db_short Scenario.short_call = Ok rq /\
    (DeltaHedger.current_hedge_shares rq
     = fold_right Rplus 0
         (map Hedge.hedge_quantity
            (Database.hedges_of Scenario.db_short Scenario.short_call)) /\
     DeltaHedger.net_delta rq
     = DeltaHedger.position_delta rq + DeltaHedger.current_hedge_shares rq /\
     DeltaHedger.required_hedge_shares rq = - DeltaHedger.net_delta rq /\
     (DeltaHedger.position_delta rq = 0 ->
      DeltaHedger.should_rehedge rq = false) /\
     (DeltaHedger.position_delta rq <> 0 ->
      (DeltaHedger.should_rehedge rq = true <->
       Rabs (DeltaHedger.net_delta rq / DeltaHedger.position_delta rq)
       > DeltaHedger.rehedge_threshold HedgeScenario.hedger0))).
Proof.
  destruct HedgeScenario.requirements_short_call as (rq & Hrq).
  exists rq. split; [exact Hrq|].
  exact (hedge_requirements_report HedgeScenario.hedger0 Scenario.clk0
           Scenario.db_short Scenario.short_call rq Hrq).
Defined.

Lemma execute_hedge_delta_invariant_witness :
  exists db' h,
    DeltaHedger.execute_hedge HedgeScenario.hedger0 Scenario.clk0
      Scenario.db_short Scenario.short_call None "initial" = Ok (db', h) /\
    (Database.hedges db' = Database.hedges Scenario.db_short ++ [h] /\
     Hedge.delta_after h = Hedge.delta_before h + Hedge.hedge_quantity h /\
     (@None R = None ->
      Rabs (Hedge.delta_after h) < 0.01 /\
      exists rq',
        DeltaHedger.calculate_hedge_requirements HedgeScenario.hedger0
          Scenario.clk0 db' Scenario.short_call = Ok rq' /\
        DeltaHedger.net_delta rq' = Hedge.delta_after h /\
        Rabs (DeltaHedger.net_delta rq') < 0.01)).
Proof.
  destruct HedgeScenario.hedge_short_call as (db' & h & He).
  exists db', h. split; [exact He|].
  apply (execute_hedge_delta_invariant HedgeScenario.hedger0 Scenario.clk0
           Scenario.db_short Scenario.short_call None "initial").
  exact He.
Defined.

Lemma check_rehedge_needed_not_open_witness :
  DeltaHedger.check_rehedge_needed HedgeScenario.hedger0 Scenario.clk0
    Database.empty 42
  = Ok (DeltaHedger.NotOpen false "Position not open") /\
  DeltaHedger.check_rehedge_needed HedgeScenario.hedger0 Scenario.clk0
    SellerScenario.db_closed 1
  = Ok (DeltaHedger.NotOpen false "Position not open").
Proof.
  split.
  - apply (check_rehedge_needed_not_open HedgeScenario.hedger0 Scenario.clk0
             Database.empty 42).
    left. reflexivity.
  - apply (check_rehedge_needed_not_open HedgeScenario.hedger0 Scenario.clk0
             SellerScenario.db_closed 1).
    right. exists SellerScenario.closed_call.
    split; [exact SellerScenario.query_closed_call|].
    simpl. discriminate.
Defined.

(** * Further properties of the pricing functions *)

Section PricingMore.

Import BlackScholes.

Lemma eqb_call_put_cases (option_type : string) :
  (option_type = "call"%string /\ String.eqb option_type "call" = true) \/
  (option_type = "put"%string /\ String.eqb option_type "call" = false
     /\ String.eqb option_type "put" = true) \/
  (option_type <> "call"%string /\ option_type <> "put"%string
     /\ String.eqb option_type "call" = false
     /\ String.eqb option_type "put" = false).
Proof.
  destruct (String.eqb option_type "call") eqn:Ec.
  - left. apply String.eqb_eq in Ec. now split.
  - destruct (String.eqb option_type "put") eqn:Ep.
    + right; left. apply String.eqb_eq in Ep. now repeat split.
    + right; right. apply String.eqb_neq in Ec, Ep. now repeat split.
Qed.

(** The outcome of the expression that computes d1, shared by the pricing
    routines: the division first, then the square. *)
Lemma d1_outcome (S K sigma : R) :
  (K = 0 /\ py_truediv S K = Raise ZeroDivisionError) \/
  (K <> 0 /\ float_pow_bound <= Rabs sigma /\
   py_truediv S K = Ok (S / K) /\ py_pow2 sigma = Raise OverflowError) \/
  (K <> 0 /\ Rabs sigma < float_pow_bound /\
   py_truediv S K = Ok (S / K) /\ py_pow2 sigma = Ok (sigma ^ 2)).
Proof.
  destruct (Req_dec_T K 0) as [E|N].
  - left. subst K. split; [reflexivity|apply py_truediv_zero].
  - right. destruct (Rle_dec float_pow_bound (Rabs sigma)) as [L|L].
    + left. repeat split; try assumption.
      * now apply py_truediv_ok.
      * now apply py_pow2_overflow.
    + right. assert (Rabs sigma < float_pow_bound) by lra.
      repeat split; try assumption.
      * now apply py_truediv_ok.
      * now apply py_pow2_ok.
Qed.

(** When the pricer returns. *)
Lemma black_scholes_price_returns_ok (S K T r sigma q : R)
  (option_type : string) :
  is_ok (black_scholes_price S K T r sigma option_type q) = true <->
  T <= 0 \/
  (0 < sigma /\ sigma < float_pow_bound /\ K <> 0 /\
   (option_type = "call" \/ option_type = "put")%string).
Proof.
  unfold black_scholes_price.
  destruct (Rle_dec T 0) as [HT|HT].
  - split; [intros _; now left|].
    intros _. destruct (String.eqb option_type "call"); reflexivity.
  - destruct (Rle_dec sigma 0) as [Hs|Hs].
    + split; [discriminate|]. intros [H|[H _]]; lra.
    + assert (Ha : Rabs sigma = sigma) by (apply Rabs_right; lra).
      destruct (d1_outcome S K sigma)
        as [[EK E1]|[(NK & Hb & E1 & E2)|(NK & Hb & E1 & E2)]];
        rewrite E1; try rewrite E2; simpl.
      * split; [discriminate|]. intros [H|(_ & _ & H & _)];
          [lra|contradiction].
      * split; [discriminate|]. intros [H|(_ & H & _)]; lra.
      * destruct (eqb_call_put_cases option_type)
          as [[E Ec]|[(E & Ec & Ep)|(Nc & Np & Ec & Ep)]];
          rewrite Ec; try rewrite Ep; simpl.
        -- split; [|reflexivity]. intros _. right.
           repeat split; try assumption; try lra. now left.
        -- split; [|reflexivity]. intros _. right.
           repeat split; try assumption; try lra. now right.
        -- split; [discriminate|].
           intros [H|(_ & _ & _ & [H|H])]; [lra|contradiction|contradiction].
Qed.

(** X1: [black_scholes_price] returns a price exactly when T <= 0, or when
    0 < sigma < 2^512, K is not zero and the type is 'call' or 'put'.
    Before expiry the failures are reported in this order: a non-positive
    volatility (ValueError), a zero strike (ZeroDivisionError), a volatility
    whose square overflows (OverflowError), an unknown type (ValueError).
    At or after expiry nothing is checked and an unknown type is priced as a
    put. *)
Theorem black_scholes_price_returns_iff (S K T r sigma q : R)
  (option_type : string) :
  (is_ok (black_scholes_price S K T r sigma option_type q) = true <->
   T <= 0 \/
   (0 < sigma /\ sigma < float_pow_bound /\ K <> 0 /\
    (option_type = "call" \/ option_type = "put")%string)) /\
  (0 < T -> sigma <= 0 ->
   black_scholes_price S K T r sigma option_type q
   = Raise (ValueError "Volatility must be positive")) /\
  (0 < T -> 0 < sigma -> K = 0 ->
   black_scholes_price S K T r sigma option_type q
   = Raise ZeroDivisionError) /\
  (0 < T -> K <> 0 -> float_pow_bound <= sigma ->
   black_scholes_price S K T r sigma option_type q
   = Raise OverflowError) /\
  (0 < T -> 0 < sigma -> sigma < float_pow_bound -> K <> 0 ->
   option_type <> "call"%string -> option_type <> "put"%string ->
   black_scholes_price S K T r sigma option_type q
   = Raise (ValueError "option_type must be 'call' or 'put'")) /\
  (T <= 0 -> option_type <> "call"%string ->
   black_scholes_price S K T r sigma option_type q
   = black_scholes_price S K T r sigma "put" q).
Proof.
  assert (Hpos : 0 < float_pow_bound)
    by (generalize float_pow_bound_1e10; lra).
  split; [|split; [|split; [|split; [|split]]]].
  - apply black_scholes_price_returns_ok.
  - intros HT Hs. unfold black_scholes_price.
    destruct (Rle_dec T 0) as [H|_]; [lra|].
    destruct (Rle_dec sigma 0) as [_|H]; [reflexivity|lra].
  - intros HT Hs HK. unfold black_scholes_price.
    destruct (Rle_dec T 0) as [H|_]; [lra|].
    destruct (Rle_dec sigma 0) as [H|_]; [lra|].
    subst K. rewrite py_truediv_zero. reflexivity.
  - intros HT HK Hb. unfold black_scholes_price.
    destruct (Rle_dec T 0) as [H|_]; [lra|].
    destruct (Rle_dec sigma 0) as [H|_]; [lra|].
    rewrite (py_truediv_ok S K HK), py_pow2_overflow; [reflexivity|].
    rewrite Rabs_right; lra.
  - intros HT Hs Hb HK Hc Hp.
    rewrite (black_scholes_price_regular S K T r sigma q _ HT Hs Hb HK).
    apply String.eqb_neq in Hc, Hp. cbv zeta. rewrite Hc, Hp. reflexivity.
  - intros HT Hc. unfold black_scholes_price.
    destruct (Rle_dec T 0) as [_|H]; [|lra].
    apply String.eqb_neq in Hc. rewrite Hc. reflexivity.
Qed.

(** X2: the two delta routines, [black_scholes.calculate_delta] and
    [greeks.delta], have the same outcome (the same value or the same
    exception) whenever the type is 'call' or 'put' or the option has
    expired.  Before expiry both raise ZeroDivisionError on a zero strike
    whatever the type; otherwise, on a type that is neither, the first raises
    ValueError where the second returns what it returns for a put. *)
Theorem delta_routines_agree (S K T r sigma q : R) (option_type : string) :
  ((option_type = "call" \/ option_type = "put")%string \/ T <= 0 ->
   calculate_delta S K T r sigma option_type q
   = Greeks.delta S K T r sigma option_type q) /\
  (0 < T -> K = 0 ->
   calculate_delta S K T r sigma option_type q = Raise ZeroDivisionError /\
   Greeks.delta S K T r sigma option_type q = Raise ZeroDivisionError) /\
  (0 < T -> K <> 0 -> Rabs sigma < float_pow_bound ->
   option_type <> "call"%string -> option_type <> "put"%string ->
   calculate_delta S K T r sigma option_type q
   = Raise (ValueError "option_type must be 'call' or 'put'") /\
   is_ok (Greeks.delta S K T r sigma option_type q) = true /\
   Greeks.delta S K T r sigma option_type q
   = Greeks.delta S K T r sigma "put" q).
Proof.
  unfold calculate_delta, Greeks.delta.
  destruct (Rle_dec T 0) as [HT|HT].
  - split; [|split].
    + intros _. destruct (String.eqb option_type "call"); reflexivity.
    + intros; lra.
    + intros; lra.
  - split; [|split].
    + intros [[E|E]|H]; [| |contradiction]; subst option_type;
        destruct (py_truediv S K); simpl; try reflexivity;
        destruct (py_pow2 sigma); reflexivity.
    + intros _ HK. subst K. rewrite py_truediv_zero. split; reflexivity.
    + intros _ HK Hb Hc Hp.
      rewrite (py_truediv_ok S K HK), (py_pow2_ok sigma Hb).
      apply String.eqb_neq in Hc, Hp. simpl. rewrite Hc, Hp.
      repeat split; reflexivity.
Qed.

Lemma delta_routines_agree_witness :
  calculate_delta 150 145 (30 / 365) 0.05 0.25 "put" 0
  = Greeks.delta 150 145 (30 / 365) 0.05 0.25 "put" 0 /\
  (calculate_delta 150 0 (30 / 365) 0.05 0.25 "put" 0
   = Raise ZeroDivisionError /\
   Greeks.delta 150 0 (30 / 365) 0.05 0.25 "put" 0
   = Raise ZeroDivisionError) /\
  (calculate_delta 150 145 (30 / 365) 0.05 0.25 "straddle" 0
   = Raise (ValueError "option_type must be 'call' or 'put'") /\
   is_ok (Greeks.delta 150 145 (30 / 365) 0.05 0.25 "straddle" 0) = true /\
   Greeks.delta 150 145 (30 / 365) 0.05 0.25 "straddle" 0
   = Greeks.delta 150 145 (30 / 365) 0.05 0.25 "put" 0).
Proof.
  split; [|split].
  - apply (proj1 (delta_routines_agree 150 145 (30 / 365) 0.05 0.25 0 "put")).
    left. right. reflexivity.
  - apply (proj1 (proj2 (delta_routines_agree 150 0 (30 / 365) 0.05 0.25 0
                           "put"))).
    + lra.
    + reflexivity.
  - apply (proj2 (proj2 (delta_routines_agree 150 145 (30 / 365) 0.05 0.25 0
                           "straddle"))).
    + lra.
    + lra.
    + rewrite Rabs_right by lra. generalize float_pow_bound_1e10. lra.
    + discriminate.
    + discriminate.
Defined.

End PricingMore.

Section ExpiryAndGuards.

Import BlackScholes.

(** X5: at or after expiry the call and put prices are non-negative, at most
    one of them is non-zero, and they differ by exactly S - K; the call delta
    exceeds the put delta by 1 except at the money (S = K), where both are 0. *)
Theorem expired_put_call_parity (S K T r sigma q : R) :
  T <= 0 ->
  exists c p,
    black_scholes_price S K T r sigma "call" q = Ok c /\
    black_scholes_price S K T r sigma "put" q = Ok p /\
    0 <= c /\ 0 <= p /\ c * p = 0 /\ c - p = S - K /\
    (S <> K ->
     exists dc dp,
       Greeks.delta S K T r sigma "call" q = Ok dc /\
       Greeks.delta S K T r sigma "put" q = Ok dp /\
       dc - dp = 1) /\
    (S = K ->
     Greeks.delta S K T r sigma "call" q = Ok 0 /\
     Greeks.delta S K T r sigma "put" q = Ok 0).
Proof.
  intros HT. unfold black_scholes_price, Greeks.delta.
  destruct (Rle_dec T 0) as [_|H]; [|lra]. simpl.
  do 2 eexists. split; [reflexivity|]. split; [reflexivity|].
  unfold pymax.
  destruct (Rlt_dec 0 (S - K)), (Rlt_dec 0 (K - S)),
           (Rgt_dec S K), (Rlt_dec S K);
    repeat split; intros; try lra;
    try (do 2 eexists; split; [reflexivity|]; split; [reflexivity|]; lra).
Qed.

Lemma expired_put_call_parity_witness :
  exists c p,
    black_scholes_price 150 145 0 0.05 0.25 "call" 0 = Ok c /\
    black_scholes_price 150 145 0 0.05 0.25 "put" 0 = Ok p /\
    0 <= c /\ 0 <= p /\ c * p = 0 /\ c - p = 150 - 145 /\
    (150 <> 145 ->
     exists dc dp,
       Greeks.delta 150 145 0 0.05 0.25 "call" 0 = Ok dc /\
       Greeks.delta 150 145 0 0.05 0.25 "put" 0 = Ok dp /\
       dc - dp = 1) /\
    (150 = 145 ->
     Greeks.delta 150 145 0 0.05 0.25 "call" 0 = Ok 0 /\
     Greeks.delta 150 145 0 0.05 0.25 "put" 0 = Ok 0).
Proof. apply (expired_put_call_parity 150 145 0 0.05 0.25 0); lra. Defined.

(** Whenever the pricer returns, so does [greeks.delta] on the same
    arguments: it evaluates the same division and the same square. *)
Lemma delta_returns_with_price (S K T r sigma q : R) (option_type : string)
  (p : R) :
  black_scholes_price S K T r sigma option_type q = Ok p ->
  exists d, Greeks.delta S K T r sigma option_type q = Ok d.
Proof.
  unfold black_scholes_price, Greeks.delta.
  destruct (Rle_dec T 0) as [HT|HT].
  - intros _. destruct (String.eqb option_type "call"); eexists; reflexivity.
  - destruct (Rle_dec sigma 0); [discriminate|].
    destruct (py_truediv S K); simpl; [|discriminate].
    destruct (py_pow2 sigma); simpl; [|discriminate].
    intros _. destruct (String.eqb option_type "call"); eexists; reflexivity.
Qed.

(** X6: [lambda_greek] raises only when pricing raises and never divides by
    a zero price: an expired option that is not in the money has leverage 0,
    and an expired in-the-money call has leverage S / (S - K). *)
Theorem lambda_greek_zero_price_guard (S K T r sigma q : R)
  (option_type : string) :
  (is_ok (Greeks.lambda_greek S K T r sigma option_type q)
   = is_ok (black_scholes_price S K T r sigma option_type q)) /\
  (black_scholes_price S K T r sigma option_type q = Ok 0 ->
   Greeks.lambda_greek S K T r sigma option_type q = Ok 0) /\
  (T <= 0 -> S <= K ->
   Greeks.lambda_greek S K T r sigma "call" q = Ok 0) /\
  (T <= 0 -> K <= S ->
   Greeks.lambda_greek S K T r sigma "put" q = Ok 0) /\
  (T <= 0 -> K < S ->
   Greeks.lambda_greek S K T r sigma "call" q = Ok (S / (S - K))).
Proof.
  unfold Greeks.lambda_greek.
  split; [|split; [|split; [|split]]].
  - destruct (black_scholes_price S K T r sigma option_type q) as [p|e] eqn:Hp;
      simpl; [|reflexivity].
    destruct (Req_dec_T p 0); [reflexivity|].
    destruct (delta_returns_with_price S K T r sigma q option_type p Hp)
      as (d & Hd).
    rewrite Hd. reflexivity.
  - intros H. rewrite H. simpl.
    destruct (Req_dec_T 0 0) as [_|H0]; [reflexivity|contradiction].
  - intros HT HS. unfold black_scholes_price, pymax.
    destruct (Rle_dec T 0) as [_|H]; [|lra]. simpl.
    destruct (Rlt_dec 0 (S - K)) as [H|_]; [lra|].
    destruct (Req_dec_T 0 0) as [_|H0]; [reflexivity|contradiction].
  - intros HT HS. unfold black_scholes_price, pymax.
    destruct (Rle_dec T 0) as [_|H]; [|lra]. simpl.
    destruct (Rlt_dec 0 (K - S)) as [H|_]; [lra|].
    destruct (Req_dec_T 0 0) as [_|H0]; [reflexivity|contradiction].
  - intros HT HS. unfold black_scholes_price, pymax, Greeks.delta.
    destruct (Rle_dec T 0) as [_|H]; [|lra]. simpl.
    destruct (Rlt_dec 0 (S - K)) as [_|H]; [|lra].
    destruct (Req_dec_T (S - K) 0) as [H0|_]; [lra|].
    destruct (Rgt_dec S K) as [_|H]; [|lra].
    f_equal. lra.
Qed.

(** X8: [validate_inputs] accepts exactly S > 0, K > 0, T >= 0, sigma >= 0,
    and reports the first failing test in that order.  It is weaker than the
    pricer's own tests: for a known type, accepted inputs are priced exactly
    when T = 0 or 0 < sigma < 2^512, so sigma = 0 with T > 0 passes
    validation and then fails in [black_scholes_price]. *)
Theorem validate_inputs_accepts_iff (S K T r sigma : R) :
  (validate_inputs S K T r sigma = Ok tt <->
   0 < S /\ 0 < K /\ 0 <= T /\ 0 <= sigma) /\
  (S <= 0 ->
   validate_inputs S K T r sigma
   = Raise (ValueError "Stock price must be positive")) /\
  (0 < S -> K <= 0 ->
   validate_inputs S K T r sigma
   = Raise (ValueError "Strike price must be positive")) /\
  (validate_inputs S K T r sigma = Ok tt ->
   forall (option_type : string) (q : R),
     (option_type = "call" \/ option_type = "put")%string ->
     (is_ok (black_scholes_price S K T r sigma option_type q) = true
      <-> T = 0 \/ (0 < sigma /\ sigma < float_pow_bound))).
Proof.
  split; [|split; [|split]].
  - unfold validate_inputs.
    destruct (Rle_dec S 0); [split; [discriminate|intros (?&?&?&?); lra]|].
    destruct (Rle_dec K 0); [split; [discriminate|intros (?&?&?&?); lra]|].
    destruct (Rlt_dec T 0); [split; [discriminate|intros (?&?&?&?); lra]|].
    destruct (Rlt_dec sigma 0); [split; [discriminate|intros (?&?&?&?); lra]|].
    split; [intros _; repeat split; lra|reflexivity].
  - intros HS. unfold validate_inputs.
    destruct (Rle_dec S 0); [reflexivity|lra].
  - intros HS HK. unfold validate_inputs.
    destruct (Rle_dec S 0); [lra|].
    destruct (Rle_dec K 0); [reflexivity|lra].
  - unfold validate_inputs.
    destruct (Rle_dec S 0); [discriminate|].
    destruct (Rle_dec K 0); [discriminate|].
    destruct (Rlt_dec T 0) as [HT|HT]; [discriminate|].
    destruct (Rlt_dec sigma 0) as [Hs|Hs]; [discriminate|].
    intros _ option_type q Hot.
    destruct (black_scholes_price_returns_ok S K T r sigma q option_type)
      as [Hif Hfi].
    split.
    + intros H. destruct (Hif H) as [H0|(H1 & H2 & _)];
        [left; lra|right; split; assumption].
    + intros [H|[H1 H2]]; apply Hfi; [left; lra|].
      right. repeat split; try assumption. lra.
Qed.

(** The gap, on a concrete input. *)
Lemma validate_inputs_zero_volatility :
  validate_inputs 100 100 1 0.05 0 = Ok tt /\
  black_scholes_price 100 100 1 0.05 0 "call" 0
  = Raise (ValueError "Volatility must be positive").
Proof.
  split.
  - apply (proj1 (validate_inputs_accepts_iff 100 100 1 0.05 0)). lra.
  - unfold black_scholes_price.
    destruct (Rle_dec 1 0) as [H|_]; [lra|].
    destruct (Rle_dec 0 0) as [_|H]; [reflexivity|lra].
Defined.

End ExpiryAndGuards.

Section GreeksAggregation.

Import Greeks.

(** The five Greeks evaluate the same division and the same square, so they
    return or raise together. *)
Lemma calculate_all_greeks_outcome (S K T r sigma q : R)
  (option_type : string) :
  (T <= 0 \/ (K <> 0 /\ Rabs sigma < float_pow_bound) ->
   exists d g v t h,
     delta S K T r sigma option_type q = Ok d /\
     gamma S K T r sigma q = Ok g /\
     vega S K T r sigma q = Ok v /\
     theta S K T r sigma option_type q = Ok t /\
     rho S K T r sigma option_type q = Ok h /\
     calculate_all_greeks S K T r sigma option_type q
     = Ok {| g_delta := d; g_gamma := g; g_vega := v; g_theta := t;
             g_rho := h |}) /\
  (0 < T -> K = 0 ->
   calculate_all_greeks S K T r sigma option_type q
   = Raise ZeroDivisionError) /\
  (0 < T -> K <> 0 -> float_pow_bound <= Rabs sigma ->
   calculate_all_greeks S K T r sigma option_type q = Raise OverflowError).
Proof.
  unfold calculate_all_greeks, delta, gamma, vega, theta, rho.
  destruct (Rle_dec T 0) as [HT|HT].
  - split; [|split; intros; lra].
    intros _. destruct (String.eqb option_type "call");
      do 5 eexists; repeat split; reflexivity.
  - split; [|split].
    + intros [H|[HK Hb]]; [contradiction|].
      rewrite (py_truediv_ok S K HK), (py_pow2_ok sigma Hb). simpl.
      destruct (String.eqb option_type "call");
        do 5 eexists; repeat split; reflexivity.
    + intros _ HK. subst K. rewrite py_truediv_zero. reflexivity.
    + intros _ HK Hb.
      rewrite (py_truediv_ok S K HK), (py_pow2_overflow sigma Hb).
      reflexivity.
Qed.

Lemma calculate_all_greeks_is_ok (S K T r sigma q : R)
  (option_type : string) :
  is_ok (calculate_all_greeks S K T r sigma option_type q) = true <->
  T <= 0 \/ (K <> 0 /\ Rabs sigma < float_pow_bound).
Proof.
  destruct (calculate_all_greeks_outcome S K T r sigma q option_type)
    as (Hok & Hz & Ho).
  split.
  - intros H. destruct (Rle_dec T 0) as [HT|HT]; [now left|right].
    destruct (Req_dec_T K 0) as [EK|NK].
    + rewrite Hz in H by (assumption || lra). discriminate.
    + split; [exact NK|].
      destruct (Rle_dec float_pow_bound (Rabs sigma)) as [L|L]; [|lra].
      rewrite Ho in H by (assumption || lra). discriminate.
  - intros H. destruct (Hok H) as (d & g & v & t & h & _ & _ & _ & _ & _ & E).
    rewrite E. reflexivity.
Qed.

(** The Greeks of one entry of the list, as the loop computes them. *)
Definition entry_greeks (position : greeks_position) : result greeks :=
  calculate_all_greeks (gp_S position) (gp_K position) (gp_T position)
    (gp_r position) (gp_sigma position) (gp_option_type position)
    (match gp_q position with Some q => q | None => 0 end).

Lemma portfolio_greeks_fold (ps : list greeks_position) :
  portfolio_greeks ps
  = fold_left
      (fun acc position =>
         portfolio <- acc ;;
         let quantity := gp_quantity position in
         greeks <- entry_greeks position ;;
         Ok {| g_delta := g_delta portfolio + g_delta greeks * quantity;
               g_gamma := g_gamma portfolio + g_gamma greeks * quantity;
               g_vega := g_vega portfolio + g_vega greeks * quantity;
               g_theta := g_theta portfolio + g_theta greeks * quantity;
               g_rho := g_rho portfolio + g_rho greeks * quantity |})
      ps (Ok zero_greeks).
Proof. reflexivity. Qed.

Lemma portfolio_greeks_raised (ps : list greeks_position) (e : exn) :
  fold_left
    (fun acc position =>
       portfolio <- acc ;;
       let quantity := gp_quantity position in
       greeks <- entry_greeks position ;;
       Ok {| g_delta := g_delta portfolio + g_delta greeks * quantity;
             g_gamma := g_gamma portfolio + g_gamma greeks * quantity;
             g_vega := g_vega portfolio + g_vega greeks * quantity;
             g_theta := g_theta portfolio + g_theta greeks * quantity;
             g_rho := g_rho portfolio + g_rho greeks * quantity |})
    ps (Raise e) = Raise e.
Proof. induction ps as [|p ps IH]; [reflexivity|exact IH]. Qed.

Lemma portfolio_greeks_from (ps : list greeks_position) (acc : greeks) :
  (forallb (fun p => is_ok (entry_greeks p)) ps = true ->
   exists g,
     fold_left
       (fun acc position =>
          portfolio <- acc ;;
          let quantity := gp_quantity position in
          greeks <- entry_greeks position ;;
          Ok {| g_delta := g_delta portfolio + g_delta greeks * quantity;
                g_gamma := g_gamma portfolio + g_gamma greeks * quantity;
                g_vega := g_vega portfolio + g_vega greeks * quantity;
                g_theta := g_theta portfolio + g_theta greeks * quantity;
                g_rho := g_rho portfolio + g_rho greeks * quantity |})
       ps (Ok acc) = Ok g) /\
  (forall ps1 p ps2 e,
     ps = ps1 ++ p :: ps2 ->
     forallb (fun p => is_ok (entry_greeks p)) ps1 = true ->
     entry_greeks p = Raise e ->
     fold_left
       (fun acc position =>
          portfolio <- acc ;;
          let quantity := gp_quantity position in
          greeks <- entry_greeks position ;;
          Ok {| g_delta := g_delta portfolio + g_delta greeks * quantity;
                g_gamma := g_gamma portfolio + g_gamma greeks * quantity;
                g_vega := g_vega portfolio + g_vega greeks * quantity;
                g_theta := g_theta portfolio + g_theta greeks * quantity;
                g_rho := g_rho portfolio + g_rho greeks * quantity |})
       ps (Ok acc) = Raise e).
Proof.
  revert acc. induction ps as [|a ps IH]; intros acc.
  - split.
    + intros _. eexists. reflexivity.
    + intros [|x ps1] p ps2 e E; discriminate.
  - split.
    + cbn [forallb]. intros H. apply andb_prop in H. destruct H as [Ha Hps].
      rewrite fold_left_cons. unfold bind at 2 3.
      destruct (entry_greeks a) as [g|]; [|discriminate].
      apply (proj1 (IH _) Hps).
    + intros [|x ps1] p ps2 e E Hall He.
      * injection E as E1 E2. subst a ps.
        rewrite fold_left_cons. unfold bind at 2 3. rewrite He.
        apply portfolio_greeks_raised.
      * injection E as E1 E2. subst x.
        cbn [forallb] in Hall. apply andb_prop in Hall.
        destruct Hall as [Ha Hps1].
        rewrite fold_left_cons. unfold bind at 2 3.
        destruct (entry_greeks a) as [g|]; [|discriminate].
        apply (proj2 (IH _) ps1 p ps2 e E2 Hps1 He).
Qed.

(** X7: [greeks.portfolio_greeks] has no [try]: it returns exactly when the
    Greeks of every entry do, that is when each entry has T <= 0, or a
    non-zero strike and a volatility below 2^512 in magnitude; otherwise it
    raises the exception of the first entry that fails, whatever follows it;
    on the empty list it returns five zeros. *)
Theorem portfolio_greeks_first_failure (ps : list greeks_position) :
  portfolio_greeks [] = Ok zero_greeks /\
  (is_ok (portfolio_greeks ps) = true <->
   forall p, In p ps ->
     gp_T p <= 0 \/
     (gp_K p <> 0 /\ Rabs (gp_sigma p) < float_pow_bound)) /\
  (forall ps1 p ps2 e,
     ps = ps1 ++ p :: ps2 ->
     (forall x, In x ps1 -> is_ok (entry_greeks x) = true) ->
     entry_greeks p = Raise e ->
     portfolio_greeks ps = Raise e).
Proof.
  split; [reflexivity|]. 
  destruct (portfolio_greeks_from ps zero_greeks) as [Hall Hfirst].
  split.
  - split.
    + intros H p Hp.
      apply (proj1 (calculate_all_greeks_is_ok (gp_S p) (gp_K p) (gp_T p)
                      (gp_r p) (gp_sigma p)
                      (match gp_q p with Some q => q | None => 0 end)
                      (gp_option_type p))).
      change (is_ok (entry_greeks p) = true).
      destruct (is_ok (entry_greeks p)) eqn:Ep; [reflexivity|exfalso].
      apply in_split in Hp. destruct Hp as (l1 & l2 & E).
      assert (Hex : exists ps1 x ps2 e,
                 ps = ps1 ++ x :: ps2 /\
                 forallb (fun p => is_ok (entry_greeks p)) ps1 = true /\
                 entry_greeks x = Raise e).
      { clear H Hall Hfirst. subst ps. revert p l2 Ep.
        induction l1 as [|a l1 IH]; intros p l2 Ep.
        - destruct (entry_greeks p) as [g|e] eqn:Eg; [discriminate|].
          exists [], p, l2, e. repeat split. exact Eg.
        - destruct (entry_greeks a) as [g|e] eqn:Ea.
          + destruct (IH p l2 Ep) as (ps1 & x & ps2 & e & E & Hf & Hx).
            exists (a :: ps1), x, ps2, e. split; [simpl; now rewrite E|].
            split; [|exact Hx]. cbn [forallb]. rewrite Ea, Hf. reflexivity.
          + exists [], a, (l1 ++ p :: l2), e. repeat split. exact Ea. }
      destruct Hex as (ps1 & x & ps2 & e & E' & Hf & Hx).
      rewrite portfolio_greeks_fold, (Hfirst ps1 x ps2 e E' Hf Hx) in H.
      discriminate.
    + intros H.
      assert (Hf : forallb (fun p => is_ok (entry_greeks p)) ps = true).
      { apply forallb_forall. intros p Hp. unfold entry_greeks.
        apply (proj2 (calculate_all_greeks_is_ok _ _ _ _ _ _ _)).
        now apply H. }
      destruct (Hall Hf) as (g & Eg).
      rewrite portfolio_greeks_fold, Eg. reflexivity.
  - intros ps1 p ps2 e E Hok He.
    rewrite portfolio_greeks_fold.
    apply (Hfirst ps1 p ps2 e E); [|exact He].
    apply forallb_forall. exact Hok.
Qed.

End GreeksAggregation.

Section NewtonFallback.

Import BlackScholes.

(** X9: when the Newton-Raphson loop is started from a positive volatility,
    whatever it returns is positive and reprices to within the tolerance of
    the market price. *)
Theorem newton_raphson_result (max_iterations fuel : nat)
  (tolerance market_price S K T r : R) (option_type : string) (q : R)
  (sigma0 sigma : R) :
  0 < sigma0 ->
  newton_raphson max_iterations fuel tolerance market_price S K T r
    option_type q sigma0 = Ok sigma ->
  0 < sigma /\
  exists p,
    black_scholes_price S K T r sigma option_type q = Ok p /\
    Rabs (p - market_price) < tolerance.
Proof.
  intros Hpos H.
  exact (newton_loop_sound max_iterations fuel tolerance market_price S K T r
           option_type q true sigma0 sigma Hpos H).
Qed.

Lemma newton_raphson_result_witness :
  0 < 0.3 /\
  exists p,
    black_scholes_price 100 100 1 0 0.3 "call" 0 = Ok p /\
    Rabs (p - atm_price) < 1e-6.
Proof.
  apply (newton_raphson_result 100 100 1e-6 atm_price 100 100 1 0 "call" 0
           0.3 0.3).
  - lra.
  - exact newton_recovers_atm.
Defined.

End NewtonFallback.

(** * Further properties of the book *)

Section BookFacts.

Import Database.

(** Primary keys as the code hands them out: 1, 2, ..., n in row order. *)
Definition ids_sequential (db : DB) : Prop :=
  map Position.id (positions db)
  = map Z.of_nat (seq 1 (length (positions db))).

(** Primary keys are pairwise distinct. *)
Definition unique_ids (db : DB) : Prop :=
  NoDup (map Position.id (positions db)).

Lemma ids_sequential_empty : ids_sequential empty.
Proof. reflexivity. Qed.

Lemma ids_sequential_bound db p :
  ids_sequential db -> In p (positions db) ->
  (1 <= Position.id p <= Z.of_nat (length (positions db)))%Z.
Proof.
  unfold ids_sequential. intros H Hin.
  apply (in_map Position.id) in Hin. rewrite H in Hin.
  apply in_map_iff in Hin. destruct Hin as (k & Hk & Hs).
  apply in_seq in Hs. lia.
Qed.

Lemma ids_sequential_unique db : ids_sequential db -> unique_ids db.
Proof.
  unfold ids_sequential, unique_ids. intros H. rewrite H.
  apply NoDup_map_NoDup_ForallPairs; [|apply seq_NoDup].
  intros a b _ _ E. lia.
Qed.

Lemma find_unique (l : list Position.t) (p : Position.t) :
  NoDup (map Position.id l) -> In p l ->
  find (fun x => Z.eqb (Position.id x) (Position.id p)) l = Some p.
Proof.
  induction l as [|a l IH]; simpl; intros Hnd Hin; [contradiction|].
  inversion Hnd as [|? ? Hna Hnd']; subst.
  destruct Hin as [E|Hin].
  - subst a. rewrite Z.eqb_refl. reflexivity.
  - destruct (Z.eqb (Position.id a) (Position.id p)) eqn:E.
    + apply Z.eqb_eq in E. exfalso. apply Hna. rewrite E.
      apply in_map. exact Hin.
    + apply IH; assumption.
Qed.

Lemma query_get_unique db p :
  unique_ids db -> In p (positions db) ->
  query_get db (Position.id p) = Some p.
Proof. intros. unfold query_get. now apply find_unique. Qed.

Lemma query_get_in db pid p :
  query_get db pid = Some p -> In p (positions db) /\ Position.id p = pid.
Proof.
  unfold query_get. intros H. apply find_some in H. destruct H as [Hin E].
  apply Z.eqb_eq in E. now split.
Qed.

Lemma find_app_some {A : Type} (f : A -> bool) (l1 l2 : list A) (a : A) :
  find f l1 = Some a -> find f (l1 ++ l2) = Some a.
Proof.
  induction l1 as [|x l1 IH]; simpl; [discriminate|].
  destruct (f x); [trivial|exact IH].
Qed.

Lemma find_app_none {A : Type} (f : A -> bool) (l1 l2 : list A) :
  find f l1 = None -> find f (l1 ++ l2) = find f l2.
Proof.
  induction l1 as [|x l1 IH]; simpl; [trivial|].
  destruct (f x); [discriminate|exact IH].
Qed.

Lemma find_map_same_id (g : Position.t -> Position.t) (pid : Z)
  (l : list Position.t) :
  (forall x, Position.id (g x) = Position.id x) ->
  find (fun x => Z.eqb (Position.id x) pid) (map g l)
  = option_map g (find (fun x => Z.eqb (Position.id x) pid) l).
Proof.
  intros Hg. induction l as [|a l IH]; simpl; [reflexivity|].
  rewrite Hg. destruct (Z.eqb (Position.id a) pid); [reflexivity|exact IH].
Qed.

Lemma filter_none {A : Type} (f : A -> bool) (l : list A) :
  (forall a, In a l -> f a = false) -> filter f l = [].
Proof.
  induction l as [|a l IH]; intros H; [reflexivity|]. simpl.
  rewrite (H a (or_introl eq_refl)). apply IH.
  intros b Hb. apply H. now right.
Qed.

Variable md : MarketData.
Variable clk : Clock.

(** X10: [add_position] succeeds exactly when its market-data calls do
    (the quote, the historical volatility when no implied volatility is
    given, the risk-free rate); [_check_risk_limits] being constantly True,
    no quantity, however large, is ever refused. *)
Theorem add_position_succeeds_iff_data db symbol option_type strike
  expiration quantity premium implied_vol dividend_yield :
  is_ok (Portfolio.add_position md clk db symbol option_type strike expiration
           quantity premium implied_vol dividend_yield)
  = is_ok (get_stock_price md symbol)
    && (match implied_vol with
        | None => is_ok (get_historical_volatility md symbol)
        | Some _ => true
        end)
    && is_ok (get_risk_free_rate md).
Proof.
  unfold Portfolio.add_position, bind.
  destruct (get_stock_price md symbol); simpl; [|reflexivity].
  destruct implied_vol as [v|]; simpl.
  - destruct (get_risk_free_rate md); reflexivity.
  - destruct (get_historical_volatility md symbol); simpl; [|reflexivity].
    destruct (get_risk_free_rate md); reflexivity.
Qed.

(** X11: on a database whose keys are 1..n, a successful [add_position]
    keeps the keys sequential, the new position is found under its id, every
    earlier lookup still gives the same row, the new position joins the open
    ones, it has no hedges when every hedge points to an existing position,
    and the hedges and trades are untouched (at most one snapshot is added). *)
Theorem add_position_lookup db symbol option_type strike expiration quantity
  premium implied_vol dividend_yield db' pos :
  ids_sequential db ->
  Portfolio.add_position md clk db symbol option_type strike expiration
    quantity premium implied_vol dividend_yield = Ok (db', pos) ->
  ids_sequential db' /\
  query_get db' (Position.id pos) = Some pos /\
  (forall pid p, query_get db pid = Some p -> query_get db' pid = Some p) /\
  filter_by_status db' "open" = filter_by_status db "open" ++ [pos] /\
  ((forall h, In h (hedges db) ->
      (1 <= Hedge.position_id h <= Z.of_nat (length (positions db)))%Z) ->
   hedges_of db' pos = []) /\
  hedges db' = hedges db /\ trades db' = trades db /\
  (length (pnl_snapshots db') <= length (pnl_snapshots db) + 1)%nat.
Proof.
  intros Hwf Hadd.
  destruct (add_position_row_fields _ _ _ _ _ _ _ _ _ _ _ _ _ Hadd)
    as (Hid & _ & _ & Hst & Hpos & Hh).
  split; [|split; [|split; [|split; [|split; [|split; [|split]]]]]].
  - unfold ids_sequential in *. rewrite Hpos, map_app, length_app. simpl.
    rewrite seq_app, map_app, <- Hwf. simpl. f_equal. f_equal.
    rewrite Hid. unfold next_id. lia.
  - unfold query_get. rewrite Hpos. rewrite find_app_none.
    + simpl. rewrite Z.eqb_refl. reflexivity.
    + destruct (find _ (positions db)) as [p|] eqn:E; [|reflexivity].
      apply find_some in E. destruct E as [Hin E]. apply Z.eqb_eq in E.
      pose proof (ids_sequential_bound db p Hwf Hin) as Hb.
      rewrite E, Hid in Hb. unfold next_id in Hb. lia.
  - intros pid p Hq. unfold query_get in *. rewrite Hpos.
    now apply find_app_some.
  - unfold filter_by_status. rewrite Hpos, filter_app. simpl.
    rewrite Hst. reflexivity.
  - intros Href. unfold hedges_of. rewrite Hh.
    apply filter_none. intros h Hin. specialize (Href h Hin).
    apply Z.eqb_neq. rewrite Hid. unfold next_id. lia.
  - exact Hh.
  - unfold Portfolio.add_position, bind in Hadd.
    destruct (get_stock_price md symbol); [|discriminate].
    destruct (match implied_vol with
              | Some v => Ok v
              | None => get_historical_volatility md symbol
              end); [|discriminate].
    destruct (get_risk_free_rate md); [|discriminate].
    simpl in Hadd. injection Hadd as Hdb _. subst db'.
    now rewrite trades_update_position_pnl.
  - unfold Portfolio.add_position, bind in Hadd.
    destruct (get_stock_price md symbol); [|discriminate].
    destruct (match implied_vol with
              | Some v => Ok v
              | None => get_historical_volatility md symbol
              end); [|discriminate].
    destruct (get_risk_free_rate md); [|discriminate].
    simpl in Hadd. injection Hadd as Hdb _. subst db'.
    unfold Portfolio.update_position_pnl, Portfolio.update_position_pnl_try,
      bind.
    match goal with
    | |- context [get_stock_price md ?s] => destruct (get_stock_price md s)
    end; [|simpl; lia].
    match goal with
    | |- context [BlackScholes.black_scholes_price ?a ?b ?c ?d ?e ?f ?g] =>
        destruct (BlackScholes.black_scholes_price a b c d e f g)
    end; [|simpl; lia].
    match goal with
    | |- context [Greeks.calculate_all_greeks ?a ?b ?c ?d ?e ?f ?g] =>
        destruct (Greeks.calculate_all_greeks a b c d e f g)
    end; simpl; [rewrite length_app; simpl; lia|lia].
Qed.

End BookFacts.

Lemma add_position_lookup_witness :
  ids_sequential Scenario.db_short /\
  Database.query_get Scenario.db_short (Position.id Scenario.short_call)
  = Some Scenario.short_call /\
  (forall pid p, Database.query_get Database.empty pid = Some p ->
                 Database.query_get Scenario.db_short pid = Some p) /\
  Database.filter_by_status Scenario.db_short "open"
  = Database.filter_by_status Database.empty "open" ++ [Scenario.short_call] /\
  ((forall h, In h (Database.hedges Database.empty) ->
      (1 <= Hedge.position_id h
       <= Z.of_nat (length (Database.positions Database.empty)))%Z) ->
   Database.hedges_of Scenario.db_short Scenario.short_call = []) /\
  Database.hedges Scenario.db_short = Database.hedges Database.empty /\
  Database.trades Scenario.db_short = Database.trades Database.empty /\
  (length (Database.pnl_snapshots Scenario.db_short)
   <= length (Database.pnl_snapshots Database.empty) + 1)%nat.
Proof.
  apply (add_position_lookup Scenario.md0 Scenario.clk0 Database.empty
           "AAPL" "call" 145 30 (-10) 7.50 (Some 0.25) 0
           Scenario.db_short Scenario.short_call).
  - exact ids_sequential_empty.
  - reflexivity.
Defined.

Section ClosingFacts.

Import Database.

Variable md : MarketData.
Variable clk : Clock.

(** The row written by a successful [close_position]. *)
Lemma close_position_row db position_id close_price db' fin :
  Portfolio.close_position md clk db position_id close_price = Ok (db', fin) ->
  exists p p' c,
    query_get db position_id = Some p /\
    Position.status p = "open"%string /\
    (forall c0, close_price = Some c0 -> c = c0) /\
    p' = {| Position.id := Position.id p;
            Position.symbol := Position.symbol p;
            Position.option_type := Position.option_type p;
            Position.strike := Position.strike p;
            Position.expiration := Position.expiration p;
            Position.quantity := Position.quantity p;
            Position.premium_collected := Position.premium_collected p;
            Position.entry_price := Position.entry_price p;
            Position.entry_date := Position.entry_date p;
            Position.status := "closed";
            Position.close_date := Some (now clk);
            Position.close_price := Some c;
            Position.implied_vol := Position.implied_vol p;
            Position.risk_free_rate := Position.risk_free_rate p;
            Position.dividend_yield := Position.dividend_yield p |} /\
    db' = update_position db p' /\
    fin = Portfolio._calculate_position_pnl md db p' c.
Proof.
  unfold Portfolio.close_position.
  destruct (query_get db position_id) as [p|] eqn:Hq; [|discriminate].
  destruct (String.eqb (Position.status p) "open") eqn:Hs; simpl;
    [|discriminate].
  unfold bind.
  match goal with
  | |- match ?m with _ => _ end = _ -> _ => destruct m as [c|] eqn:Hc
  end; [|discriminate].
  intros H. injection H as Hdb Hfin. subst db' fin.
  exists p. eexists. exists c.
  split; [reflexivity|]. split; [now apply String.eqb_eq|].
  split; [|split; [reflexivity|split; reflexivity]].
  intros c0 E. subst close_price. now injection Hc as Hc.
Qed.

Lemma query_get_update_position db p' pid :
  query_get (update_position db p') pid
  = option_map
      (fun p0 => if Z.eqb (Position.id p0) (Position.id p') then p' else p0)
      (query_get db pid).
Proof.
  unfold query_get, update_position. simpl.
  apply find_map_same_id. intros x.
  destruct (Z.eqb (Position.id x) (Position.id p')) eqn:E; [|reflexivity].
  apply Z.eqb_eq in E. now rewrite E.
Qed.

(** X12: [close_position] raises ValueError for an unknown id ("not found")
    and for a position that is not open ("is not open").  When it succeeds,
    the position is stored as 'closed' with the close price and date, its
    contract terms unchanged, every other lookup and all hedges unchanged;
    and any further [close_position] on the same id raises "is not open":
    a position is closed at most once. *)
Theorem close_position_once db position_id close_price :
  (query_get db position_id = None ->
   Portfolio.close_position md clk db position_id close_price
   = Raise (ValueError (msg_not_found position_id))) /\
  (forall p, query_get db position_id = Some p ->
             Position.status p <> "open"%string ->
   Portfolio.close_position md clk db position_id close_price
   = Raise (ValueError (msg_not_open position_id))) /\
  (forall db' fin,
     Portfolio.close_position md clk db position_id close_price
     = Ok (db', fin) ->
     (exists p p',
        query_get db position_id = Some p /\
        query_get db' position_id = Some p' /\
        Position.status p' = "closed"%string /\
        Position.close_date p' = Some (now clk) /\
        (forall c, close_price = Some c -> Position.close_price p' = Some c) /\
        Position.quantity p' = Position.quantity p /\
        Position.premium_collected p' = Position.premium_collected p /\
        Position.strike p' = Position.strike p) /\
     (forall pid, pid <> position_id -> query_get db' pid = query_get db pid) /\
     hedges db' = hedges db /\
     (forall md2 clk2 close_price2,
        Portfolio.close_position md2 clk2 db' position_id close_price2
        = Raise (ValueError (msg_not_open position_id)))).
Proof.
  split; [|split].
  - intros Hq. unfold Portfolio.close_position. now rewrite Hq.
  - intros p Hq Hs. unfold Portfolio.close_position. rewrite Hq.
    apply String.eqb_neq in Hs. now rewrite Hs.
  - intros db' fin H.
    destruct (close_position_row _ _ _ _ _ H)
      as (p & p' & c & Hq & Hs & Hc & Hp' & Hdb & _).
    destruct (query_get_in _ _ _ Hq) as [_ Hid].
    assert (Hid' : Position.id p' = position_id) by (subst p'; exact Hid).
    assert (Hq' : query_get db' position_id = Some p').
    { subst db'. rewrite query_get_update_position, Hq. simpl.
      rewrite Hid, Hid', Z.eqb_refl. reflexivity. }
    split; [|split; [|split]].
    + exists p, p'. rewrite Hq'. subst p'. simpl.
      repeat split; try reflexivity; try assumption.
      intros c0 E. f_equal. now apply Hc.
    + intros pid Hne. subst db'. rewrite query_get_update_position.
      destruct (query_get db pid) as [x|] eqn:Hx; [|reflexivity]. simpl.
      destruct (query_get_in _ _ _ Hx) as [_ Hxid].
      rewrite Hxid, Hid'.
      destruct (Z.eqb pid position_id) eqn:E; [|reflexivity].
      apply Z.eqb_eq in E. contradiction.
    + subst db'. reflexivity.
    + intros md2 clk2 cp2. unfold Portfolio.close_position. rewrite Hq'.
      subst p'. reflexivity.
Qed.

End ClosingFacts.

Section PnLAgreement.

Import Database.

(** X13: the option P&L reported for an unhedged position created by
    [add_position] with a non-negative premium: a long position (quantity > 0)
    reports (current price - premium) * quantity * multiplier, and a short one
    (quantity < 0) reports (premium + current price) * |quantity| * multiplier;
    with no hedges this is also the total P&L. *)
Theorem unhedged_position_pnl md clk db symbol option_type strike expiration
  quantity premium implied_vol dividend_yield db1 pos tracker clk' db2 pos2 r :
  Portfolio.add_position md clk db symbol option_type strike expiration
    quantity premium implied_vol dividend_yield = Ok (db1, pos) ->
  0 <= premium ->
  query_get db2 (Position.id pos) = Some pos2 ->
  Position.quantity pos2 = Position.quantity pos ->
  Position.premium_collected pos2 = Position.premium_collected pos ->
  hedges_of db2 pos2 = [] ->
  PnLTracker.calculate_position_pnl tracker clk' db2 (Position.id pos) = Ok r ->
  ((0 < quantity)%Z ->
   PnLTracker.option_pnl r
   = (PnLTracker.current_option_price r - premium) * IZR quantity
     * PnLTracker.multiplier tracker) /\
  ((quantity < 0)%Z ->
   PnLTracker.option_pnl r
   = (premium + PnLTracker.current_option_price r) * IZR (Z.abs quantity)
     * PnLTracker.multiplier tracker) /\
  PnLTracker.total_pnl r = PnLTracker.option_pnl r.
Proof.
  intros Hadd Hprem Hget Hq Hp Hh Hcalc.
  destruct (add_position_row_fields _ _ _ _ _ _ _ _ _ _ _ _ _ Hadd)
    as (_ & Hq0 & Hp0 & _).
  rewrite Hq0 in Hq. rewrite Hp0 in Hp.
  unfold PnLTracker.calculate_position_pnl in Hcalc. rewrite Hget in Hcalc.
  unfold bind in Hcalc.
  destruct (get_stock_price (PnLTracker.market_data tracker)
              (Position.symbol pos2)) as [u|]; [|discriminate].
  match type of Hcalc with
  | match ?c with _ => _ end = _ => destruct c as [cop|]; [|discriminate]
  end.
  cbv beta iota in Hcalc.
  match type of Hcalc with
  | match ?c with _ => _ end = _ => destruct c as [gk|]; [|discriminate]
  end.
  injection Hcalc as Hr. subst r. simpl.
  rewrite Hh, Hq, Hp. simpl.
  destruct (Z_lt_dec quantity 0) as [Hlt|Hge].
  - repeat split; intros; try lia; ring.
  - rewrite Rabs_Ropp, (Rabs_right premium) by lra.
    repeat split; intros; try lia; ring.
Qed.

Lemma unhedged_position_pnl_witness :
  exists r,
    PnLTracker.calculate_position_pnl SellerScenario.tracker0 Scenario.clk0
      SellerScenario.db_closed 1 = Ok r /\
    (((0 < -10)%Z ->
      PnLTracker.option_pnl r
      = (PnLTracker.current_option_price r - 7.50) * IZR (-10)
        * PnLTracker.multiplier SellerScenario.tracker0) /\
     (((-10) < 0)%Z ->
      PnLTracker.option_pnl r
      = (7.50 + PnLTracker.current_option_price r) * IZR (Z.abs (-10))
        * PnLTracker.multiplier SellerScenario.tracker0) /\
     PnLTracker.total_pnl r = PnLTracker.option_pnl r).
Proof.
  destruct SellerScenario.report_closed_call as (r & Hr & _).
  exists r. split; [exact Hr|].
  apply (unhedged_position_pnl Scenario.md0 Scenario.clk0 Database.empty
           "AAPL" "call" 145 30 (-10) 7.50 (Some 0.25) 0
           Scenario.db_short Scenario.short_call
           SellerScenario.tracker0 Scenario.clk0 SellerScenario.db_closed
           SellerScenario.closed_call r).
  - reflexivity.
  - lra.
  - exact SellerScenario.query_closed_call.
  - reflexivity.
  - reflexivity.
  - exact SellerScenario.hedges_closed_call.
  - exact Hr.
Defined.

(** The four running totals of [calculate_hedging_pnl], one at a time. *)
Lemma hedging_fold_components (current_price : R) (hs : list Hedge.t)
  (a b c : R) (ds : list DeltaHedger.hedge_detail) :
  let st :=
    fold_left
      (fun st hedge =>
         let '(total_hedge_pnl, total_costs, total_shares, hedge_details) :=
           st in
         let hedge_pnl :=
           Hedge.hedge_quantity hedge
           * (current_price - Hedge.hedge_price hedge) in
         (total_hedge_pnl + hedge_pnl,
          total_costs + Hedge.transaction_cost hedge,
          total_shares + Hedge.hedge_quantity hedge,
          hedge_details ++
          [{| DeltaHedger.hd_hedge_id := Hedge.id hedge;
              DeltaHedger.hd_shares := Hedge.hedge_quantity hedge;
              DeltaHedger.hd_entry_price := Hedge.hedge_price hedge;
              DeltaHedger.hd_current_price := current_price;
              DeltaHedger.hd_pnl := hedge_pnl;
              DeltaHedger.hd_cost := Hedge.transaction_cost hedge;
              DeltaHedger.hd_date := Hedge.hedge_date hedge |}]))
      hs (a, b, c, ds) in
  fst (fst (fst st))
  = fold_left
      (fun acc h =>
         acc + Hedge.hedge_quantity h * (current_price - Hedge.hedge_price h))
      hs a /\
  snd (fst (fst st))
  = fold_left (fun acc h => acc + Hedge.transaction_cost h) hs b /\
  snd (fst st) = fold_left (fun acc h => acc + Hedge.hedge_quantity h) hs c /\
  length (snd st) = (length ds + length hs)%nat.
Proof.
  revert a b c ds. induction hs as [|h hs IH]; intros a b c ds; simpl.
  - repeat split; lia.
  - specialize (IH (a + Hedge.hedge_quantity h
                        * (current_price - Hedge.hedge_price h))
                   (b + Hedge.transaction_cost h)
                   (c + Hedge.hedge_quantity h)
                   (ds ++
                    [{| DeltaHedger.hd_hedge_id := Hedge.id h;
                        DeltaHedger.hd_shares := Hedge.hedge_quantity h;
                        DeltaHedger.hd_entry_price := Hedge.hedge_price h;
                        DeltaHedger.hd_current_price := current_price;
                        DeltaHedger.hd_pnl :=
                          Hedge.hedge_quantity h
                          * (current_price - Hedge.hedge_price h);
                        DeltaHedger.hd_cost := Hedge.transaction_cost h;
                        DeltaHedger.hd_date := Hedge.hedge_date h |}])).
    simpl in IH. destruct IH as (H1 & H2 & H3 & H4).
    rewrite H1, H2, H3, H4, length_app. simpl. repeat split; lia.
Qed.

(** X14: the three routines that value a position agree.  For a position
    found in the database and one quote source, the report of
    [PnLTracker.calculate_position_pnl] (multiplier 100) has the same option
    P&L, hedge P&L, hedge costs, unrealized, realized and total P&L as
    [Portfolio._calculate_position_pnl] at the same option price, and the
    same hedge P&L, costs, net shares and net hedge P&L as
    [DeltaHedger.calculate_hedging_pnl]. *)
Theorem pnl_routines_agree md clk db position_id p tracker hedger r :
  query_get db position_id = Some p ->
  PnLTracker.market_data tracker = md ->
  PnLTracker.multiplier tracker = Portfolio.multiplier ->
  DeltaHedger.market_data hedger = md ->
  PnLTracker.calculate_position_pnl tracker clk db position_id = Ok r ->
  (let pl :=
     Portfolio._calculate_position_pnl md db p
       (PnLTracker.current_option_price r) in
   Portfolio.option_pnl pl = PnLTracker.option_pnl r /\
   Portfolio.hedge_pnl pl = PnLTracker.hedge_pnl r /\
   Portfolio.hedge_costs pl = PnLTracker.hedge_costs r /\
   Portfolio.unrealized_pnl pl = PnLTracker.unrealized_pnl r /\
   Portfolio.realized_pnl pl = PnLTracker.realized_pnl r /\
   Portfolio.total_pnl pl = PnLTracker.total_pnl r) /\
  (exists h,
     DeltaHedger.calculate_hedging_pnl hedger db position_id = Ok h /\
     DeltaHedger.total_hedge_pnl h = PnLTracker.hedge_pnl r /\
     DeltaHedger.total_costs h = PnLTracker.hedge_costs r /\
     DeltaHedger.total_hedge_shares h = PnLTracker.net_hedge_shares r /\
     DeltaHedger.net_hedge_pnl h = PnLTracker.net_hedge_pnl r /\
     length (DeltaHedger.hedge_details h) = length (hedges_of db p)).
Proof.
  intros Hq Hmd Hmult Hmd2 Hcalc.
  unfold PnLTracker.calculate_position_pnl in Hcalc. rewrite Hq in Hcalc.
  unfold bind in Hcalc. rewrite Hmd in Hcalc.
  destruct (get_stock_price md (Position.symbol p)) as [u|] eqn:Hu;
    [|discriminate].
  match type of Hcalc with
  | match ?c with _ => _ end = _ => destruct c as [cop|]; [|discriminate]
  end.
  cbv beta iota in Hcalc.
  match type of Hcalc with
  | match ?c with _ => _ end = _ => destruct c as [gk|]; [|discriminate]
  end.
  injection Hcalc as Hr. subst r. split.
  - unfold Portfolio._calculate_position_pnl.
    cbn [PnLTracker.current_option_price PnLTracker.option_pnl
         PnLTracker.hedge_pnl PnLTracker.hedge_costs
         PnLTracker.unrealized_pnl PnLTracker.realized_pnl
         PnLTracker.total_pnl Portfolio.option_pnl Portfolio.hedge_pnl
         Portfolio.hedge_costs Portfolio.unrealized_pnl
         Portfolio.realized_pnl Portfolio.total_pnl].
    rewrite Hu, Hmult. repeat split; reflexivity.
  - unfold DeltaHedger.calculate_hedging_pnl. rewrite Hq, Hmd2, Hu.
    unfold bind.
    pose proof (hedging_fold_components u (hedges_of db p) 0 0 0 [])
      as Hf. cbv zeta in Hf.
    destruct (fold_left _ (hedges_of db p) (0, 0, 0, []))
      as [[[a b] c] ds].
    simpl in Hf. destruct Hf as (H1 & H2 & H3 & H4).
    eexists. split; [reflexivity|].
    cbn [DeltaHedger.total_hedge_pnl DeltaHedger.total_costs
         DeltaHedger.total_hedge_shares DeltaHedger.net_hedge_pnl
         DeltaHedger.hedge_details PnLTracker.hedge_pnl
         PnLTracker.hedge_costs PnLTracker.net_hedge_shares
         PnLTracker.net_hedge_pnl].
    subst a b c. repeat split; try reflexivity. exact H4.
Qed.

End PnLAgreement.

Lemma pnl_routines_agree_witness :
  exists r,
    PnLTracker.calculate_position_pnl SellerScenario.tracker0 Scenario.clk0
      SellerScenario.db_closed 1 = Ok r /\
    (let pl :=
       Portfolio._calculate_position_pnl Scenario.md0 SellerScenario.db_closed
         SellerScenario.closed_call (PnLTracker.current_option_price r) in
     Portfolio.option_pnl pl = PnLTracker.option_pnl r /\
     Portfolio.hedge_pnl pl = PnLTracker.hedge_pnl r /\
     Portfolio.hedge_costs pl = PnLTracker.hedge_costs r /\
     Portfolio.unrealized_pnl pl = PnLTracker.unrealized_pnl r /\
     Portfolio.realized_pnl pl = PnLTracker.realized_pnl r /\
     Portfolio.total_pnl pl = PnLTracker.total_pnl r) /\
    (exists h,
       DeltaHedger.calculate_hedging_pnl HedgeScenario.hedger0
         SellerScenario.db_closed 1 = Ok h /\
       DeltaHedger.total_hedge_pnl h = PnLTracker.hedge_pnl r /\
       DeltaHedger.total_costs h = PnLTracker.hedge_costs r /\
       DeltaHedger.total_hedge_shares h = PnLTracker.net_hedge_shares r /\
       DeltaHedger.net_hedge_pnl h = PnLTracker.net_hedge_pnl r /\
       length (DeltaHedger.hedge_details h)
       = length (Database.hedges_of SellerScenario.db_closed
                   SellerScenario.closed_call)).
Proof.
  destruct SellerScenario.report_closed_call as (r & Hr & _).
  exists r. split; [exact Hr|].
  apply (pnl_routines_agree Scenario.md0 Scenario.clk0
           SellerScenario.db_closed 1 SellerScenario.closed_call
           SellerScenario.tracker0 HedgeScenario.hedger0 r).
  - exact SellerScenario.query_closed_call.
  - reflexivity.
  - reflexivity.
  - reflexivity.
  - exact Hr.
Defined.

Section HedgingPnL.

Import Database DeltaHedger.

(** The detail line that [calculate_hedging_pnl] writes for one hedge. *)
Definition detail_line (current_price : R) (hedge : Hedge.t) : hedge_detail :=
  {| hd_hedge_id := Hedge.id hedge;
     hd_shares := Hedge.hedge_quantity hedge;
     hd_entry_price := Hedge.hedge_price hedge;
     hd_current_price := current_price;
     hd_pnl :=
       Hedge.hedge_quantity hedge * (current_price - Hedge.hedge_price hedge);
     hd_cost := Hedge.transaction_cost hedge;
     hd_date := Hedge.hedge_date hedge |}.

Lemma hedging_pnl_loop (current_price : R) (hs : list Hedge.t)
  (a b c : R) (ds : list hedge_detail) :
  fold_left
    (fun st hedge =>
       let '(total_hedge_pnl, total_costs, total_shares, hedge_details) :=
         st in
       let hedge_pnl :=
         Hedge.hedge_quantity hedge
         * (current_price - Hedge.hedge_price hedge) in
       (total_hedge_pnl + hedge_pnl,
        total_costs + Hedge.transaction_cost hedge,
        total_shares + Hedge.hedge_quantity hedge,
        hedge_details ++
        [{| hd_hedge_id := Hedge.id hedge;
            hd_shares := Hedge.hedge_quantity hedge;
            hd_entry_price := Hedge.hedge_price hedge;
            hd_current_price := current_price;
            hd_pnl := hedge_pnl;
            hd_cost := Hedge.transaction_cost hedge;
            hd_date := Hedge.hedge_date hedge |}]))
    hs (a, b, c, ds)
  = (fold_left Rplus (map hd_pnl (map (detail_line current_price) hs)) a,
     fold_left Rplus (map hd_cost (map (detail_line current_price) hs)) b,
     fold_left Rplus (map hd_shares (map (detail_line current_price) hs)) c,
     ds ++ map (detail_line current_price) hs).
Proof.
  revert a b c ds. induction hs as [|h hs IH]; intros a b c ds.
  - simpl. rewrite app_nil_r. reflexivity.
  - rewrite fold_left_cons. cbv beta iota zeta. rewrite IH.
    cbn [map]. rewrite !fold_left_cons, <- app_assoc. reflexivity.
Qed.

(** X15: [calculate_hedging_pnl] raises "not found" for an unknown id.
    Otherwise it needs only the quote: it writes one detail line per hedge
    of the position, in order, with the hedge's shares, entry price and
    cost, the current price, and pnl = shares * (current price - entry
    price); the three totals add up the pnl, cost and shares columns of
    those lines from left to right; and the net figure is total_hedge_pnl -
    total_costs. *)
Theorem hedging_pnl_lines self db position_id :
  (query_get db position_id = None ->
   calculate_hedging_pnl self db position_id
   = Raise (ValueError (msg_not_found position_id))) /\
  (forall p h,
     query_get db position_id = Some p ->
     calculate_hedging_pnl self db position_id = Ok h ->
     get_stock_price (market_data self) (Position.symbol p)
     = Ok (hp_current_price h) /\
     map hd_shares (hedge_details h)
     = map Hedge.hedge_quantity (hedges_of db p) /\
     map hd_entry_price (hedge_details h)
     = map Hedge.hedge_price (hedges_of db p) /\
     map hd_cost (hedge_details h)
     = map Hedge.transaction_cost (hedges_of db p) /\
     (forall d, In d (hedge_details h) ->
        hd_current_price d = hp_current_price h /\
        hd_pnl d = hd_shares d * (hd_current_price d - hd_entry_price d)) /\
     total_hedge_pnl h = pysum (map hd_pnl (hedge_details h)) /\
     total_costs h = pysum (map hd_cost (hedge_details h)) /\
     total_hedge_shares h = pysum (map hd_shares (hedge_details h)) /\
     net_hedge_pnl h = total_hedge_pnl h - total_costs h) /\
  (forall p price,
     query_get db position_id = Some p ->
     get_stock_price (market_data self) (Position.symbol p) = Ok price ->
     exists h, calculate_hedging_pnl self db position_id = Ok h).
Proof.
  split; [|split].
  - intros Hq. unfold calculate_hedging_pnl. now rewrite Hq.
  - intros p h Hq. unfold calculate_hedging_pnl. rewrite Hq. unfold bind.
    destruct (get_stock_price (market_data self) (Position.symbol p))
      as [u|]; [|discriminate].
    rewrite hedging_pnl_loop. cbn [app].
    intros H. injection H as H. subst h.
    cbn [hp_current_price hedge_details total_hedge_pnl total_costs
         total_hedge_shares net_hedge_pnl].
    unfold pysum. rewrite !map_map. cbn [detail_line hd_shares
      hd_entry_price hd_cost].
    split; [reflexivity|]. split; [reflexivity|]. split; [reflexivity|].
    split; [reflexivity|]. split.
    + intros d Hd. apply in_map_iff in Hd. destruct Hd as (x & E & _).
      subst d. split; reflexivity.
    + repeat split; reflexivity.
  - intros p price Hq Hp. unfold calculate_hedging_pnl. rewrite Hq, Hp.
    unfold bind. rewrite hedging_pnl_loop. eexists. reflexivity.
Qed.

End HedgingPnL.

Section AutoRehedge.

Import Database DeltaHedger.

Variable self : DeltaHedger.t.
Variable clk : Clock.





Lemma check_rehedge_needed_open db p :
  query_get db (Position.id p) = Some p ->
  Position.status p = "open"%string ->
  check_rehedge_needed self clk db (Position.id p)
  = (hedge_req <- calculate_hedge_requirements self clk db p ;;
     Ok (Assessment
           (should_rehedge hedge_req)
           (net_delta hedge_req)
           (position_delta hedge_req)
           (rehedge_threshold self)
           (if Req_dec_T (position_delta hedge_req) 0 then 0
            else Rabs (net_delta hedge_req / position_delta hedge_req))
           (required_hedge_shares hedge_req)
           (total_cost hedge_req))).
Proof.
  intros Hq Hs. unfold check_rehedge_needed. rewrite Hq, Hs. reflexivity.
Qed.








Lemma exposure_preview_fold db (todo : list Position.t) :
  (forall p, In p todo ->
     query_get db (Position.id p) = Some p /\
     Position.status p = "open"%string) ->
  forall a b recs execd,
    snd (fold_left (exposure_step self clk db) todo (a, b, recs))
    = snd (fst (fold_left (rehedge_step self clk false) todo
                  (db, recs, execd))).
Proof.
  induction todo as [|p todo IH]; intros Hin a b recs execd; [reflexivity|].
  rewrite !fold_left_cons.
  destruct (Hin p (or_introl eq_refl)) as [Hq Hs].
  assert (Hin' : forall q, In q todo ->
                   query_get db (Position.id q) = Some q /\
                   Position.status q = "open"%string)
    by (intros q Hq'; apply Hin; now right).
  unfold exposure_step at 2. unfold rehedge_step at 2.
  rewrite (check_rehedge_needed_open db p Hq Hs). unfold bind.
  destruct (calculate_hedge_requirements self clk db p) as [rq|].
  - destruct (should_rehedge rq); apply IH; exact Hin'.
  - apply IH; exact Hin'.
Qed.

(** X17: on a database with distinct position ids, the positions that
    [get_portfolio_delta_exposure] lists as needing a rehedge are exactly the
    recommendations of an [auto_rehedge_portfolio] preview, entry for entry
    (same id, symbol, net delta, required shares and cost), and the two
    counts agree. *)
Theorem exposure_matches_preview db :
  unique_ids db ->
  rehedge_details (get_portfolio_delta_exposure self clk db)
  = recommendations (snd (auto_rehedge_portfolio self clk db false)) /\
  positions_needing_rehedge (get_portfolio_delta_exposure self clk db)
  = total_recommendations (snd (auto_rehedge_portfolio self clk db false)).
Proof.
  intros Huniq.
  assert (Hopen : forall p, In p (filter_by_status db "open") ->
                    query_get db (Position.id p) = Some p /\
                    Position.status p = "open"%string).
  { intros p Hp. apply filter_In in Hp. destruct Hp as [Hin Hs].
    split; [now apply query_get_unique|now apply String.eqb_eq]. }
  pose proof (exposure_preview_fold db (filter_by_status db "open") Hopen
                0 0 [] []) as E.
  unfold get_portfolio_delta_exposure, auto_rehedge_portfolio.
  destruct (fold_left (exposure_step self clk db) _ _) as [[a b] l].
  destruct (fold_left (rehedge_step self clk false) _ _) as [[d r] e].
  simpl in E. subst l. split; reflexivity.
Qed.

End AutoRehedge.

Lemma unique_ids_db_short : unique_ids Scenario.db_short.
Proof.
  unfold unique_ids. rewrite SellerScenario.positions_db_short. simpl.
  constructor; [intros []|constructor].
Qed.


Lemma exposure_matches_preview_witness :
  DeltaHedger.rehedge_details
    (DeltaHedger.get_portfolio_delta_exposure HedgeScenario.hedger0
       Scenario.clk0 Scenario.db_short)
  = DeltaHedger.recommendations
      (snd (DeltaHedger.auto_rehedge_portfolio HedgeScenario.hedger0
              Scenario.clk0 Scenario.db_short false)) /\
  DeltaHedger.positions_needing_rehedge
    (DeltaHedger.get_portfolio_delta_exposure HedgeScenario.hedger0
       Scenario.clk0 Scenario.db_short)
  = DeltaHedger.total_recommendations
      (snd (DeltaHedger.auto_rehedge_portfolio HedgeScenario.hedger0
              Scenario.clk0 Scenario.db_short false)).
Proof.
  apply (exposure_matches_preview HedgeScenario.hedger0 Scenario.clk0
           Scenario.db_short).
  exact unique_ids_db_short.
Defined.

Section Efficiency.

Import Database DeltaHedger.

Variable self : DeltaHedger.t.
Variable clk : Clock.


End Efficiency.

Section SideReports.

Import Database PnLTracker.

Variable self : PnLTracker.t.
Variable clk : Clock.

Lemma report_fields db position_id p r :
  query_get db position_id = Some p ->
  calculate_position_pnl self clk db position_id = Ok r ->
  quantity r = Position.quantity p /\
  status r = Position.status p /\
  option_pnl r
  = (if Z_lt_dec (Position.quantity p) 0 then
       (Position.premium_collected p + current_option_price r)
       * IZR (Z.abs (Position.quantity p)) * multiplier self
     else
       (current_option_price r - Rabs (Position.premium_collected p))
       * IZR (Position.quantity p) * multiplier self) /\
  (Position.status p <> "open"%string -> greeks r = Greeks.zero_greeks) /\
  (Position.status p = "open"%string ->
   BlackScholes.black_scholes_price (current_underlying_price r)
     (Position.strike p)
     (pymax (IZR (Position.expiration p - today clk) / 365.0) 0)
     (Position.risk_free_rate p) (Position.implied_vol p)
     (Position.option_type p) (Position.dividend_yield p)
   = Ok (current_option_price r)).
Proof.
  intros Hq. unfold calculate_position_pnl. rewrite Hq. unfold bind.
  destruct (get_stock_price (market_data self) (Position.symbol p));
    [|discriminate].
  destruct (String.eqb (Position.status p) "open") eqn:Es.
  - destruct (BlackScholes.black_scholes_price _ _ _ _ _ _ _) eqn:Ep;
      [|discriminate].
    cbv beta iota.
    match goal with
    | |- match ?c with _ => _ end = _ -> _ => destruct c; [|discriminate]
    end.
    intros H. injection H as H. subst r. simpl.
    repeat split; try reflexivity.
    + intros Hn. apply String.eqb_eq in Es. contradiction.
    + intros _. exact Ep.
  - intros H. injection H as H. subst r. simpl.
    repeat split; try reflexivity.
    intros Hs. apply String.eqb_neq in Es. contradiction.
Qed.

(** X19: the side-specific reports of a position found in the database.
    [calculate_seller_pnl] answers with the error dict (no exception) for
    quantity >= 0 and [calculate_buyer_pnl] for quantity <= 0, so a zero
    quantity is refused by both.  A report that is produced copies total
    P&L and ROI from [calculate_position_pnl]; the buyer's max_loss is
    minus the premium paid and the time value is current value minus
    intrinsic value; the seller's option_profit is premium collected minus
    current obligation, max_profit is the premium collected and hedge_pnl is
    the net hedge P&L of the position report. *)
Theorem side_reports db position_id p :
  query_get db position_id = Some p ->
  ((Position.quantity p >= 0)%Z ->
   calculate_seller_pnl self clk db position_id = Ok None) /\
  ((Position.quantity p <= 0)%Z ->
   calculate_buyer_pnl self clk db position_id = Ok None) /\
  (forall b, calculate_buyer_pnl self clk db position_id = Ok (Some b) ->
     (0 < Position.quantity p)%Z /\
     exists r,
       calculate_position_pnl self clk db position_id = Ok r /\
       b_profit_loss b = total_pnl r /\
       b_roi b = roi r /\
       b_premium_paid b
       = Rabs (Position.premium_collected p) * IZR (Position.quantity p)
         * multiplier self /\
       b_current_value b
       = current_option_price r * IZR (Position.quantity p)
         * multiplier self /\
       b_max_loss b = - b_premium_paid b /\
       b_time_value b = b_current_value b - b_intrinsic_value b) /\
  (forall s, calculate_seller_pnl self clk db position_id = Ok (Some s) ->
     (Position.quantity p < 0)%Z /\
     exists r,
       calculate_position_pnl self clk db position_id = Ok r /\
       s_total_pnl s = total_pnl r /\
       s_roi s = roi r /\
       s_hedge_pnl s = net_hedge_pnl r /\
       s_premium_collected s
       = Rabs (Position.premium_collected p)
         * IZR (Z.abs (Position.quantity p)) * multiplier self /\
       s_current_obligation s
       = current_option_price r * IZR (Z.abs (Position.quantity p))
         * multiplier self /\
       s_option_profit s = s_premium_collected s - s_current_obligation s /\
       s_max_profit s = s_premium_collected s).
Proof.
  intros Hq. split; [|split; [|split]].
  - intros Hge. unfold calculate_seller_pnl. rewrite Hq.
    destruct (Z_ge_dec (Position.quantity p) 0); [reflexivity|contradiction].
  - intros Hle. unfold calculate_buyer_pnl. rewrite Hq.
    destruct (Z_le_dec (Position.quantity p) 0); [reflexivity|contradiction].
  - intros b. unfold calculate_buyer_pnl. rewrite Hq.
    destruct (Z_le_dec (Position.quantity p) 0) as [|Hpos]; [discriminate|].
    unfold bind.
    destruct (calculate_position_pnl self clk db position_id) as [r|] eqn:Hr;
      [|discriminate].
    intros H. injection H as H. subst b. simpl.
    split; [lia|]. exists r. repeat split; reflexivity.
  - intros s. unfold calculate_seller_pnl. rewrite Hq.
    destruct (Z_ge_dec (Position.quantity p) 0) as [|Hneg]; [discriminate|].
    unfold bind.
    destruct (calculate_position_pnl self clk db position_id) as [r|] eqn:Hr;
      [|discriminate].
    intros H. injection H as H. subst s. simpl.
    split; [lia|]. exists r. repeat split; reflexivity.
Qed.

(** X20: for an open long position at or past its expiration date, the
    buyer report has no time value: the current value is the intrinsic
    value. *)
Theorem buyer_time_value_at_expiry db position_id p b :
  query_get db position_id = Some p ->
  Position.status p = "open"%string ->
  (Position.expiration p <= today clk)%Z ->
  calculate_buyer_pnl self clk db position_id = Ok (Some b) ->
  b_time_value b = 0 /\ b_current_value b = b_intrinsic_value b.
Proof.
  intros Hq Hs Hexp. unfold calculate_buyer_pnl. rewrite Hq.
  destruct (Z_le_dec (Position.quantity p) 0) as [|Hpos]; [discriminate|].
  unfold bind.
  destruct (calculate_position_pnl self clk db position_id) as [r|] eqn:Hr;
    [|discriminate].
  intros H. injection H as H. subst b. simpl.
  destruct (report_fields _ _ _ _ Hq Hr) as (_ & _ & _ & _ & Hprice).
  specialize (Hprice Hs).
  assert (HT : pymax (IZR (Position.expiration p - today clk) / 365.0) 0 <= 0).
  { assert (Hd : IZR (Position.expiration p - today clk) <= 0)
      by (apply IZR_le; lia).
    unfold pymax. destruct (Rlt_dec _ 0); lra. }
  unfold BlackScholes.black_scholes_price in Hprice.
  destruct (Rle_dec _ 0) as [_|Hn]; [|contradiction].
  destruct (String.eqb (Position.option_type p) "call");
    injection Hprice as Hprice; rewrite <- Hprice; split; ring.
Qed.

End SideReports.

Lemma side_reports_witness :
  ((Position.quantity SellerScenario.closed_call >= 0)%Z ->
   PnLTracker.calculate_seller_pnl SellerScenario.tracker0 Scenario.clk0
     SellerScenario.db_closed 1 = Ok None) /\
  ((Position.quantity SellerScenario.closed_call <= 0)%Z ->
   PnLTracker.calculate_buyer_pnl SellerScenario.tracker0 Scenario.clk0
     SellerScenario.db_closed 1 = Ok None) /\
  (forall b,
     PnLTracker.calculate_buyer_pnl SellerScenario.tracker0 Scenario.clk0
       SellerScenario.db_closed 1 = Ok (Some b) ->
     (0 < Position.quantity SellerScenario.closed_call)%Z /\
     exists r,
       PnLTracker.calculate_position_pnl SellerScenario.tracker0 Scenario.clk0
         SellerScenario.db_closed 1 = Ok r /\
       PnLTracker.b_profit_loss b = PnLTracker.total_pnl r /\
       PnLTracker.b_roi b = PnLTracker.roi r /\
       PnLTracker.b_premium_paid b
       = Rabs (Position.premium_collected SellerScenario.closed_call)
         * IZR (Position.quantity SellerScenario.closed_call)
         * PnLTracker.multiplier SellerScenario.tracker0 /\
       PnLTracker.b_current_value b
       = PnLTracker.current_option_price r
         * IZR (Position.quantity SellerScenario.closed_call)
         * PnLTracker.multiplier SellerScenario.tracker0 /\
       PnLTracker.b_max_loss b = - PnLTracker.b_premium_paid b /\
       PnLTracker.b_time_value b
       = PnLTracker.b_current_value b - PnLTracker.b_intrinsic_value b) /\
  (forall s,
     PnLTracker.calculate_seller_pnl SellerScenario.tracker0 Scenario.clk0
       SellerScenario.db_closed 1 = Ok (Some s) ->
     (Position.quantity SellerScenario.closed_call < 0)%Z /\
     exists r,
       PnLTracker.calculate_position_pnl SellerScenario.tracker0 Scenario.clk0
         SellerScenario.db_closed 1 = Ok r /\
       PnLTracker.s_total_pnl s = PnLTracker.total_pnl r /\
       PnLTracker.s_roi s = PnLTracker.roi r /\
       PnLTracker.s_hedge_pnl s = PnLTracker.net_hedge_pnl r /\
       PnLTracker.s_premium_collected s
       = Rabs (Position.premium_collected SellerScenario.closed_call)
         * IZR (Z.abs (Position.quantity SellerScenario.closed_call))
         * PnLTracker.multiplier SellerScenario.tracker0 /\
       PnLTracker.s_current_obligation s
       = PnLTracker.current_option_price r
         * IZR (Z.abs (Position.quantity SellerScenario.closed_call))
         * PnLTracker.multiplier SellerScenario.tracker0 /\
       PnLTracker.s_option_profit s
       = PnLTracker.s_premium_collected s
         - PnLTracker.s_current_obligation s /\
       PnLTracker.s_max_profit s = PnLTracker.s_premium_collected s).
Proof.
  apply (side_reports SellerScenario.tracker0 Scenario.clk0
           SellerScenario.db_closed 1 SellerScenario.closed_call).
  exact SellerScenario.query_closed_call.
Defined.

(** The long call of the concrete book, looked at after its expiration. *)
Module LongScenario.

Import Database Scenario.

Definition clk_after : Clock := {| today := 31; now := 0 |}.

Lemma positions_db_long : positions db_long = [long_call].
Proof. unfold db_long. now rewrite positions_update_position_pnl. Qed.

Lemma query_long_call : query_get db_long 1 = Some long_call.
Proof. unfold query_get. rewrite positions_db_long. reflexivity. Qed.

Lemma expired_time : pymax (IZR (30 - 31) / 365.0) 0 <= 0.
Proof.
  unfold pymax. destruct (Rlt_dec (IZR (30 - 31) / 365.0) 0) as [H|H].
  - lra.
  - exfalso. apply H. simpl. lra.
Qed.

Lemma buyer_report_after_expiry :
  exists b,
    PnLTracker.calculate_buyer_pnl SellerScenario.tracker0 clk_after
      db_long 1 = Ok (Some b).
Proof.
  unfold PnLTracker.calculate_buyer_pnl, PnLTracker.calculate_position_pnl.
  rewrite query_long_call.
  cbn [Position.quantity long_call Position.symbol Position.status
       Position.expiration Position.strike Position.risk_free_rate
       Position.implied_vol Position.option_type Position.dividend_yield
       PnLTracker.market_data SellerScenario.tracker0 get_stock_price md0
       today clk_after bind].
  destruct (Z_le_dec 10 0) as [H|_]; [lia|].
  change (String.eqb "open" "open") with true. cbv iota.
  unfold BlackScholes.black_scholes_price.
  destruct (Rle_dec (pymax (IZR (30 - 31) / 365.0) 0) 0) as [_|H];
    [|exfalso; apply H; exact expired_time].
  change (String.eqb "call" "call") with true. cbv iota.
  cbn [bind].
  destruct (Rgt_dec (pymax (IZR (30 - 31) / 365.0) 0) 0) as [H|_];
    [exfalso; generalize expired_time; lra|].
  cbn [andb bind]. eexists. reflexivity.
Qed.

End LongScenario.

Lemma buyer_time_value_at_expiry_witness :
  exists b,
    PnLTracker.calculate_buyer_pnl SellerScenario.tracker0
      LongScenario.clk_after Scenario.db_long 1 = Ok (Some b) /\
    PnLTracker.b_time_value b = 0 /\
    PnLTracker.b_current_value b = PnLTracker.b_intrinsic_value b.
Proof.
  destruct LongScenario.buyer_report_after_expiry as (b & Hb).
  exists b. split; [exact Hb|].
  apply (buyer_time_value_at_expiry SellerScenario.tracker0
           LongScenario.clk_after Scenario.db_long 1 Scenario.long_call b).
  - exact LongScenario.query_long_call.
  - reflexivity.
  - simpl. lia.
  - exact Hb.
Defined.

Section Aggregates.

Import Database PnLTracker.

Variable self : PnLTracker.t.
Variable clk : Clock.

(** The reports of the positions that could be valued, in order. *)
Definition valued (db : DB) (ps : list Position.t) : list report :=
  flat_map
    (fun pos =>
       match calculate_position_pnl self clk db (Position.id pos) with
       | Ok r => [r]
       | Raise _ => []
       end) ps.

Lemma valued_length db ps : (length (valued db ps) <= length ps)%nat.
Proof.
  induction ps as [|p ps IH]; simpl; [lia|].
  destruct (calculate_position_pnl self clk db (Position.id p));
    rewrite length_app; simpl; lia.
Qed.

(** How the report of [calculate_position_pnl] combines its own figures. *)
Lemma report_combination db position_id r :
  calculate_position_pnl self clk db position_id = Ok r ->
  net_hedge_pnl r = hedge_pnl r - hedge_costs r /\
  unrealized_pnl r = option_pnl r + hedge_pnl r /\
  realized_pnl r = - hedge_costs r /\
  total_pnl r = unrealized_pnl r + realized_pnl r.
Proof.
  unfold calculate_position_pnl.
  destruct (query_get db position_id) as [p|]; [|discriminate].
  unfold bind.
  destruct (get_stock_price (market_data self) (Position.symbol p));
    [|discriminate].
  match goal with
  | |- match ?c with _ => _ end = _ -> _ => destruct c; [|discriminate]
  end.
  cbv beta iota.
  match goal with
  | |- match ?c with _ => _ end = _ -> _ => destruct c; [|discriminate]
  end.
  intros H. injection H as H. subst r. simpl. repeat split; reflexivity.
Qed.

(** X22: [get_pnl_attribution] copies the total, the option P&L and the
    hedge costs from the report of [calculate_position_pnl]; its hedge
    figure is the net one, hedge P&L minus those same costs, so the costs
    appear both inside hedge_pnl and as transaction_costs.  The theta
    estimate is theta times the days held, the delta estimate is delta times
    the move of the underlying times |quantity| times the multiplier; for a
    position that is not open both estimates are 0. *)
Theorem attribution_components db position_id p a :
  query_get db position_id = Some p ->
  get_pnl_attribution self clk db position_id = Ok a ->
  (exists r,
     calculate_position_pnl self clk db position_id = Ok r /\
     at_total_pnl a = total_pnl r /\
     at_option_pnl a = option_pnl r /\
     at_hedge_pnl a = hedge_pnl r - hedge_costs r /\
     at_transaction_costs a = hedge_costs r /\
     at_estimated_theta_pnl a
     = Greeks.g_theta (greeks r) * IZR (days_held r) /\
     at_estimated_delta_pnl a
     = Greeks.g_delta (greeks r) * underlying_change r
       * IZR (Z.abs (quantity r)) * multiplier self) /\
  (Position.status p <> "open"%string ->
   at_estimated_theta_pnl a = 0 /\ at_estimated_delta_pnl a = 0).
Proof.
  intros Hq. unfold get_pnl_attribution, bind.
  destruct (calculate_position_pnl self clk db position_id) as [r|] eqn:Hr;
    [|discriminate].
  intros H. injection H as H. subst a. simpl.
  destruct (report_combination _ _ _ Hr) as (Hn & _).
  destruct (report_fields self clk _ _ _ _ Hq Hr) as (_ & _ & _ & Hg & _).
  split.
  - exists r. split; [reflexivity|]. split; [reflexivity|].
    split; [reflexivity|]. split; [exact Hn|].
    repeat split; reflexivity.
  - intros Hs. rewrite (Hg Hs). simpl. split; ring.
Qed.

(** The two loops of [get_portfolio_pnl]. *)
Lemma open_fold_totals db ps a b c l :
  fold_left
    (fun st pos =>
       let '(open_pnl, open_option_pnl, open_hedge_pnl, open_positions_list) :=
         st in
       match calculate_position_pnl self clk db (Position.id pos) with
       | Ok pnl =>
           (open_pnl + total_pnl pnl, open_option_pnl + option_pnl pnl,
            open_hedge_pnl + net_hedge_pnl pnl, open_positions_list ++ [pnl])
       | Raise _ => st
       end) ps (a, b, c, l)
  = (fold_left Rplus (map total_pnl (valued db ps)) a,
     fold_left Rplus (map option_pnl (valued db ps)) b,
     fold_left Rplus (map net_hedge_pnl (valued db ps)) c,
     l ++ valued db ps).
Proof.
  revert a b c l. induction ps as [|p ps IH]; intros a b c l.
  - simpl. rewrite app_nil_r. reflexivity.
  - rewrite fold_left_cons. simpl valued.
    destruct (calculate_position_pnl self clk db (Position.id p)) as [r|].
    + rewrite IH. cbn [app map]. rewrite !fold_left_cons.
      rewrite <- app_assoc. reflexivity.
    + rewrite IH. reflexivity.
Qed.

Lemma closed_fold_totals db ps a l :
  fold_left
    (fun st pos =>
       let '(closed_pnl, closed_positions_list) := st in
       match calculate_position_pnl self clk db (Position.id pos) with
       | Ok pnl => (closed_pnl + total_pnl pnl, closed_positions_list ++ [pnl])
       | Raise _ => st
       end) ps (a, l)
  = (fold_left Rplus (map total_pnl (valued db ps)) a, l ++ valued db ps).
Proof.
  revert a l. induction ps as [|p ps IH]; intros a l.
  - simpl. rewrite app_nil_r. reflexivity.
  - rewrite fold_left_cons. simpl valued.
    destruct (calculate_position_pnl self clk db (Position.id p)) as [r|].
    + rewrite IH. cbn [app map]. rewrite !fold_left_cons.
      rewrite <- app_assoc. reflexivity.
    + rewrite IH. reflexivity.
Qed.

(** X21: [get_portfolio_pnl] lists the reports of the open positions that
    could be valued, in the order of the query, and adds up exactly those,
    from left to right: open_pnl their total P&L, open_option_pnl their
    option P&L, open_hedge_pnl their net hedge P&L.  closed_pnl adds up
    every closed or expired position that could be valued, while the list
    returned for them is cut to their first 10; total_pnl is open_pnl +
    closed_pnl.  The two counts are the lengths of the two queries, so they
    also count the positions that could not be valued. *)
Theorem portfolio_pnl_totals db :
  let s := get_portfolio_pnl self clk db in
  pp_open_positions s = valued db (filter_by_status db "open") /\
  pp_open_pnl s = pysum (map total_pnl (pp_open_positions s)) /\
  pp_open_option_pnl s = pysum (map option_pnl (pp_open_positions s)) /\
  pp_open_hedge_pnl s = pysum (map net_hedge_pnl (pp_open_positions s)) /\
  pp_closed_pnl s
  = pysum (map total_pnl (valued db (closed_or_expired db))) /\
  pp_closed_positions s = firstn 10 (valued db (closed_or_expired db)) /\
  pp_total_pnl s = pp_open_pnl s + pp_closed_pnl s /\
  pp_open_positions_count s = length (filter_by_status db "open") /\
  pp_closed_positions_count s = length (closed_or_expired db) /\
  (length (pp_open_positions s) <= pp_open_positions_count s)%nat /\
  (length (pp_closed_positions s)
   <= Nat.min 10 (pp_closed_positions_count s))%nat.
Proof.
  unfold get_portfolio_pnl.
  rewrite open_fold_totals, closed_fold_totals.
  cbv beta iota zeta.
  cbn [pp_total_pnl pp_open_pnl pp_closed_pnl pp_open_option_pnl
       pp_open_hedge_pnl pp_open_positions_count pp_closed_positions_count
       pp_open_positions pp_closed_positions app].
  unfold pysum.
  do 9 (split; [reflexivity|]).
  split; [apply valued_length|].
  rewrite length_firstn. pose proof (valued_length db (closed_or_expired db)).
  lia.
Qed.

(** The reports counted as winning and as losing trades. *)
Definition winners (rs : list report) : list report :=
  filter (fun r => if Rgt_dec (total_pnl r) 0 then true else false) rs.

Definition losers (rs : list report) : list report :=
  filter (fun r => if Rgt_dec (total_pnl r) 0 then false else true) rs.

Lemma winners_losers_length rs :
  (length (winners rs) + length (losers rs) = length rs)%nat.
Proof.
  induction rs as [|r rs IH]; simpl; [reflexivity|].
  destruct (Rgt_dec (total_pnl r) 0); simpl; lia.
Qed.

Lemma fold_left_Rplus_pos (xs : list R) (a : R) :
  (forall x, In x xs -> 0 < x) ->
  a <= fold_left Rplus xs a /\ (xs <> [] -> a < fold_left Rplus xs a).
Proof.
  revert a. induction xs as [|x xs IH]; intros a Hpos; simpl.
  - split; [lra|]. intros H. contradiction.
  - assert (Hx : 0 < x) by (apply Hpos; now left).
    destruct (IH (a + x) (fun y Hy => Hpos y (or_intror Hy))) as [I1 _].
    split; [lra|]. intros _. lra.
Qed.

(** The counters of [get_performance_metrics] after a run of the loop. *)
Lemma tally_fold db ps st :
  let st' := fold_left (tally_step self clk db) ps st in
  t_winning st' = (t_winning st + length (winners (valued db ps)))%nat /\
  t_losing st' = (t_losing st + length (losers (valued db ps)))%nat /\
  t_profit st'
  = fold_left Rplus (map total_pnl (winners (valued db ps))) (t_profit st) /\
  t_loss st'
  = fold_left Rplus
      (map (fun r => Rabs (total_pnl r)) (losers (valued db ps)))
      (t_loss st).
Proof.
  revert st. induction ps as [|p ps IH]; intros st.
  - simpl. repeat split; lia.
  - cbv zeta. rewrite fold_left_cons. simpl valued.
    specialize (IH (tally_step self clk db st p)). cbv zeta in IH.
    destruct IH as (I1 & I2 & I3 & I4).
    rewrite I1, I2, I3, I4. unfold tally_step.
    destruct (calculate_position_pnl self clk db (Position.id p)) as [r|].
    + cbn [app winners losers filter].
      fold (winners (valued db ps)). fold (losers (valued db ps)).
      destruct (Rgt_dec (total_pnl r) 0);
        destruct (Z_lt_dec (Position.quantity p) 0);
        cbn [t_winning t_losing t_profit t_loss map length];
        rewrite ?fold_left_cons; repeat split; lia.
    + cbn [app]. repeat split; reflexivity.
Qed.

(** The positions entered in the period, as selected by the query of
    [get_performance_metrics]. *)
Definition period_positions (db : DB) (start_date end_date : option Z)
  : list Position.t :=
  filter
    (fun p =>
       Z.leb (match start_date with
              | None => (now clk - seconds_per_year)%Z
              | Some d => d
              end) (Position.entry_date p)
       && Z.leb (Position.entry_date p)
                (match end_date with None => now clk | Some d => d end))
    (positions db).

(** X23: in [get_performance_metrics] (whatever pandas computes for the
    Sharpe ratio) total_trades counts the positions of the period; among
    those that could be valued, the winning trades are the ones with a total
    P&L > 0 and the losing trades all the others, so their sum never exceeds
    total_trades; total_profit adds up, from left to right, the total P&L of
    the winning trades and total_loss the absolute total P&L of the losing
    ones; net_pnl is total_profit - total_loss; total_profit is positive as
    soon as there is a winning trade; win_rate lies between 0 and 100; and
    profit_factor is total_profit / total_loss when total_loss > 0 and
    infinite otherwise. *)
Theorem performance_metrics_tally (series_mean : list R -> R)
  (series_std : list R -> option R) db start_date end_date :
  let m :=
    get_performance_metrics series_mean series_std self clk db
      start_date end_date in
  let vs := valued db (period_positions db start_date end_date) in
  total_trades m = length (period_positions db start_date end_date) /\
  winning_trades m = length (winners vs) /\
  losing_trades m = length (losers vs) /\
  (winning_trades m + losing_trades m <= total_trades m)%nat /\
  total_profit m = pysum (map total_pnl (winners vs)) /\
  total_loss m = pysum (map (fun r => Rabs (total_pnl r)) (losers vs)) /\
  net_pnl m = total_profit m - total_loss m /\
  0 <= total_profit m /\
  ((0 < winning_trades m)%nat -> 0 < total_profit m) /\
  0 <= win_rate m <= 100 /\
  profit_factor m
  = (if Rgt_dec (total_loss m) 0
     then BlackScholes.Finite (total_profit m / total_loss m)
     else BlackScholes.Inf).
Proof.
  intros m vs.
  pose proof (tally_fold db (period_positions db start_date end_date)
                {| t_winning := 0; t_losing := 0; t_profit := 0; t_loss := 0;
                   t_collected := 0; t_paid := 0 |}) as Hf.
  cbv zeta in Hf. cbn [t_winning t_losing t_profit t_loss Nat.add] in Hf.
  destruct Hf as (F1 & F2 & F3 & F4).
  pose proof (valued_length db (period_positions db start_date end_date))
    as Hlen.
  pose proof (winners_losers_length vs) as Hwl.
  assert (Hpos : forall x, In x (map total_pnl (winners vs)) -> 0 < x).
  { intros x Hx. apply in_map_iff in Hx. destruct Hx as (r & E & Hr).
    apply filter_In in Hr. destruct Hr as [_ Hr].
    destruct (Rgt_dec (total_pnl r) 0); [lra|discriminate]. }
  destruct (fold_left_Rplus_pos _ 0 Hpos) as [P1 P2].
  unfold m, get_performance_metrics.
  fold (period_positions db start_date end_date).
  cbn [total_trades winning_trades losing_trades net_pnl total_profit
       total_loss win_rate profit_factor].
  fold vs in F1, F2, F3, F4, Hlen.
  set (ps := period_positions db start_date end_date) in *.
  set (st := fold_left (tally_step self clk db) ps _) in *.
  unfold pysum.
  split; [reflexivity|]. split; [exact F1|]. split; [exact F2|].
  split; [lia|]. split; [exact F3|]. split; [exact F4|].
  split; [reflexivity|]. split; [rewrite F3; exact P1|].
  split.
  { intros Hw. rewrite F3. apply P2. intros E.
    rewrite F1 in Hw. apply (f_equal (@length R)) in E.
    rewrite length_map in E. simpl in E. lia. }
  split; [|reflexivity].
  destruct (Nat.ltb 0 (length ps)) eqn:En; [|lra].
  apply Nat.ltb_lt in En.
  assert (Hw : (t_winning st <= length ps)%nat) by lia.
  assert (Hn : 0 < INR (length ps)) by (apply lt_0_INR; exact En).
  assert (H0 : 0 <= INR (t_winning st)) by apply pos_INR.
  assert (H1 : INR (t_winning st) <= INR (length ps)) by (apply le_INR; lia).
  split.
  + apply Rmult_le_pos; [|lra]. apply Rmult_le_pos; [exact H0|].
    left. now apply Rinv_0_lt_compat.
  + apply Rle_trans with (1 * 100); [|lra].
    apply Rmult_le_compat_r; [lra|].
    apply Rmult_le_reg_r with (INR (length ps)); [exact Hn|].
    unfold Rdiv. rewrite Rmult_assoc, Rinv_l by lra. lra.
Qed.

End Aggregates.

Lemma attribution_components_witness :
  exists a,
    PnLTracker.get_pnl_attribution SellerScenario.tracker0 Scenario.clk0
      SellerScenario.db_closed 1 = Ok a /\
    (exists r,
       PnLTracker.calculate_position_pnl SellerScenario.tracker0
         Scenario.clk0 SellerScenario.db_closed 1 = Ok r /\
       PnLTracker.at_total_pnl a = PnLTracker.total_pnl r /\
       PnLTracker.at_option_pnl a = PnLTracker.option_pnl r /\
       PnLTracker.at_hedge_pnl a
       = PnLTracker.hedge_pnl r - PnLTracker.hedge_costs r /\
       PnLTracker.at_transaction_costs a = PnLTracker.hedge_costs r /\
       PnLTracker.at_estimated_theta_pnl a
       = Greeks.g_theta (PnLTracker.greeks r)
         * IZR (PnLTracker.days_held r) /\
       PnLTracker.at_estimated_delta_pnl a
       = Greeks.g_delta (PnLTracker.greeks r)
         * PnLTracker.underlying_change r
         * IZR (Z.abs (PnLTracker.quantity r))
         * PnLTracker.multiplier SellerScenario.tracker0) /\
    (Position.status SellerScenario.closed_call <> "open"%string ->
     PnLTracker.at_estimated_theta_pnl a = 0 /\
     PnLTracker.at_estimated_delta_pnl a = 0).
Proof.
  destruct SellerScenario.report_closed_call as (r & Hr & _).
  assert (Ha : exists a,
             PnLTracker.get_pnl_attribution SellerScenario.tracker0
               Scenario.clk0 SellerScenario.db_closed 1 = Ok a).
  { unfold PnLTracker.get_pnl_attribution. rewrite Hr.
    eexists. reflexivity. }
  destruct Ha as (a & Ha). exists a. split; [exact Ha|].
  apply (attribution_components SellerScenario.tracker0 Scenario.clk0
           SellerScenario.db_closed 1 SellerScenario.closed_call a).
  - exact SellerScenario.query_closed_call.
  - exact Ha.
Defined.

Section StressAndSummaries.

Import Database.

Variable md : MarketData.
Variable clk : Clock.

(** X24: a stress test with a 0% move reports no impact: every position it
    values has stressed price equal to the current price and P&L impact 0,
    and the total impact is 0.  For any move, at most one line per open
    position is reported. *)
Theorem stress_test_zero_move (format_signed_1f : R -> string) db :
  let res := RiskManager.stress_test format_signed_1f md clk db 0 in
  RiskManager.total_pnl_impact res = 0 /\
  (forall i, In i (RiskManager.position_impacts res) ->
     RiskManager.pnl_impact i = 0 /\
     RiskManager.stressed_price i = RiskManager.pi_current_price i) /\
  (forall pct,
     length (RiskManager.position_impacts
               (RiskManager.stress_test format_signed_1f md clk db pct))
     <= length (filter_by_status db "open"))%nat.
Proof.
  assert (Hstep : forall pos i,
            RiskManager.stress_position md clk 0 pos = Ok i ->
            RiskManager.pnl_impact i = 0 /\
            RiskManager.stressed_price i = RiskManager.pi_current_price i).
  { intros pos i. unfold RiskManager.stress_position, bind.
    destruct (get_stock_price md (Position.symbol pos)) as [u|];
      [|discriminate].
    replace (u * (1 + 0 / 100)) with u by field.
    destruct (BlackScholes.black_scholes_price u _ _ _ _ _ _) as [c|];
      [|discriminate].
    intros H. injection H as H. subst i. simpl.
    split; [|reflexivity].
    destruct (Z_lt_dec (Position.quantity pos) 0); ring. }
  assert (Hfold : forall pct ps t l,
            let st :=
              fold_left
                (fun st pos =>
                   let '(total_pnl_impact, position_impacts) := st in
                   match RiskManager.stress_position md clk pct pos with
                   | Ok impact =>
                       (total_pnl_impact + RiskManager.pnl_impact impact,
                        position_impacts ++ [impact])
                   | Raise _ => st
                   end) ps (t, l) in
            (length (snd st) <= length l + length ps)%nat /\
            (pct = 0 ->
             fst st = t /\
             forall i, In i (snd st) ->
               In i l \/
               (RiskManager.pnl_impact i = 0 /\
                RiskManager.stressed_price i
                = RiskManager.pi_current_price i))).
  { intros pct ps. induction ps as [|p ps IH]; intros t l.
    - simpl. split; [lia|]. intros _. split; [reflexivity|]. now left.
    - cbv zeta. rewrite fold_left_cons.
      destruct (RiskManager.stress_position md clk pct p) as [i|] eqn:Hi.
      + specialize (IH (t + RiskManager.pnl_impact i) (l ++ [i])).
        cbv zeta in IH. destruct IH as [L Z].
        split; [rewrite length_app in L; simpl in *; lia|].
        intros E. subst pct. destruct (Z eq_refl) as [Zt Zi].
        destruct (Hstep p i Hi) as [H0 H1].
        split; [rewrite Zt, H0; ring|].
        intros j Hj. destruct (Zi j Hj) as [Hin|Hz]; [|now right].
        apply in_app_or in Hin. destruct Hin as [Hin|[E|[]]]; [now left|].
        subst j. right. now split.
      + specialize (IH t l). cbv zeta in IH. destruct IH as [L Z].
        split; [simpl; lia|exact Z]. }
  intros res. unfold res, RiskManager.stress_test.
  split; [|split].
  - destruct (Hfold 0 (filter_by_status db "open") 0 []) as [_ Z].
    destruct (Z eq_refl) as [Zt _].
    destruct (fold_left _ _ _) as [t l]. simpl in *. exact Zt.
  - destruct (Hfold 0 (filter_by_status db "open") 0 []) as [_ Z].
    destruct (Z eq_refl) as [_ Zi].
    destruct (fold_left _ _ _) as [t l]. simpl in *.
    intros i Hi. destruct (Zi i Hi) as [[]|Hz]. exact Hz.
  - intros pct.
    destruct (Hfold pct (filter_by_status db "open") 0 []) as [L _].
    destruct (fold_left _ _ _) as [t l]. simpl in *. exact L.
Qed.

(** The lines of the open positions whose Greeks could be computed, in the
    order of the query. *)
Definition greeks_lines (ps : list Position.t)
  : list Portfolio.position_greeks_row :=
  flat_map
    (fun p =>
       match Portfolio.position_greeks_try md clk p with
       | Ok row => [row]
       | Raise _ => []
       end) ps.

Lemma greeks_lines_length ps : (length (greeks_lines ps) <= length ps)%nat.
Proof.
  induction ps as [|p ps IH]; simpl; [lia|].
  destruct (Portfolio.position_greeks_try md clk p);
    rewrite length_app; simpl; lia.
Qed.

Lemma greeks_lines_in ps row :
  In row (greeks_lines ps) ->
  exists p, In p ps /\ Portfolio.position_greeks_try md clk p = Ok row.
Proof.
  unfold greeks_lines. intros H. apply in_flat_map in H.
  destruct H as (p & Hp & Hr). exists p. split; [exact Hp|].
  destruct (Portfolio.position_greeks_try md clk p) as [row'|];
    [|destruct Hr].
  destruct Hr as [E|[]]. now subst.
Qed.

Lemma portfolio_greeks_loop ps g rows :
  fold_left
    (fun st position =>
       let '(portfolio_greeks, position_details) := st in
       match Portfolio.position_greeks_try md clk position with
       | Ok position_greeks =>
           ({| Greeks.g_delta :=
                 Greeks.g_delta portfolio_greeks
                 + Portfolio.pg_delta position_greeks;
               Greeks.g_gamma :=
                 Greeks.g_gamma portfolio_greeks
                 + Portfolio.pg_gamma position_greeks;
               Greeks.g_vega :=
                 Greeks.g_vega portfolio_greeks
                 + Portfolio.pg_vega position_greeks;
               Greeks.g_theta :=
                 Greeks.g_theta portfolio_greeks
                 + Portfolio.pg_theta position_greeks;
               Greeks.g_rho :=
                 Greeks.g_rho portfolio_greeks
                 + Portfolio.pg_rho position_greeks |},
            position_details ++ [position_greeks])
       | Raise _ => st
       end) ps (g, rows)
  = ({| Greeks.g_delta :=
          fold_left Rplus (map Portfolio.pg_delta (greeks_lines ps))
            (Greeks.g_delta g);
        Greeks.g_gamma :=
          fold_left Rplus (map Portfolio.pg_gamma (greeks_lines ps))
            (Greeks.g_gamma g);
        Greeks.g_vega :=
          fold_left Rplus (map Portfolio.pg_vega (greeks_lines ps))
            (Greeks.g_vega g);
        Greeks.g_theta :=
          fold_left Rplus (map Portfolio.pg_theta (greeks_lines ps))
            (Greeks.g_theta g);
        Greeks.g_rho :=
          fold_left Rplus (map Portfolio.pg_rho (greeks_lines ps))
            (Greeks.g_rho g) |},
     rows ++ greeks_lines ps).
Proof.
  revert g rows. induction ps as [|p ps IH]; intros g rows.
  - simpl. rewrite app_nil_r. destruct g; reflexivity.
  - rewrite fold_left_cons. simpl greeks_lines.
    destruct (Portfolio.position_greeks_try md clk p) as [row|].
    + rewrite IH. cbn [app map Greeks.g_delta Greeks.g_gamma Greeks.g_vega
                       Greeks.g_theta Greeks.g_rho].
      rewrite !fold_left_cons, <- app_assoc. reflexivity.
    + rewrite IH. reflexivity.
Qed.

(** X25: [Portfolio.get_portfolio_greeks] returns one line per open position
    whose quote and Greeks could be computed, in the order of the query
    (the others are absent from the lines and from the totals).  Each of the
    five Greeks of a line is the per-contract Greek of
    [calculate_all_greeks] times (quantity times the multiplier 100), and
    each portfolio Greek adds up the lines from left to right. *)
Theorem portfolio_greeks_totals db :
  let res := Portfolio.get_portfolio_greeks md clk db in
  snd res = greeks_lines (filter_by_status db "open") /\
  Greeks.g_delta (fst res) = pysum (map Portfolio.pg_delta (snd res)) /\
  Greeks.g_gamma (fst res) = pysum (map Portfolio.pg_gamma (snd res)) /\
  Greeks.g_vega (fst res) = pysum (map Portfolio.pg_vega (snd res)) /\
  Greeks.g_theta (fst res) = pysum (map Portfolio.pg_theta (snd res)) /\
  Greeks.g_rho (fst res) = pysum (map Portfolio.pg_rho (snd res)) /\
  (length (snd res) <= length (filter_by_status db "open"))%nat /\
  (forall row, In row (snd res) ->
     exists p price g,
       In p (filter_by_status db "open") /\
       get_stock_price md (Position.symbol p) = Ok price /\
       Greeks.calculate_all_greeks price (Position.strike p)
         (pymax (IZR (Position.expiration p - today clk) / 365.0) 0.0001)
         (Position.risk_free_rate p) (Position.implied_vol p)
         (Position.option_type p) (Position.dividend_yield p) = Ok g /\
       Portfolio.pg_position_id row = Position.id p /\
       Portfolio.pg_delta row
       = Greeks.g_delta g * (IZR (Position.quantity p) * 100) /\
       Portfolio.pg_gamma row
       = Greeks.g_gamma g * (IZR (Position.quantity p) * 100) /\
       Portfolio.pg_vega row
       = Greeks.g_vega g * (IZR (Position.quantity p) * 100) /\
       Portfolio.pg_theta row
       = Greeks.g_theta g * (IZR (Position.quantity p) * 100) /\
       Portfolio.pg_rho row
       = Greeks.g_rho g * (IZR (Position.quantity p) * 100)).
Proof.
  intros res. unfold res, Portfolio.get_portfolio_greeks.
  rewrite portfolio_greeks_loop. cbn [fst snd app].
  cbn [Greeks.g_delta Greeks.g_gamma Greeks.g_vega Greeks.g_theta
       Greeks.g_rho Greeks.zero_greeks].
  unfold pysum.
  do 6 (split; [reflexivity|]).
  split; [apply greeks_lines_length|].
  intros row Hrow.
  destruct (greeks_lines_in _ _ Hrow) as (p & Hp & Hpr).
  unfold Portfolio.position_greeks_try, bind in Hpr.
  destruct (get_stock_price md (Position.symbol p)) as [price|] eqn:Hprice;
    [|discriminate].
  destruct (Greeks.calculate_all_greeks _ _ _ _ _ _ _) as [g|] eqn:Hg;
    [|discriminate].
  injection Hpr as Hpr. subst row. exists p, price, g.
  cbn [Portfolio.pg_position_id Portfolio.pg_delta Portfolio.pg_gamma
       Portfolio.pg_vega Portfolio.pg_theta Portfolio.pg_rho].
  split; [exact Hp|]. split; [exact Hprice|]. split; [exact Hg|].
  repeat split; reflexivity.
Qed.

End StressAndSummaries.

Section PositionsSummary.

Import Database.

Variable md : MarketData.
Variable clk : Clock.

(** The lines of the positions that could be quoted and priced, in the order
    of the query. *)
Definition summary_lines (db : DB) (ps : list Position.t)
  : list Portfolio.position_summary_row :=
  flat_map
    (fun p =>
       match Portfolio.position_summary_try md clk db p with
       | Ok row => [row]
       | Raise _ => []
       end) ps.

Lemma summary_lines_length db ps :
  (length (summary_lines db ps) <= length ps)%nat.
Proof.
  induction ps as [|p ps IH]; simpl; [lia|].
  destruct (Portfolio.position_summary_try md clk db p);
    rewrite length_app; simpl; lia.
Qed.

Lemma summary_lines_in db ps row :
  In row (summary_lines db ps) ->
  exists p, In p ps /\ Portfolio.position_summary_try md clk db p = Ok row.
Proof.
  unfold summary_lines. intros H. apply in_flat_map in H.
  destruct H as (p & Hp & Hr). exists p. split; [exact Hp|].
  destruct (Portfolio.position_summary_try md clk db p) as [row'|];
    [|destruct Hr].
  destruct Hr as [E|[]]. now subst.
Qed.

Lemma positions_summary_loop db ps v t rows :
  fold_left
    (fun st pos =>
       let '(total_value, total_pnl, positions_list) := st in
       match Portfolio.position_summary_try md clk db pos with
       | Ok row =>
           (total_value + Portfolio.ps_value row,
            total_pnl + Portfolio.ps_pnl row,
            positions_list ++ [row])
       | Raise _ => st
       end) ps (v, t, rows)
  = (fold_left Rplus (map Portfolio.ps_value (summary_lines db ps)) v,
     fold_left Rplus (map Portfolio.ps_pnl (summary_lines db ps)) t,
     rows ++ summary_lines db ps).
Proof.
  revert v t rows. induction ps as [|p ps IH]; intros v t rows.
  - simpl. rewrite app_nil_r. reflexivity.
  - rewrite fold_left_cons. simpl summary_lines.
    destruct (Portfolio.position_summary_try md clk db p) as [row|].
    + rewrite IH. cbn [app map]. rewrite !fold_left_cons, <- app_assoc.
      reflexivity.
    + rewrite IH. reflexivity.
Qed.

(** X26: in the summary returned by [Portfolio.get_positions_summary] the
    total value and total P&L are the sums, from left to right, of the value
    and P&L columns of the listed lines; the open count is the number of
    open positions (listed or not), the closed count the number of closed
    ones; and every listed line belongs to an open position that could be
    quoted and priced, its value being option price times |quantity| times
    100. *)
Theorem positions_summary_totals db :
  let s := Portfolio.get_positions_summary md clk db in
  Portfolio.sum_total_value s
  = pysum (map Portfolio.ps_value (Portfolio.sum_positions s)) /\
  Portfolio.sum_total_pnl s
  = pysum (map Portfolio.ps_pnl (Portfolio.sum_positions s)) /\
  Portfolio.sum_open_positions s = length (filter_by_status db "open") /\
  Portfolio.sum_closed_positions s = length (filter_by_status db "closed") /\
  (length (Portfolio.sum_positions s) <= Portfolio.sum_open_positions s)%nat /\
  (forall row, In row (Portfolio.sum_positions s) ->
     exists p price,
       In p (filter_by_status db "open") /\
       get_stock_price md (Position.symbol p) = Ok price /\
       Portfolio.ps_id row = Position.id p /\
       BlackScholes.black_scholes_price price (Position.strike p)
         (pymax (IZR (Position.expiration p - today clk) / 365.0) 0)
         (Position.risk_free_rate p) (Position.implied_vol p)
         (Position.option_type p) (Position.dividend_yield p)
       = Ok (Portfolio.ps_option_price row) /\
       Portfolio.ps_value row
       = Portfolio.ps_option_price row * IZR (Z.abs (Position.quantity p))
         * 100 /\
       Portfolio.ps_pnl row
       = Portfolio.total_pnl
           (Portfolio._calculate_position_pnl md db p
              (Portfolio.ps_option_price row))).
Proof.
  intros s. unfold s, Portfolio.get_positions_summary.
  rewrite positions_summary_loop. cbv beta iota zeta.
  cbn [fst snd app Portfolio.sum_total_value Portfolio.sum_total_pnl
       Portfolio.sum_open_positions Portfolio.sum_closed_positions
       Portfolio.sum_positions].
  unfold pysum.
  do 4 (split; [reflexivity|]).
  split; [apply summary_lines_length|].
  intros row Hrow.
  destruct (summary_lines_in _ _ _ Hrow) as (p & Hp & Hpr).
  unfold Portfolio.position_summary_try, bind in Hpr.
  destruct (get_stock_price md (Position.symbol p)) as [price|] eqn:Hprice;
    [|discriminate].
  destruct (BlackScholes.black_scholes_price price _ _ _ _ _ _)
    as [c|] eqn:Hc; [|discriminate].
  injection Hpr as Hpr. subst row. exists p, price.
  cbn [Portfolio.ps_id Portfolio.ps_option_price Portfolio.ps_value
       Portfolio.ps_pnl].
  split; [exact Hp|]. split; [exact Hprice|]. split; [reflexivity|].
  split; [exact Hc|]. split; reflexivity.
Qed.

End PositionsSummary.

Section QuoteCache.

Import MarketDataCache.

Variable A : Type.

(** X27: the quote cache round trip.  A value stored at time [t0] is
    returned by a [get] at time [t1] exactly while [t1 - t0 < ttl]; a [get]
    at or after the time-to-live returns nothing and deletes the entry, so
    every later [get] of that key misses whatever the clock reads; [set]
    and [get] leave the other keys alone; after [clear] every key
    misses. *)
Theorem cache_round_trip (c : t A) (t0 t1 : R) (key : string) (value : A) :
  let c1 := set c t0 key value in
  (t1 - t0 < ttl c -> get c1 t1 key = (Some value, c1)) /\
  (ttl c <= t1 - t0 ->
     fst (get c1 t1 key) = None /\
     forall t2, fst (get (snd (get c1 t1 key)) t2 key) = None) /\
  (forall other, other <> key ->
     cache c1 other = cache c other /\
     cache (snd (get c1 t1 key)) other = cache c other) /\
  (forall t2 k, get (clear c1) t2 k = (None, clear c1)) /\
  ttl (snd (get c1 t1 key)) = ttl c.
Proof.
  intros c1. unfold c1, get, set. cbn [cache ttl].
  rewrite String.eqb_refl.
  split; [|split; [|split; [|split]]].
  - intros H. destruct (Rlt_dec (t1 - t0) (ttl c)) as [_|N];
      [reflexivity|contradiction].
  - intros H. destruct (Rlt_dec (t1 - t0) (ttl c)) as [L|_]; [lra|].
    cbn [fst snd cache ttl]. rewrite String.eqb_refl.
    split; reflexivity.
  - intros other Ho. apply String.eqb_neq in Ho.
    destruct (Rlt_dec (t1 - t0) (ttl c)); cbn [fst snd cache ttl];
      rewrite !Ho; split; reflexivity.
  - intros t2 k. reflexivity.
  - destruct (Rlt_dec (t1 - t0) (ttl c)); reflexivity.
Qed.

End QuoteCache.

Section QuoteSources.

Import MarketDataManager.

Variable Q : Type.
Variable AlphaVantageClient : string -> client Q.
Variable YahooFinanceClient : client Q.

(** X28: which source answers [MarketDataManager.get_stock_price].  With
    Yahoo Finance enabled, a Yahoo quote is returned without consulting
    Alpha Vantage; if Yahoo raises, Alpha Vantage answers when a key was
    given, and otherwise Yahoo's own exception is re-raised.  With Yahoo
    disabled, Alpha Vantage answers when a key was given, and otherwise the
    call raises ValueError "No market data source available".  An empty key
    counts as no key. *)
Theorem get_stock_price_source (alpha_vantage_key : option string)
  (use_yfinance : bool) (symbol : string) :
  let self := init AlphaVantageClient YahooFinanceClient alpha_vantage_key
                use_yfinance in
  let no_key := alpha_vantage_key = None \/ alpha_vantage_key = Some ""%string in
  (forall quote, use_yfinance = true ->
     YahooFinanceClient symbol = Ok quote ->
     get_stock_price self symbol = Ok quote) /\
  (forall e key, use_yfinance = true ->
     YahooFinanceClient symbol = Raise e ->
     alpha_vantage_key = Some key -> key <> ""%string ->
     get_stock_price self symbol = AlphaVantageClient key symbol) /\
  (forall e, use_yfinance = true ->
     YahooFinanceClient symbol = Raise e -> no_key ->
     get_stock_price self symbol = Raise e) /\
  (forall key, use_yfinance = false ->
     alpha_vantage_key = Some key -> key <> ""%string ->
     get_stock_price self symbol = AlphaVantageClient key symbol) /\
  (use_yfinance = false -> no_key ->
     get_stock_price self symbol
     = Raise (ValueError "No market data source available")).
Proof.
  intros self no_key. unfold self, no_key, init, get_stock_price.
  cbn [av_client yf_client preferred_source].
  split; [|split; [|split; [|split]]].
  - intros quote -> Hy. cbn. rewrite Hy. reflexivity.
  - intros e key -> Hy -> Hk. apply String.eqb_neq in Hk.
    cbn. rewrite Hy, Hk. reflexivity.
  - intros e -> Hy [-> | ->]; cbn; rewrite Hy; reflexivity.
  - intros key -> -> Hk. apply String.eqb_neq in Hk.
    cbn. rewrite Hk. reflexivity.
  - intros -> [-> | ->]; reflexivity.
Qed.

End QuoteSources.
